(** * hartnet.js: the Art-Net engine of Hemisphere-Project/dmxnet

    A shallow embedding of [src/hartnet.js] and the properties of its
    packet codec, port-address model, dispatcher, discovery replies and
    node registry.

    Conventions of the embedding:
    - a JavaScript number that holds an integer is a [Z]; a number that may
      be [NaN] (the result of [parseInt] on a failed [jspack.Unpack]) is an
      [option Z] with [None] for [NaN];
    - a [Buffer] is a [list Z] of octets; a string read from or written to
      the wire is the [list Z] of its character codes;
    - an IPv4 address is the 32-bit number the [netmask] package computes
      from its dotted form ([ip2long]); a MAC address is its list of octets;
    - every handler runs to completion on the event loop, so a handler is a
      function from the object's state (and the current time) to the new
      state, the events it produced and its completion. *)

From Stdlib Require Import ZArith List Lia Bool String DecimalString.
From stdpp Require Import base option list gmap.
Import ListNotations.
Open Scope Z_scope.

(** ** JavaScript 32-bit integer operators *)

Module JS.

(** [ToInt32]: wrap into [-2^31, 2^31). *)
Definition ToInt32 (x : Z) : Z := (x + 2 ^ 31) mod 2 ^ 32 - 2 ^ 31.

(** [a << b] *)
Definition shl (a b : Z) : Z := ToInt32 (Z.shiftl (ToInt32 a) (b mod 32)).

(** [a >> b] (sign-propagating) *)
Definition sar (a b : Z) : Z := Z.shiftr (ToInt32 a) (b mod 32).

(** [a & b] *)
Definition band (a b : Z) : Z := Z.land (ToInt32 a) (ToInt32 b).

(** [a | b] *)
Definition bor (a b : Z) : Z := Z.lor (ToInt32 a) (ToInt32 b).

(** A number that may be [NaN]. *)
Definition num := option Z.

Definition nadd (a b : num) : num :=
  match a, b with Some x, Some y => Some (x + y) | _, _ => None end.

Definition nmul (a : num) (k : Z) : num :=
  match a with Some x => Some (x * k) | None => None end.

(** [!n]: true for [NaN] and for [0]. *)
Definition falsy (n : num) : bool :=
  match n with Some x => x =? 0 | None => true end.

(** [n < k]: false when [n] is [NaN]. *)
Definition nlt (n : num) (k : Z) : bool :=
  match n with Some x => x <? k | None => false end.

(** [n == k]: false when [n] is [NaN]. *)
Definition neq (n : num) (k : Z) : bool :=
  match n with Some x => x =? k | None => false end.

(** Exceptions. *)
Inductive exn : Type :=
| Error (msg : string)
| TypeError (msg : string).

End JS.

(** ** The [jspack] package, as far as [hartnet.js] uses it

    Formats are big-endian (they start with [!]); the only element codes in
    use are [s] (string of [n] octets), [B] (unsigned octet) and [H]
    (unsigned 16-bit). [Pack] returns [false] (here [None]) when the values
    run out, and [Unpack] returns [undefined] (here [None]) when the buffer
    is too short for the format. *)

Module Jspack.

Inductive item : Type :=
| Fs (n : nat)   (* [ns] : one string value, [n] octets *)
| FB (n : nat)   (* [nB] : [n] values, one octet each *)
| FH (n : nat).  (* [nH] : [n] values, two octets each *)

Inductive val : Type :=
| VStr (s : list Z)
| VNum (v : Z).

#[global] Instance val_eq_dec : EqDecision val.
Proof. solve_decision. Defined.

Definition item_len (it : item) : nat :=
  match it with Fs n => n | FB n => n | FH n => (2 * n)%nat end.

(** [CalcLength] *)
Definition CalcLength (fmt : list item) : nat :=
  fold_right (fun it acc => (item_len it + acc)%nat) 0%nat fmt.

(** [_EnInt] clamps the value into the range of the element first. *)
Definition clamp (lo hi v : Z) : Z :=
  if v <? lo then lo else if hi <? v then hi else v.

Definition EnB (v : Z) : list Z := [JS.band (clamp 0 255 v) 255].

Definition EnH (v : Z) : list Z :=
  let c := clamp 0 65535 v in
  [JS.band (JS.sar c 8) 255; JS.band c 255].

(** [_EnString]: [l] octets, [0] where the string has no character. *)
Definition EnString (l : nat) (s : list Z) : list Z :=
  take l (s ++ repeat 0 l).

(** [_PackSeries]: the next [n] values, each a number. *)
Fixpoint PackSeries (en : Z -> list Z) (n : nat) (values : list val)
  : option (list Z * list val) :=
  match n with
  | O => Some ([], values)
  | S n' =>
      match values with
      | VNum v :: rest =>
          match PackSeries en n' rest with
          | Some (bs, rest') => Some (en v ++ bs, rest')
          | None => None
          end
      | _ => None
      end
  end.

Fixpoint Pack (fmt : list item) (values : list val) : option (list Z) :=
  match fmt with
  | [] => Some []
  | Fs n :: fmt' =>
      match values with
      | VStr s :: rest =>
          match Pack fmt' rest with
          | Some bs => Some (EnString n s ++ bs)
          | None => None
          end
      | _ => None
      end
  | FB n :: fmt' =>
      match PackSeries EnB n values with
      | Some (hd, rest) =>
          match Pack fmt' rest with
          | Some bs => Some (hd ++ bs)
          | None => None
          end
      | None => None
      end
  | FH n :: fmt' =>
      match PackSeries EnH n values with
      | Some (hd, rest) =>
          match Pack fmt' rest with
          | Some bs => Some (hd ++ bs)
          | None => None
          end
      | None => None
      end
  end.

(** [_DeInt] for [B] and for big-endian [H], at octet offset [p]. *)
Definition octet (a : list Z) (p : nat) : Z := default 0 (a !! p).

Definition DeB (a : list Z) (p : nat) : Z := octet a p.

Definition DeH (a : list Z) (p : nat) : Z :=
  octet a (p + 1) + octet a p * 256.

(** [_DeString] *)
Definition DeString (a : list Z) (p l : nat) : list Z :=
  take l (drop p a).

Fixpoint UnpackSeries (de : list Z -> nat -> Z) (s n : nat)
                      (a : list Z) (p : nat) : list val :=
  match n with
  | O => []
  | S n' => VNum (de a p) :: UnpackSeries de s n' a (p + s)
  end.

(** [Unpack fmt a p]: [None] as soon as an element would run past the end
    of the buffer. *)
Fixpoint Unpack (fmt : list item) (a : list Z) (p : nat)
  : option (list val) :=
  match fmt with
  | [] => Some []
  | it :: fmt' =>
      if (length a <? p + item_len it)%nat then None
      else
        match Unpack fmt' a (p + item_len it) with
        | Some rv =>
            Some (match it with
                  | Fs n => [VStr (DeString a p n)]
                  | FB n => UnpackSeries DeB 1 n a p
                  | FH n => UnpackSeries DeH 2 n a p
                  end ++ rv)
        | None => None
        end
  end.

(** [parseInt(jspack.Unpack('B', msg, p), 10)]: the octet at [p], or
    [NaN] when the buffer ends before it. *)
Definition parseInt_B (a : list Z) (p : nat) : JS.num :=
  match Unpack [FB 1] a p with
  | Some [VNum v] => Some v
  | _ => None
  end.

End Jspack.

(** ** The [netmask] package, as far as [hartnet.js] uses it *)

Module Netmask.

Record t : Type := mk { netLong : Z; maskLong : Z; bitmask : Z }.

(** [ip2long] of a dotted quad. *)
Definition ipv4 (a b c d : Z) : Z := ((a * 256 + b) * 256 + c) * 256 + d.

(** [new Netmask(base + '/' + bits)] for [0 <= bits <= 32]. *)
Definition new (base bits : Z) : t :=
  let m := if bits =? 0 then 0 else 2 ^ 32 - 2 ^ (32 - bits) in
  {| netLong := Z.land base m; maskLong := m; bitmask := bits |}.

(** [contains(ip)] *)
Definition contains (n : t) (ip : Z) : bool :=
  Z.land ip (maskLong n) =? Z.land (netLong n) (maskLong n).

(** [broadcast]: undefined for [/31] and [/32]. *)
Definition broadcast (n : t) : option Z :=
  if bitmask n <=? 30
  then Some (netLong n + 2 ^ (32 - bitmask n) - 1)
  else None.

End Netmask.

(** ** Handlers: state, events and completion *)

(** What a handler lets the outside world see. Logger calls that only trace
    progress are left out; the ones kept mark a discarded datagram, a
    skipped poll or a warning. *)
Inductive logmsg : Type :=
| PayloadTooShort | InvalidHeader | InvalidOpCode
| NoReceiverSet
| ArtPollTooSmall | ArtPollInvalidProto
| NewController | NewNode
| ArtPollReplyTooShort | ArtPollReplyFromMyself
| OpCodeNotImplemented
| SkipArtPoll
| NoMatchingInterface.

Inductive event : Type :=
| Log (m : logmsg)
  (** [socket.send(packet, 0, packet.length, port, address, cb)] *)
| UdpSend (packet : list Z) (port : Z) (address : option Z)
  (** [receivers[i].emit('data', data)] *)
| EmitData (i : nat) (data : list Z)
  (** [this.emit('node-update', node)] *)
| EmitNodeUpdate (mac : list Z).

Inductive completion (A : Type) : Type :=
| Normal (a : A)
| Abrupt (e : JS.exn).
Arguments Normal {A} a.
Arguments Abrupt {A} e.

(** A handler over a mutable object of type [St]. *)
Definition Eff (St A : Type) : Type := St -> St * list event * completion A.

Definition ret {St A} (a : A) : Eff St A := fun s => (s, [], Normal a).

Definition bind {St A B} (m : Eff St A) (k : A -> Eff St B) : Eff St B :=
  fun s =>
    match m s with
    | (s1, ev1, Normal a) =>
        match k a s1 with (s2, ev2, c) => (s2, ev1 ++ ev2, c) end
    | (s1, ev1, Abrupt e) => (s1, ev1, Abrupt e)
    end.

Definition throw {St A} (e : JS.exn) : Eff St A := fun s => (s, [], Abrupt e).
Definition get {St} : Eff St St := fun s => (s, [], Normal s).
Definition modify {St} (f : St -> St) : Eff St unit := fun s => (f s, [], Normal tt).
Definition emit {St} (e : event) : Eff St unit := fun s => (s, [e], Normal tt).

(** [if (c) m;] *)
Definition when {St} (c : bool) (m : Eff St unit) : Eff St unit :=
  if c then m else ret tt.

(** [for (x of l) body(x)] *)
Fixpoint for_each {St A} (l : list A) (body : A -> Eff St unit) : Eff St unit :=
  match l with
  | [] => ret tt
  | x :: l' => bind (body x) (fun _ => for_each l' body)
  end.

Declare Scope eff_scope.
Delimit Scope eff_scope with eff.
Notation "x <- m ;; k" := (bind m (fun x => k))
  (at level 100, m at next level, right associativity) : eff_scope.
Notation "m ;; k" := (bind m (fun _ => k))
  (at level 100, right associativity) : eff_scope.

Definition state_of {St A} (r : St * list event * completion A) : St := fst (fst r).
Definition events_of {St A} (r : St * list event * completion A) : list event := snd (fst r).
Definition completion_of {St A} (r : St * list event * completion A) : completion A := snd r.

Definition threw {A} (c : completion A) : bool :=
  match c with Abrupt _ => true | Normal _ => false end.

(** ** Local interfaces ([INTERFACES], read once at start-up) *)

Module Iface.
Record t : Type := mk { ip : Z; mac : list Z; netmask : Netmask.t }.
End Iface.

(** [swap16] *)
Definition swap16 (val : Z) : Z :=
  JS.bor (JS.shl (JS.band val 255) 8) (JS.band (JS.sar val 8) 255).

(** The port-address computation shared by the [Sender] and [Receiver]
    constructors: carry universe into subnet and subnet into net, then
    combine. The options are integers; the two [+=] are exact as long as
    the sums stay below [2 ^ 53] in size, above which JavaScript rounds
    them. *)
Module PortAddress.

Record t : Type := mk {
  net : Z; subnet : Z; universe : Z;
  port_subuni : Z; port_address : Z
}.

Definition calculate (net0 subnet0 universe0 : Z) : t :=
  let subnet1 := subnet0 + JS.sar universe0 4 in   (* subnet += universe >> 4 *)
  let universe1 := JS.band universe0 15 in         (* universe = universe & 0x0F *)
  let net1 := net0 + JS.sar subnet1 4 in           (* net += subnet >> 4 *)
  let subnet2 := JS.band subnet1 15 in             (* subnet = subnet & 0x0F *)
  let subuni := JS.bor (JS.shl subnet2 4) universe1 in
  {| net := net1; subnet := subnet2; universe := universe1;
     port_subuni := subuni;
     port_address := JS.bor (JS.shl net1 8) subuni |}.

End PortAddress.

(** [this.handleError(err)] evaluated inside a [Sender] or a [Receiver]:
    neither class declares [handleError] (only [hartnet] does, and
    [Receiver] extends [EventEmitter]), so after [err] is built the call
    itself raises a [TypeError]. *)
Definition device_handleError {St} (err : JS.exn) : Eff St unit :=
  throw (JS.TypeError "this.handleError is not a function").

(** ** Sender *)

Module Sender.

Record Options : Type := mkOptions {
  net : Z; subnet : Z; universe : Z;
  to : Z; broadcast : bool; port : Z; base_refresh_interval : Z
}.

(** The defaults of the [options] class field. *)
Definition default_options : Options :=
  {| net := 0; subnet := 0; universe := 0;
     to := Netmask.ipv4 255 255 255 255; broadcast := false;
     port := 6454; base_refresh_interval := 1000 |}.

Record t : Type := mk {
  options : Options;
  interfaces : list Iface.t;
  port_subuni : Z;
  port_address : Z;
  socket_ready : bool;
  ArtDmxSeq : Z;
  values : list Z;
  ip4 : option Z
}.

Definition set_values (f : list Z -> list Z) (s : t) : t :=
  mk (options s) (interfaces s) (port_subuni s) (port_address s)
     (socket_ready s) (ArtDmxSeq s) (f (values s)) (ip4 s).

Definition set_ArtDmxSeq (q : Z) (s : t) : t :=
  mk (options s) (interfaces s) (port_subuni s) (port_address s)
     (socket_ready s) q (values s) (ip4 s).

Definition set_socket_ready (b : bool) (s : t) : t :=
  mk (options s) (interfaces s) (port_subuni s) (port_address s)
     b (ArtDmxSeq s) (values s) (ip4 s).

(** ['!7sBHHBBBBH' + '512B'] *)
Definition ArtDmxFormat : list Jspack.item :=
  [Jspack.Fs 7; Jspack.FB 1; Jspack.FH 1; Jspack.FH 1; Jspack.FB 1;
   Jspack.FB 1; Jspack.FB 1; Jspack.FB 1; Jspack.FH 1; Jspack.FB 512].

(** ['Art-Net'] *)
Definition ArtNetId : list Z := [65; 114; 116; 45; 78; 101; 116].

(** The packet [transmit] builds:
    [jspack.Pack(fmt, ['Art-Net', 0, 0x0050, 14, seq, 0, port_subuni, net, 512].concat(values))];
    [Buffer.from] of a failed [Pack] raises. *)
Definition ArtDmxPacket (seq subuni net : Z) (vals : list Z) : option (list Z) :=
  Jspack.Pack ArtDmxFormat
    ([Jspack.VStr ArtNetId; Jspack.VNum 0; Jspack.VNum 80; Jspack.VNum 14;
      Jspack.VNum seq; Jspack.VNum 0; Jspack.VNum subuni; Jspack.VNum net;
      Jspack.VNum 512] ++ map Jspack.VNum vals).

Local Open Scope eff_scope.

Definition transmit : Eff t unit :=
  s <- get ;;
  if negb (socket_ready s) then ret tt
  else
    match ArtDmxPacket (ArtDmxSeq s) (port_subuni s) (net (options s)) (values s) with
    | None => throw (JS.TypeError "Buffer.from: invalid argument")
    | Some udppacket =>
        modify (set_ArtDmxSeq ((ArtDmxSeq s + 1) mod 256)) ;;
        emit (UdpSend udppacket (port (options s)) (ip4 s))
    end.

(** [this.values[channel] = value] for an integer index: an index past the
    end extends the array (the gap reads [0] once packed), a negative one
    sets a property and leaves the elements alone. *)
Definition store (channel value : Z) (vals : list Z) : list Z :=
  if channel <? 0 then vals
  else if channel <? Z.of_nat (length vals)
       then <[Z.to_nat channel := value]> vals
       else vals ++ repeat 0 (Z.to_nat channel - length vals) ++ [value].

Definition setChannel (channel value : Z) : Eff t unit :=
  when ((channel >? 511) || (channel <? 0))
       (device_handleError (JS.Error "Channel must be between 0 and 512")) ;;
  when ((value >? 255) || (value <? 0))
       (device_handleError (JS.Error "Value must be between 0 and 255")) ;;
  modify (set_values (store channel value)) ;;
  transmit.

Definition prepChannel (channel value : Z) : Eff t unit :=
  when ((channel >? 511) || (channel <? 0))
       (device_handleError (JS.Error "Channel must be between 0 and 512")) ;;
  when ((value >? 255) || (value <? 0))
       (device_handleError (JS.Error "Value must be between 0 and 255")) ;;
  modify (set_values (store channel value)).

(** [for (var i = start; i <= stop; i++) this.values[i] = value] *)
Definition fill_loop (start stop value : Z) (vals : list Z) : list Z :=
  fold_left (fun acc k => store (start + Z.of_nat k) value acc)
            (seq 0 (Z.to_nat (stop - start + 1))) vals.

Definition fillChannels (start stop value : Z) : Eff t unit :=
  when ((start >? 511) || (start <? 0))
       (device_handleError (JS.Error "Channel must be between 0 and 512")) ;;
  when ((stop >? 511) || (stop <? 0))
       (device_handleError (JS.Error "Channel must be between 0 and 512")) ;;
  when ((value >? 255) || (value <? 0))
       (device_handleError (JS.Error "Value must be between 0 and 255")) ;;
  modify (set_values (fill_loop start stop value)) ;;
  transmit.

Definition blackout : Eff t unit :=
  modify (set_values (fun vals => map (fun _ => 0) vals)) ;;
  transmit.

(** Destination and interfaces, as the constructor resolves them. *)
Definition resolve (INTERFACES : list Iface.t) (o : Options)
  : bool * option Z * list Iface.t :=
  if to o =? Netmask.ipv4 255 255 255 255
  then (true, Some (to o), INTERFACES)
  else
    fold_left
      (fun '(bc, ip, ifs) iface =>
         if Netmask.contains (Iface.netmask iface) (to o) then
           let bc' :=
             match Netmask.broadcast (Iface.netmask iface) with
             | Some b => if to o =? b then true else bc
             | None => bc
             end in
           let ip' :=
             match Netmask.broadcast (Iface.netmask iface) with
             | Some b => if bc' then Some b else Some (to o)
             | None => Some (to o)
             end in
           (bc', ip', ifs ++ [iface])
         else (bc, ip, ifs))
      INTERFACES (broadcast o, None, []).

(** [new Sender(opt, parent)], up to the moment the socket is bound. The
    first [transmit()] of the constructor finds [socket_ready] false and
    returns at once. *)
Definition new (INTERFACES : list Iface.t) (opt : Options)
  : list event * completion t :=
  let pa := PortAddress.calculate (net opt) (subnet opt) (universe opt) in
  if PortAddress.port_address pa >? 32767
  then ([], Abrupt (JS.TypeError "this.handleError is not a function"))
  else
    let '(bc, ip, ifs) := resolve INTERFACES opt in
    let o := {| net := PortAddress.net pa; subnet := PortAddress.subnet pa;
                universe := PortAddress.universe pa;
                to := to opt; broadcast := bc; port := port opt;
                base_refresh_interval := base_refresh_interval opt |} in
    ((if (length ifs <? 1)%nat then [Log NoMatchingInterface] else []),
     Normal {| options := o; interfaces := ifs;
               port_subuni := PortAddress.port_subuni pa;
               port_address := PortAddress.port_address pa;
               socket_ready := false; ArtDmxSeq := 1;
               values := repeat 0 512; ip4 := ip |}).

(** The callback of [socket.bind]. *)
Definition on_bound : Eff t unit := modify (set_socket_ready true).

End Sender.

(** ** Receiver *)

Module Receiver.

(** [from] is [null], an address, or an address with a prefix length. *)
Record Options : Type := mkOptions {
  from : option (Z * option Z);
  net : Z; subnet : Z; universe : Z
}.

Definition default_options : Options :=
  {| from := None; net := 0; subnet := 0; universe := 0 |}.

Record t : Type := mk {
  options : Options;
  interfaces : list Iface.t;
  port_subuni : Z;
  port_address : Z;
  ipnet : Netmask.t;
  values : list Z
}.

Definition set_values (d : list Z) (r : t) : t :=
  mk (options r) (interfaces r) (port_subuni r) (port_address r) (ipnet r) d.

(** [new Receiver(opt, parent)] *)
Definition new (INTERFACES : list Iface.t) (opt : Options)
  : list event * completion t :=
  let pa := PortAddress.calculate (net opt) (subnet opt) (universe opt) in
  if PortAddress.port_address pa >? 32767
  then ([], Abrupt (JS.TypeError "this.handleError is not a function"))
  else
    (* a filter without a prefix length gets [/32] *)
    let from' :=
      match from opt with
      | Some (a, None) => Some (a, Some 32)
      | f => f
      end in
    let net_ :=
      match from' with
      | Some (a, Some bits) => Netmask.new a bits
      | _ => Netmask.new (Netmask.ipv4 0 0 0 0) 0
      end in
    let ifs := List.filter (fun iface => Netmask.contains net_ (Iface.ip iface)) INTERFACES in
    let o := {| from := from'; net := PortAddress.net pa;
                subnet := PortAddress.subnet pa;
                universe := PortAddress.universe pa |} in
    ((if (length ifs <? 1)%nat then [Log NoMatchingInterface] else []),
     Normal {| options := o; interfaces := ifs;
               port_subuni := PortAddress.port_subuni pa;
               port_address := PortAddress.port_address pa;
               ipnet := net_; values := repeat 0 512 |}).

(** [acceptPacket(p_address, rinfo)] *)
Definition acceptPacket (r : t) (p_address : JS.num) (address : Z) : bool :=
  JS.neq p_address (port_address r) && Netmask.contains (ipnet r) address.

(** [receive(data)]; [self] names the receiver in the emitted event. *)
Definition receive (self : nat) (data : list Z) : Eff t unit :=
  (modify (set_values data) ;;
   emit (EmitData self data))%eff.

End Receiver.

(** ** Node *)

Module Node.

Record Port : Type := mkPort {
  net : Z; subnet : Z; universe : Z; ip : Z; portNumber : Z; isGood : bool
}.

Record t : Type := mk {
  mac : list Z;
  node_ip : option Z;
  shortName : list Z;
  longName : list Z;
  status : list Z;
  lastUpdate : Z;
  inPorts : gmap Z Port;
  outPorts : gmap Z Port
}.

(** The decoded ArtPollReply ([apr] in [dataParser]). *)
Record Reply : Type := mkReply {
  r_ip : Z;
  r_mac : list Z;
  r_shortName : list Z;
  r_longName : list Z;
  r_nodeReport : list Z;
  r_numPorts : Z;
  r_portTypes : Z;
  r_goodInput : Z;
  r_goodOutput : Z;
  r_swIn : Z;
  r_swOut : Z;
  r_net : Z;
  r_subNet : Z;
  r_bindIndex : Z;
  r_inPorts : list Port;
  r_outPorts : list Port
}.

#[global] Instance Port_eq_dec : EqDecision Port.
Proof. solve_decision. Defined.

#[global] Instance t_eq_dec : EqDecision t.
Proof. solve_decision. Defined.

(** [new Node(mac)] *)
Definition new (m : list Z) : t :=
  {| mac := m; node_ip := None; shortName := []; longName := [];
     status := []; lastUpdate := 0; inPorts := ∅; outPorts := ∅ |}.

(** [isCompatibleWithLocalInterfaces(remoteIp)] *)
Definition isCompatibleWithLocalInterfaces (INTERFACES : list Iface.t)
                                           (remoteIp : Z) : bool :=
  existsb (fun iface => (Iface.ip iface =? remoteIp)
                        || Netmask.contains (Iface.netmask iface) remoteIp)
          INTERFACES.

(** [updatePorts(newPorts, existingPorts)] *)
Definition updatePorts (INTERFACES : list Iface.t) (newPorts : list Port)
                       (existingPorts : gmap Z Port) : gmap Z Port :=
  fold_left
    (fun existing port =>
       if isCompatibleWithLocalInterfaces INTERFACES (ip port)
       then <[portNumber port :=
                {| net := net port; subnet := subnet port;
                   universe := universe port; ip := ip port;
                   portNumber := portNumber port; isGood := isGood port |}]> existing
       else existing)
    newPorts existingPorts.

(** [JSON.stringify(this)] lists every field under its own key, lists the
    integer keys of a port table in ascending order and escapes strings
    injectively, so two nodes have the same text exactly when they are
    the same node value. *)
Definition same_json (a b : t) : bool := bool_decide (a = b).

(** [updateFromArtPollReply(data)] at time [now]; [None] is the
    [undefined] of the bare [return]. *)
Definition updateFromArtPollReply (INTERFACES : list Iface.t) (now : Z)
                                  (data : Reply) (this : t) : t * option bool :=
  if negb (bool_decide (mac this = r_mac data)) then (this, None)
  else
    let oldData := this in
    let this1 :=
      {| mac := mac this; node_ip := Some (r_ip data);
         shortName := r_shortName data; longName := r_longName data;
         status := status this; lastUpdate := lastUpdate this;
         inPorts := updatePorts INTERFACES (r_inPorts data) (inPorts this);
         outPorts := updatePorts INTERFACES (r_outPorts data) (outPorts this) |} in
    let didChange := negb (same_json oldData this1) in
    (* untracked changes *)
    let this2 :=
      {| mac := mac this1; node_ip := node_ip this1;
         shortName := shortName this1; longName := longName this1;
         status := r_nodeReport data; lastUpdate := now;
         inPorts := inPorts this1; outPorts := outPorts this1 |} in
    (this2, Some didChange).

(** [isAlive(timeout)] at time [now] *)
Definition isAlive (now timeout : Z) (this : t) : bool :=
  now - lastUpdate this <? timeout.

End Node.

(** ** Small helpers for strings and buffers *)

(** Character codes of a string literal. *)
Definition codes (s : string) : list Z :=
  map (fun a => Z.of_nat (Ascii.nat_of_ascii a)) (list_ascii_of_string s).

(** [String(n)] for a non-negative integer. *)
Definition decimal (n : Z) : list Z :=
  codes (DecimalString.NilZero.string_of_uint (N.to_uint (Z.to_N n))).

(** [s.slice(-k)] *)
Definition slice_last (k : nat) (s : list Z) : list Z :=
  drop (length s - k) s.

(** [s.replace(/\0+$/, '')]: drop the trailing NULs. *)
Fixpoint strip_nuls (s : list Z) : list Z :=
  match s with
  | [] => []
  | c :: s' =>
      match strip_nuls s' with
      | [] => if c =? 0 then [] else [c]
      | t => c :: t
      end
  end.

(** [msg.readUInt8(offset, true)] *)
Definition readUInt8 (msg : list Z) (offset : nat) : Z := default 0 (msg !! offset).

(** [ip.split('.').map(i => parseInt(i))] *)
Definition ip_octets (ip : Z) : list Z :=
  [ip / 2 ^ 24 mod 256; ip / 2 ^ 16 mod 256; ip / 2 ^ 8 mod 256; ip mod 256].

(** ** The engine *)

Module Hartnet.

Record Options : Type := mkOptions {
  oem : Z; esta : Z; port : Z;
  sName : list Z; lName : list Z;
  poll_interval : Z
}.

Record Controller : Type := mkController {
  c_ip : Z;
  last_poll : Z;
  alive : bool;
  diagnostic_unicast : bool;
  diagnostic_enable : bool;
  unilateral : bool;
  priority : JS.num
}.

Record t : Type := mk {
  options : Options;
  artPollReplyCount : Z;
  controllers : list Controller;
  nodes : gmap (list Z) Node.t;
  senders : list Sender.t;
  receivers : list Receiver.t;
  last_poll_reply : Z;
  socket_ready : bool;
  pollTo : option Z
}.

(** [rinfo]; the family is always IPv4 on the [udp4] listener. *)
Record RemoteInfo : Type := mkRemoteInfo { address : Z; rport : Z; size : Z }.

Definition set_controllers (c : list Controller) (h : t) : t :=
  mk (options h) (artPollReplyCount h) c (nodes h) (senders h) (receivers h)
     (last_poll_reply h) (socket_ready h) (pollTo h).

Definition set_nodes (n : gmap (list Z) Node.t) (h : t) : t :=
  mk (options h) (artPollReplyCount h) (controllers h) n (senders h) (receivers h)
     (last_poll_reply h) (socket_ready h) (pollTo h).

Definition set_receivers (r : list Receiver.t) (h : t) : t :=
  mk (options h) (artPollReplyCount h) (controllers h) (nodes h) (senders h) r
     (last_poll_reply h) (socket_ready h) (pollTo h).

Definition set_reply_stamp (count stamp : Z) (h : t) : t :=
  mk (options h) count (controllers h) (nodes h) (senders h) (receivers h)
     stamp (socket_ready h) (pollTo h).

(** [handleError(err)]: hand the error to [errFunc] when one is
    configured, raise it otherwise. Only the engine has this method. *)
Definition handleError {St} (errFunc : option (JS.exn -> Eff St unit))
                       (err : JS.exn) : Eff St unit :=
  match errFunc with
  | Some f => f err
  | None => throw err
  end.

Local Open Scope eff_scope.

(** *** ArtPoll *)

(** ['!7sBHHBB'] *)
Definition ArtPollFormat : list Jspack.item :=
  [Jspack.Fs 7; Jspack.FB 1; Jspack.FH 1; Jspack.FH 1; Jspack.FB 1; Jspack.FB 1].

Definition ArtPollPacket : option (list Z) :=
  Jspack.Pack ArtPollFormat
    [Jspack.VStr Sender.ArtNetId; Jspack.VNum 0; Jspack.VNum 32;
     Jspack.VNum 14; Jspack.VNum 0; Jspack.VNum 0].

Definition ArtPoll : Eff t unit :=
  h <- get ;;
  if negb (socket_ready h) then ret tt
  else
    match ArtPollPacket with
    | None => throw (JS.TypeError "Buffer.from: invalid argument")
    | Some pkt => emit (UdpSend pkt (port (options h)) (pollTo h))
    end.

(** *** ArtPollReply *)

(** ['!7sBHBBBBHHBBHBBH18s64s64sH4B4B4B4B4B3HB6B4BBBB'] *)
Definition ArtPollReplyFormat : list Jspack.item :=
  [Jspack.Fs 7; Jspack.FB 1; Jspack.FH 1;
   Jspack.FB 1; Jspack.FB 1; Jspack.FB 1; Jspack.FB 1;
   Jspack.FH 1; Jspack.FH 1; Jspack.FB 1; Jspack.FB 1; Jspack.FH 1;
   Jspack.FB 1; Jspack.FB 1; Jspack.FH 1;
   Jspack.Fs 18; Jspack.Fs 64; Jspack.Fs 64; Jspack.FH 1;
   Jspack.FB 4; Jspack.FB 4; Jspack.FB 4; Jspack.FB 4; Jspack.FB 4;
   Jspack.FH 3; Jspack.FB 1; Jspack.FB 6; Jspack.FB 4;
   Jspack.FB 1; Jspack.FB 1; Jspack.FB 1].

Inductive Device : Type :=
| OfSender (s : Sender.t)
| OfReceiver (r : Receiver.t).

Definition dev_net (d : Device) : Z :=
  match d with
  | OfSender s => Sender.net (Sender.options s)
  | OfReceiver r => Receiver.net (Receiver.options r)
  end.

Definition dev_subnet (d : Device) : Z :=
  match d with
  | OfSender s => Sender.subnet (Sender.options s)
  | OfReceiver r => Receiver.subnet (Receiver.options r)
  end.

Definition dev_universe (d : Device) : Z :=
  match d with
  | OfSender s => Sender.universe (Sender.options s)
  | OfReceiver r => Receiver.universe (Receiver.options r)
  end.

Definition dev_interfaces (d : Device) : list Iface.t :=
  match d with
  | OfSender s => Sender.interfaces s
  | OfReceiver r => Receiver.interfaces r
  end.

(** The five bit fields [createPacket] accumulates over its devices. *)
Record Bits : Type := mkBits {
  portTypes : Z; goodInput : Z; goodOutput : Z; swIn : Z; swOut : Z
}.

(** The body of [devices.slice(0, 4).forEach((device, index) => ...)]. *)
Definition add_port (b : Bits) (device : Device) (index : Z) : Bits :=
  match device with
  | OfSender _ =>
      {| portTypes := JS.bor (portTypes b) (JS.shl 64 (index * 8));
         goodInput := goodInput b;
         goodOutput := JS.bor (goodOutput b) (JS.shl 1 index);
         swIn := swIn b;
         swOut := JS.bor (swOut b)
                    (JS.shl (JS.band (dev_universe device) 15) (index * 4)) |}
  | OfReceiver _ =>
      {| portTypes := JS.bor (portTypes b) (JS.shl 128 (index * 8));
         goodInput := JS.bor (goodInput b) (JS.shl 1 index);
         goodOutput := goodOutput b;
         swIn := JS.bor (swIn b)
                   (JS.shl (JS.band (dev_universe device) 15) (index * 4));
         swOut := swOut b |}
  end.

Fixpoint add_ports (b : Bits) (devices : list Device) (index : Z) : Bits :=
  match devices with
  | [] => b
  | d :: ds => add_ports (add_port b d index) ds (index + 1)
  end.

(** [stateString] *)
Definition stateString (count : Z) : list Z :=
  codes "#0001 [" ++ slice_last 4 (codes "000" ++ decimal count)
    ++ codes "] hartnet ArtNet-Transceiver running".

(** The value array of [createPacket], after every assignment to it. *)
Definition basePacket (h : t) (iface : Iface.t) (devices : list Device)
                      (bindIndex : Z) : option (list Jspack.val) :=
  match devices with
  | [] => None   (* [devices[0].options] of [undefined] raises *)
  | d0 :: _ =>
      let V := Jspack.VNum in
      let o := options h in
      let b := add_ports (mkBits 0 0 0 0 0) (take 4 devices) 0 in
      let base :=
        [Jspack.VStr Sender.ArtNetId; V 0; V 33]
        ++ map V (ip_octets (Iface.ip iface))
        ++ [V (port o); V 1; V 0; V 0; V (oem o);
            V 0; V 208; V (swap16 (esta o));
            Jspack.VStr (take 16 (sName o)); Jspack.VStr (take 63 (lName o));
            Jspack.VStr (stateString (artPollReplyCount h));
            V (Z.min (Z.of_nat (length devices)) 4); V 0; V 0; V 0; V 0;
            V 0; V 0; V 0; V 0; V 0; V 0; V 0; V 0;
            V 0; V 0; V 0; V 0; V 0; V 0; V 0; V 0;
            V 0; V 0; V 0; V 0]
        ++ map V (Iface.mac iface)
        ++ map V (ip_octets (Iface.ip iface))
        ++ [V 1; V 14; V bindIndex] in
      Some (
        <[38%nat := V (JS.band (JS.sar (swOut b) 24) 255)]> (
        <[37%nat := V (JS.band (JS.sar (swOut b) 16) 255)]> (
        <[36%nat := V (JS.band (JS.sar (swOut b) 8) 255)]> (
        <[35%nat := V (JS.band (swOut b) 255)]> (
        <[34%nat := V (JS.band (JS.sar (swIn b) 24) 255)]> (
        <[33%nat := V (JS.band (JS.sar (swIn b) 16) 255)]> (
        <[32%nat := V (JS.band (JS.sar (swIn b) 8) 255)]> (
        <[31%nat := V (JS.band (swIn b) 255)]> (
        <[30%nat := V 0]> (<[29%nat := V 0]> (<[28%nat := V 0]> (
        <[27%nat := V (JS.band (goodOutput b) 255)]> (
        <[26%nat := V 0]> (<[25%nat := V 0]> (<[24%nat := V 0]> (
        <[23%nat := V (JS.band (goodInput b) 255)]> (
        <[22%nat := V (JS.band (portTypes b) 255)]> (
        <[21%nat := V (JS.band (JS.sar (portTypes b) 8) 255)]> (
        <[20%nat := V (JS.band (JS.sar (portTypes b) 16) 255)]> (
        <[19%nat := V (JS.band (JS.sar (portTypes b) 24) 255)]> (
        <[11%nat := V (dev_subnet d0)]> (
        <[10%nat := V (dev_net d0)]> base))))))))))))))))))))))
  end.

(** [createPacket(iface, devices, bindIndex)]. The names are taken to
    hold characters below 256, so that every element of the packed array
    is an octet already and [Buffer.from] keeps it as it is. *)
Definition createPacket (h : t) (iface : Iface.t) (devices : list Device)
                        (bindIndex : Z) : option (list Z) :=
  match basePacket h iface devices bindIndex with
  | Some vals => Jspack.Pack ArtPollReplyFormat vals
  | None => None
  end.

(** A value of [groupedDevices]. The key is the text
    [iface.ip + '-' + net + '-' + subnet], which determines and is
    determined by the triple. *)
Record Group : Type := mkGroup {
  g_iface : Iface.t; g_net : Z; g_subnet : Z; g_devices : list Device
}.

Definition Key : Type := Z * Z * Z.

(** [if (!has(key)) set(key, fresh); get(key).devices.push(device)];
    a [Map] keeps its keys in insertion order. *)
Fixpoint group_push (key : Key) (iface : Iface.t) (device : Device)
                    (groups : list (Key * Group)) : list (Key * Group) :=
  match groups with
  | [] => [(key, mkGroup iface (dev_net device) (dev_subnet device) [device])]
  | (k, g) :: rest =>
      if bool_decide (k = key)
      then (k, mkGroup (g_iface g) (g_net g) (g_subnet g) (g_devices g ++ [device])) :: rest
      else (k, g) :: group_push key iface device rest
  end.

Definition groupDevices (devices : list Device) : list (Key * Group) :=
  fold_left
    (fun groups device =>
       fold_left
         (fun groups iface =>
            group_push (Iface.ip iface, dev_net device, dev_subnet device)
                       iface device groups)
         (dev_interfaces device) groups)
    devices [].

(** [Math.ceil(n / 4)] *)
Definition packetCount (n : nat) : nat := Z.to_nat ((Z.of_nat n + 3) / 4).

(** The inner loop: one packet per slice of four devices. *)
Definition send_group (g : Group) : Eff t unit :=
  for_each (seq 0 (packetCount (length (g_devices g))))
    (fun i =>
       h <- get ;;
       let packetDevices := take 4 (drop (i * 4) (g_devices g)) in
       match createPacket h (g_iface g) packetDevices (Z.of_nat i) with
       | None => throw (JS.TypeError "createPacket")
       | Some udppacket =>
           emit (UdpSend udppacket 6454 (Netmask.broadcast (Iface.netmask (g_iface g))))
       end).

(** [ArtPollReply()] at time [now] *)
Definition ArtPollReply (now : Z) : Eff t unit :=
  h <- get ;;
  let groupedDevices :=
    groupDevices (map OfSender (senders h) ++ map OfReceiver (receivers h)) in
  for_each (map snd groupedDevices) send_group ;;
  modify (set_reply_stamp ((artPollReplyCount h + 1) mod 10000) now).

(** *** The periodic poll *)

(** The timer exists only under this condition. *)
Definition poll_timer_installed (h : t) : bool :=
  (poll_interval (options h) >? 0) && bool_decide (pollTo h <> None).

(** The timer callback at time [now]. The test
    [now - last_poll_reply < poll_interval / 2] divides exactly (by two),
    so it is the integer test [2 * (now - last_poll_reply) < poll_interval]. *)
Definition on_poll_timer (now : Z) : Eff t unit :=
  h <- get ;;
  if 2 * (now - last_poll_reply h) <? poll_interval (options h)
  then emit (Log SkipArtPoll)
  else ArtPoll.

(** *** Inbound datagrams *)

(** Run a [Receiver] handler on [receivers[i]]. *)
Definition zoom_receiver (i : nat) (m : Eff Receiver.t unit) : Eff t unit :=
  fun h =>
    match receivers h !! i with
    | Some r =>
        match m r with
        | (r', ev, c) => (set_receivers (<[i := r']> (receivers h)) h, ev, c)
        end
    | None => (h, [], Normal tt)
    end.

(** [for (var ch = 1; ch <= msg.length - 18; ch++) data.push(msg.readUInt8(ch + 17, true))] *)
Definition parse_data (msg : list Z) : list Z :=
  map (fun ch => readUInt8 msg (ch + 17)) (seq 1 (length msg - 18)).

(** [for (var i in this.receivers) if (acceptPacket) { parse once; receive }];
    [data] is the local variable of that name. *)
Fixpoint dmx_loop (msg : list Z) (p_address : JS.num) (rinfo : RemoteInfo)
                  (indices : list nat) (data : option (list Z))
  : Eff t (option (list Z)) :=
  match indices with
  | [] => ret data
  | i :: rest =>
      h <- get ;;
      match receivers h !! i with
      | Some r =>
          if Receiver.acceptPacket r p_address (address rinfo)
          then
            let d := match data with Some d => d | None => parse_data msg end in
            zoom_receiver i (Receiver.receive i d) ;;
            dmx_loop msg p_address rinfo rest (Some d)
          else dmx_loop msg p_address rinfo rest data
      | None => dmx_loop msg p_address rinfo rest data
      end
  end.

Definition on_ArtDmx (msg : list Z) (rinfo : RemoteInfo) : Eff t unit :=
  let p_address := Jspack.parseInt_B msg 14 in
  h <- get ;;
  data <- dmx_loop msg p_address rinfo (seq 0 (length (receivers h))) None ;;
  match data with
  | None => emit (Log NoReceiverSet)
  | Some _ => ret tt
  end.

(** [this.controllers.findIndex((c) => c.ip === ip)] *)
Fixpoint findIndex (ip : Z) (cs : list Controller) : option nat :=
  match cs with
  | [] => None
  | c :: cs' => if c_ip c =? ip then Some 0%nat
                else option_map S (findIndex ip cs')
  end.

(** [(ttm_raw & mask) > 0]; [NaN & mask] is [0]. *)
Definition ttm_bit (ttm_raw : JS.num) (mask : Z) : bool :=
  JS.band (default 0 ttm_raw) mask >? 0.

Definition on_ArtPoll (now : Z) (msg : list Z) (rinfo : RemoteInfo)
  : Eff t unit :=
  if size rinfo <? 14 then emit (Log ArtPollTooSmall)
  else
    let proto := JS.nadd (Jspack.parseInt_B msg 10)
                         (JS.nmul (Jspack.parseInt_B msg 11) 256) in
    if JS.falsy proto || JS.nlt proto 14 then emit (Log ArtPollInvalidProto)
    else
      let ttm_raw := Jspack.parseInt_B msg 12 in
      let ctrl :=
        {| c_ip := address rinfo; last_poll := now; alive := true;
           diagnostic_unicast := ttm_bit ttm_raw 8;
           diagnostic_enable := ttm_bit ttm_raw 4;
           unilateral := ttm_bit ttm_raw 2;
           priority := Jspack.parseInt_B msg 13 |} in
      h <- get ;;
      match findIndex (address rinfo) (controllers h) with
      | Some key => modify (set_controllers (<[key := ctrl]> (controllers h)))
      | None =>
          modify (set_controllers (controllers h ++ [ctrl])) ;;
          emit (Log NewController)
      end ;;
      ArtPollReply now.

(** [unpacked[i]] where the format has a number, and where it has a
    string. *)
Definition num_at (unpacked : list Jspack.val) (i : nat) : Z :=
  match unpacked !! i with Some (Jspack.VNum v) => v | _ => 0 end.

Definition str_at (unpacked : list Jspack.val) (i : nat) : list Z :=
  match unpacked !! i with Some (Jspack.VStr s) => s | _ => [] end.

(** [(a << 24) | (b << 16) | (c << 8) | d] *)
Definition word_of (a b c d : Z) : Z :=
  JS.bor (JS.bor (JS.bor (JS.shl a 24) (JS.shl b 16)) (JS.shl c 8)) d.

(** The record [apr] before its port lists are filled. *)
Definition reply_of (msg : list Z) (rinfo : RemoteInfo)
                    (unpacked : list Jspack.val) : Node.Reply :=
  let u := num_at unpacked in
  {| Node.r_ip := address rinfo;
     Node.r_mac := take 6 (drop 201 msg);
     Node.r_shortName := strip_nuls (str_at unpacked 15);
     Node.r_longName := strip_nuls (str_at unpacked 16);
     Node.r_nodeReport := strip_nuls (str_at unpacked 17);
     Node.r_numPorts := u 18%nat;
     Node.r_portTypes := word_of (u 19%nat) (u 20%nat) (u 21%nat) (u 22%nat);
     Node.r_goodInput := word_of (u 23%nat) (u 24%nat) (u 25%nat) (u 26%nat);
     Node.r_goodOutput := word_of (u 27%nat) (u 28%nat) (u 29%nat) (u 30%nat);
     Node.r_swIn := word_of (u 31%nat) (u 32%nat) (u 33%nat) (u 34%nat);
     Node.r_swOut := word_of (u 35%nat) (u 36%nat) (u 37%nat) (u 38%nat);
     Node.r_net := u 10%nat;
     Node.r_subNet := u 11%nat;
     Node.r_bindIndex := u (length unpacked - 1)%nat;
     Node.r_inPorts := [];
     Node.r_outPorts := [] |}.

(** One turn of the port loop, for slot [i]. *)
Definition parse_port (i : Z) (apr : Node.Reply) : Node.Reply :=
  let portType := JS.band (JS.sar (Node.r_portTypes apr) (i * 8)) 255 in
  let goodInput := JS.band (JS.sar (Node.r_goodInput apr) i) 1 in
  let goodOutput := JS.band (JS.sar (Node.r_goodOutput apr) i) 1 in
  let ins :=
    if negb (JS.band portType 128 =? 0)
    then Node.r_inPorts apr ++
         [{| Node.net := Node.r_net apr; Node.subnet := Node.r_subNet apr;
             Node.universe := JS.band (JS.sar (Node.r_swIn apr) (28 - i * 4)) 15;
             Node.ip := Node.r_ip apr;
             Node.portNumber := Node.r_bindIndex apr * 4 + i;
             Node.isGood := goodInput =? 1 |}]
    else Node.r_inPorts apr in
  let outs :=
    if negb (JS.band portType 64 =? 0)
    then Node.r_outPorts apr ++
         [{| Node.net := Node.r_net apr; Node.subnet := Node.r_subNet apr;
             Node.universe := JS.band (JS.sar (Node.r_swOut apr) (28 - i * 4)) 15;
             Node.ip := Node.r_ip apr;
             Node.portNumber := Node.r_bindIndex apr * 4 + i;
             Node.isGood := goodOutput =? 1 |}]
    else Node.r_outPorts apr in
  Node.mkReply (Node.r_ip apr) (Node.r_mac apr) (Node.r_shortName apr)
    (Node.r_longName apr) (Node.r_nodeReport apr) (Node.r_numPorts apr)
    (Node.r_portTypes apr) (Node.r_goodInput apr) (Node.r_goodOutput apr)
    (Node.r_swIn apr) (Node.r_swOut apr) (Node.r_net apr) (Node.r_subNet apr)
    (Node.r_bindIndex apr) ins outs.

(** [for (let i = 0; i < Math.min(apr.numPorts, 4); i++)] *)
Definition parse_ports (apr : Node.Reply) : Node.Reply :=
  fold_left (fun a i => parse_port (Z.of_nat i) a)
            (seq 0 (Z.to_nat (Z.min (Node.r_numPorts apr) 4))) apr.

(** [INTERFACES.find((i) => i.ip === ip)] as a truth value *)
Definition is_local (INTERFACES : list Iface.t) (ip : Z) : bool :=
  existsb (fun i => Iface.ip i =? ip) INTERFACES.

Definition on_ArtPollReply (INTERFACES : list Iface.t) (now : Z)
                           (msg : list Z) (rinfo : RemoteInfo) : Eff t unit :=
  if (length msg <? 208)%nat then emit (Log ArtPollReplyTooShort)
  else
    match Jspack.Unpack ArtPollReplyFormat msg 0 with
    | None => throw (JS.TypeError "unpacked is undefined")
    | Some unpacked =>
        let apr0 := reply_of msg rinfo unpacked in
        h <- get ;;
        if is_local INTERFACES (Node.r_ip apr0)
           && bool_decide (Node.r_shortName apr0 = sName (options h))
           && bool_decide (Node.r_longName apr0 = lName (options h))
        then emit (Log ArtPollReplyFromMyself)
        else
          let apr := parse_ports apr0 in
          node <- match nodes h !! Node.r_mac apr with
                  | Some n => ret n
                  | None => emit (Log NewNode) ;; ret (Node.new (Node.r_mac apr))
                  end ;;
          match Node.updateFromArtPollReply INTERFACES now apr node with
          | (node', didChange) =>
              modify (set_nodes (<[Node.r_mac apr := node']> (nodes h))) ;;
              when (default false didChange) (emit (EmitNodeUpdate (Node.r_mac apr)))
          end
    end.

(** [dataParser(msg, rinfo)] at time [now] *)
Definition dataParser (INTERFACES : list Iface.t) (now : Z)
                      (msg : list Z) (rinfo : RemoteInfo) : Eff t unit :=
  if size rinfo <? 10 then emit (Log PayloadTooShort)
  else
    if negb (bool_decide (Jspack.Unpack [Jspack.Fs 8] msg 0
                          = Some [Jspack.VStr (Sender.ArtNetId ++ [0])]))
    then emit (Log InvalidHeader)
    else
      let opcode := JS.nadd (Jspack.parseInt_B msg 8)
                            (JS.nmul (Jspack.parseInt_B msg 9) 256) in
      if JS.falsy opcode then emit (Log InvalidOpCode)
      else
        match opcode with
        | Some 20480 => on_ArtDmx msg rinfo                       (* 0x5000 *)
        | Some 8192 => on_ArtPoll now msg rinfo                   (* 0x2000 *)
        | Some 8448 => on_ArtPollReply INTERFACES now msg rinfo   (* 0x2100 *)
        | _ => emit (Log OpCodeNotImplemented)
        end.


(** *** Construction, registration and the liveness sweep *)

Definition set_senders (s : list Sender.t) (h : t) : t :=
  mk (options h) (artPollReplyCount h) (controllers h) (nodes h) s (receivers h)
     (last_poll_reply h) (socket_ready h) (pollTo h).

Definition set_socket_ready (b : bool) (h : t) : t :=
  mk (options h) (artPollReplyCount h) (controllers h) (nodes h) (senders h)
     (receivers h) (last_poll_reply h) b (pollTo h).

(** What the caller may pass to [new hartnet(options)]; [None] is a key
    left out. *)
Record UserOptions : Type := mkUserOptions {
  u_oem : option Z; u_esta : option Z; u_port : option Z;
  u_name : option (list Z); u_poll_interval : option Z;
  u_poll_to : option (Z * Z)
}.

(** [options[key] || this.options[key]] for a number: [0] is falsy. *)
Definition or_default (given : option Z) (default : Z) : Z :=
  match given with
  | Some v => if v =? 0 then default else v
  | None => default
  end.

(** The same for the name: the empty string is falsy. The default is
    ['hartnet-node']. *)
Definition name_or_default (given : option (list Z)) : list Z :=
  match given with
  | Some (c :: s) => c :: s
  | _ => codes "hartnet-node"
  end.

(** The option block after the constructor merged the defaults and derived
    [sName] and [lName]; [uuid] is the text [uuidv4()] returned. *)
Definition merged_options (u : UserOptions) (uuid : list Z) : Options :=
  let name := name_or_default (u_name u) in
  {| oem := or_default (u_oem u) 10504;       (* 0x2908 *)
     esta := or_default (u_esta u) 0;
     port := or_default (u_port u) 6454;
     sName := take 16 name;
     lName := take 28 name ++ [32] ++ uuid;
     poll_interval := or_default (u_poll_interval u) 0 |}.

(** [new hartnet(options)], up to the moment the sending socket is bound:
    empty registries, counter and time stamp at zero, the poll destination
    the broadcast address of [poll_to] (default [0.0.0.0/0]). *)
Definition new (u : UserOptions) (uuid : list Z) : t :=
  let p := match u_poll_to u with
           | Some (base, bits) => Netmask.new base bits
           | None => Netmask.new (Netmask.ipv4 0 0 0 0) 0
           end in
  {| options := merged_options u uuid;
     artPollReplyCount := 0; controllers := []; nodes := ∅;
     senders := []; receivers := []; last_poll_reply := 0;
     socket_ready := false; pollTo := Netmask.broadcast p |}.

(** The callback of [this.socket.bind]. *)
Definition on_bound : Eff t unit := modify (set_socket_ready true).



(** Run a [Sender] handler on [senders[i]]. *)
Definition zoom_sender (i : nat) (m : Eff Sender.t unit) : Eff t unit :=
  fun h =>
    match senders h !! i with
    | Some s =>
        match m s with
        | (s', ev, c) => (set_senders (<[i := s']> (senders h)) h, ev, c)
        end
    | None => (h, [], Normal tt)
    end.

(** [senders[i].stop()]: the sender leaves the registry (its timer and
    socket go with it). *)
Definition stop (i : nat) : Eff t unit :=
  modify (fun h => set_senders (delete i (senders h)) h).

(** [new Date(c.last_poll).getTime()]: [last_poll] holds the text [Date()]
    returned, which has no milliseconds, so the time read back is the poll
    time cut to the whole second. *)
Definition last_poll_time (c : Controller) : Z := 1000 * (last_poll c / 1000).

(** One turn of the controller loop of the sweep. *)
Definition sweep_controller (now : Z) (c : Controller) : Controller :=
  if now - last_poll_time c >? 60000
  then mkController (c_ip c) (last_poll c) false (diagnostic_unicast c)
                    (diagnostic_enable c) (unilateral c) (priority c)
  else c.

(** The node loop of the sweep: [if (!node.isAlive()) this.nodes.delete(node.mac)]
    for the nodes of the map; the timeout is the default of [isAlive]. *)
Definition sweep_nodes (now : Z) (ns : gmap (list Z) Node.t) : gmap (list Z) Node.t :=
  fold_left
    (fun m kn => if Node.isAlive now 30000 (snd kn) then m
                 else delete (Node.mac (snd kn)) m)
    (map_to_list ns) ns.

(** The callback of the five-second timer, at time [now]. *)
Definition on_sweep_timer (now : Z) : Eff t unit :=
  modify (fun h =>
            set_nodes (sweep_nodes now (nodes h))
              (set_controllers (map (sweep_controller now) (controllers h)) h)).

End Hartnet.


(** ** The interface list ([getNetworkInfo]) *)

Module OS.

(** One address of [os.networkInterfaces()]: [cidr] is [address] with the
    prefix length [cidr_bits]. For an IPv6 entry only the family matters. *)
Record Address : Type := mkAddress {
  address : Z; family_IPv4 : bool; internal : bool;
  mac : list Z; cidr_bits : Z
}.

(** The body of the inner loop. *)
Definition add_address (networkInfo : list Iface.t) (addr : Address) : list Iface.t :=
  if family_IPv4 addr && negb (internal addr) then
    let info := Iface.mk (address addr) (mac addr)
                         (Netmask.new (address addr) (cidr_bits addr)) in
    if existsb (fun n => Iface.ip n =? Iface.ip info) networkInfo
    then networkInfo
    else networkInfo ++ [info]
  else networkInfo.

(** [getNetworkInfo()] on the entries of [os.networkInterfaces()], each an
    interface name with its addresses. *)
Definition getNetworkInfo (interfaces : list (string * list Address)) : list Iface.t :=
  fold_left (fun networkInfo entry => fold_left add_address (snd entry) networkInfo)
            interfaces [].

End OS.

(** * Vocabulary of the statements and example data *)

(** Out-of-range arguments of the channel-mutation calls. *)
Definition bad_channel (channel : Z) : Prop := channel < 0 \/ 511 < channel.
Definition bad_value (value : Z) : Prop := value < 0 \/ 255 < value.

(** An octet. *)
Definition is_octet (b : Z) : Prop := 0 <= b <= 255.

(** The eighteen octets [transmit] puts in front of the channel data:
    identifier, OpCode 0x5000 low octet first, protocol version 14, sequence,
    physical port 0, subnet and universe, net, length 512. *)
Definition ArtDmxHeader (seq subuni net : Z) : list Z :=
  [65; 114; 116; 45; 78; 101; 116; 0; 0; 80; 0; 14; seq; 0; subuni; net; 2; 0].

(** An ArtDmx datagram, as far as [dataParser] looks: the identifier and
    the OpCode 0x5000 with its low octet first. *)
Definition is_ArtDmx (msg : list Z) : Prop :=
  take 10 msg = [65; 114; 116; 45; 78; 101; 116; 0; 0; 80].

(** An ArtPoll datagram: the identifier and the OpCode 0x2000. *)
Definition is_ArtPoll (msg : list Z) : Prop :=
  take 10 msg = [65; 114; 116; 45; 78; 101; 116; 0; 0; 32].

(** [rinfo.size] is the length of the datagram. *)
Definition sized (msg : list Z) (rinfo : Hartnet.RemoteInfo) : Prop :=
  Hartnet.size rinfo = Z.of_nat (length msg).

(** The indices, among [indices], of the receivers that accept. *)
Definition accepting (rs : list Receiver.t) (p_address : JS.num) (address : Z)
                     (indices : list nat) : list nat :=
  List.filter
    (fun i => match rs !! i with
              | Some r => Receiver.acceptPacket r p_address address
              | None => false
              end)
    indices.

(** [receivers[i]] was handed [data]. *)
Definition delivered (i : nat) (data : list Z) (evs : list event) : Prop :=
  In (EmitData i data) evs.

(** Encoding the channels [vals] as [transmit] does and decoding the
    datagram as [dataParser] does gives back the channels; the datagram
    starts with the eighteen octets of the ArtDmx layout, and the sequence,
    the subnet-and-universe octet and the net octet are read back from
    offsets 12, 14 and 15. *)
Definition artdmx_roundtrip (seq net subnet universe : Z) (vals : list Z) : Prop :=
  exists pkt,
    Sender.ArtDmxPacket seq (JS.bor (JS.shl subnet 4) universe) net vals = Some pkt /\
    take 18 pkt = ArtDmxHeader seq (16 * subnet + universe) net /\
    Hartnet.parse_data pkt = vals /\
    Jspack.parseInt_B pkt 12 = Some seq /\
    Jspack.parseInt_B pkt 14 = Some (16 * subnet + universe) /\
    Jspack.parseInt_B pkt 15 = Some net.

(** Every interface of every local device has a six-octet MAC address, as
    the operating system reports them. *)
Definition mac6 (i : Iface.t) : Prop := length (Iface.mac i) = 6%nat.

Definition interfaces_ok (h : Hartnet.t) : Prop :=
  Forall (fun s => Forall mac6 (Sender.interfaces s)) (Hartnet.senders h) /\
  Forall (fun r => Forall mac6 (Receiver.interfaces r)) (Hartnet.receivers h).

(** An ArtPoll that passes the two checks [dataParser] makes: at least 14
    octets, and the two version octets, read low octet first, give at least
    14. *)
Definition passes_ArtPoll_checks (msg : list Z) : Prop :=
  is_ArtPoll msg /\ (14 <= length msg)%nat /\
  exists a b, msg !! 10%nat = Some a /\ msg !! 11%nat = Some b /\ 14 <= a + b * 256.

(** The fields of a node that [updateFromArtPollReply] compares: those it
    has written when it takes the second [JSON.stringify]. *)
Definition tracked (n : Node.t)
  : option Z * list Z * list Z * gmap Z Node.Port * gmap Z Node.Port :=
  (Node.node_ip n, Node.shortName n, Node.longName n,
   Node.inPorts n, Node.outPorts n).

(** [upsertNode]: the node after the update, and the reported change. *)
Definition upserted (INTERFACES : list Iface.t) (now : Z)
                    (data : Node.Reply) (node : Node.t) : Node.t :=
  fst (Node.updateFromArtPollReply INTERFACES now data node).

Definition changed (INTERFACES : list Iface.t) (now : Z)
                   (data : Node.Reply) (node : Node.t) : option bool :=
  snd (Node.updateFromArtPollReply INTERFACES now data node).

(** A port of the record whose [isGood] differs from the stored port of the
    same number, on a network the engine shares. *)
Definition flips_isGood (INTERFACES : list Iface.t) (ports : list Node.Port)
                        (stored : gmap Z Node.Port) : Prop :=
  NoDup (map Node.portNumber ports) /\
  exists p q, In p ports /\
    Node.isCompatibleWithLocalInterfaces INTERFACES (Node.ip p) = true /\
    stored !! Node.portNumber p = Some q /\
    Node.isGood q <> Node.isGood p.

Module Example.

(** One local interface, 10.0.0.1/24. *)
Definition eth0 : Iface.t :=
  Iface.mk (Netmask.ipv4 10 0 0 1) [2; 0; 0; 0; 0; 1]
           (Netmask.new (Netmask.ipv4 10 0 0 0) 24).

Definition sender_of (o : Sender.Options) : Sender.t :=
  match snd (Sender.new [eth0] o) with
  | Normal s => s
  | Abrupt _ => Sender.mk o [] 0 0 false 1 [] None
  end.

Definition receiver_of (o : Receiver.Options) : Receiver.t :=
  match snd (Receiver.new [eth0] o) with
  | Normal r => r
  | Abrupt _ => Receiver.mk o [] 0 0 (Netmask.new 0 0) []
  end.

(** A broadcast sender with the default options, once its socket is
    bound. *)
Definition sender0 : Sender.t :=
  Sender.set_socket_ready true (sender_of Sender.default_options).

Definition engine_options : Hartnet.Options :=
  Hartnet.mkOptions 10504 0 6454 (codes "hartnet-node")
                    (codes "hartnet-node 0000") 4000.

Definition engine (ss : list Sender.t) (rs : list Receiver.t) : Hartnet.t :=
  Hartnet.mk engine_options 0 [] ∅ ss rs 0 true
             (Netmask.broadcast (Netmask.new (Netmask.ipv4 10 0 0 0) 24)).

(** The datagram a sender transmits. *)
Definition packet_of (s : Sender.t) : list Z :=
  match events_of (Sender.transmit s) with
  | [UdpSend pkt _ _] => pkt
  | _ => []
  end.

(** A sender and a receiver, both on net 1, subnet 0, universe 3. *)
Definition sender_net1 : Sender.t :=
  Sender.set_socket_ready true
    (sender_of (Sender.mkOptions 1 0 3 (Netmask.ipv4 255 255 255 255) false 6454 1000)).

Definition receiver_net1 : Receiver.t :=
  receiver_of (Receiver.mkOptions None 1 0 3).

(** The receiver of the specification's example: [from = "10.0.0.5/32"],
    universe 3. *)
Definition receiver_u3 : Receiver.t :=
  receiver_of (Receiver.mkOptions (Some (Netmask.ipv4 10 0 0 5, Some 32)) 0 0 3).

Definition from_ip (ip : Z) (msg : list Z) : Hartnet.RemoteInfo :=
  Hartnet.mkRemoteInfo ip 6454 (Z.of_nat (length msg)).

(** The datagram of the default sender, as it arrives from 10.0.0.5. *)
Definition dmx_packet : list Z := packet_of sender0.

Definition dmx_rinfo : Hartnet.RemoteInfo :=
  from_ip (Netmask.ipv4 10 0 0 5) dmx_packet.


(** An ArtPoll whose big-endian protocol-version field holds 13. *)
Definition artpoll_v13 : list Z :=
  [65; 114; 116; 45; 78; 101; 116; 0; 0; 32; 0; 13; 0; 0].

(** A receiver of universe 5 and the ArtPollReply its engine sends for
    it. *)
Definition receiver_u5 : Receiver.t :=
  receiver_of (Receiver.mkOptions None 0 0 5).

Definition reply_u5 : list Z :=
  default [] (Hartnet.createPacket (engine [] [receiver_u5]) eth0
                [Hartnet.OfReceiver receiver_u5] 0).

(** A second host on the same network, 10.0.0.2/24, and its engine. *)
Definition eth_peer : Iface.t :=
  Iface.mk (Netmask.ipv4 10 0 0 2) [2; 0; 0; 0; 0; 2]
           (Netmask.new (Netmask.ipv4 10 0 0 0) 24).

Definition peer_engine : Hartnet.t :=
  Hartnet.mk (Hartnet.mkOptions 10504 0 6454 (codes "peer") (codes "peer 0001") 0)
             0 [] ∅ [] [] 0 true None.


(** The ArtPoll the engine itself sends, as it arrives from 10.0.0.9 at
    an engine with one sender and a poll interval of 4000 ms. *)
Definition artpoll : list Z := default [] Hartnet.ArtPollPacket.

Definition artpoll_rinfo : Hartnet.RemoteInfo :=
  from_ip (Netmask.ipv4 10 0 0 9) artpoll.

Definition poll_engine : Hartnet.t := engine [sender0] [].

(** A decoded reply from 10.0.0.1 with one good input port, and the same
    reply with another status text. *)
Definition reply_a : Node.Reply :=
  Node.mkReply (Netmask.ipv4 10 0 0 1) [2; 0; 0; 0; 0; 1]
    (codes "node") (codes "node long") (codes "#0001 [0000] ok")
    1 128 1 0 0 0 0 0 0
    [Node.mkPort 0 0 0 (Netmask.ipv4 10 0 0 1) 0 true] [].

Definition reply_b : Node.Reply :=
  Node.mkReply (Netmask.ipv4 10 0 0 1) [2; 0; 0; 0; 0; 1]
    (codes "node") (codes "node long") (codes "#0001 [0001] ok")
    1 128 1 0 0 0 0 0 0
    [Node.mkPort 0 0 0 (Netmask.ipv4 10 0 0 1) 0 true] [].

(** The same reply with the port no longer good. *)
Definition reply_c : Node.Reply :=
  Node.mkReply (Netmask.ipv4 10 0 0 1) [2; 0; 0; 0; 0; 1]
    (codes "node") (codes "node long") (codes "#0001 [0000] ok")
    1 128 0 0 0 0 0 0 0
    [Node.mkPort 0 0 0 (Netmask.ipv4 10 0 0 1) 0 false] [].

(** The node after [reply_a] was seen at time 10. *)
Definition node_a : Node.t :=
  upserted [eth_peer] 10 reply_a (Node.new [2; 0; 0; 0; 0; 1]).

End Example.

(** * Further vocabulary *)

(** The octet [_EnInt] writes for a [B] element. *)
Definition octet_of (v : Z) : Z := JS.band (Jspack.clamp 0 255 v) 255.

(** The channel buffer holds 512 octets and the sequence counter is an
    octet. *)
Definition buffer_ok (s : Sender.t) : Prop :=
  length (Sender.values s) = 512%nat /\
  Forall is_octet (Sender.values s) /\
  is_octet (Sender.ArtDmxSeq s).

(** The calls and callbacks that act on a Sender. *)
Inductive sender_call : Type :=
| SetChannel (channel value : Z)
| PrepChannel (channel value : Z)
| FillChannels (start stop value : Z)
| Blackout
| Transmit
| SocketBound.

Definition run_call (c : sender_call) : Eff Sender.t unit :=
  match c with
  | SetChannel channel value => Sender.setChannel channel value
  | PrepChannel channel value => Sender.prepChannel channel value
  | FillChannels start stop value => Sender.fillChannels start stop value
  | Blackout => Sender.blackout
  | Transmit => Sender.transmit
  | SocketBound => Sender.on_bound
  end.

(** The datagram a bound Sender sends for its current state. *)
Definition dmx_datagram (s : Sender.t) : event :=
  UdpSend (ArtDmxHeader (Sender.ArtDmxSeq s) (octet_of (Sender.port_subuni s))
                        (octet_of (Sender.net (Sender.options s)))
           ++ Sender.values s)
          (Sender.port (Sender.options s)) (Sender.ip4 s).

(** What one [transmit] of a Sender with a sound buffer does. *)
Definition transmitted (s : Sender.t) : Sender.t * list event * completion unit :=
  if Sender.socket_ready s
  then (Sender.set_ArtDmxSeq ((Sender.ArtDmxSeq s + 1) mod 256) s,
        [dmx_datagram s], Normal tt)
  else (s, [], Normal tt).

(** The arguments of a call are within the ranges it checks. *)
Definition call_in_range (c : sender_call) : Prop :=
  match c with
  | SetChannel channel value | PrepChannel channel value =>
      0 <= channel <= 511 /\ 0 <= value <= 255
  | FillChannels start stop value =>
      0 <= start <= 511 /\ 0 <= stop <= 511 /\ 0 <= value <= 255
  | Blackout | Transmit | SocketBound => True
  end.

(** [n] calls of [transmit] in a row: the events of all of them and the
    Sender they leave. *)
Fixpoint transmit_times (n : nat) (s : Sender.t) : Sender.t * list event :=
  match n with
  | O => (s, [])
  | S n' =>
      let r := Sender.transmit s in
      let r' := transmit_times n' (state_of r) in
      (fst r', events_of r ++ snd r')
  end.

(** The sequence octet of an ArtDmx datagram. *)
Definition sequence_of (e : event) : option Z :=
  match e with
  | UdpSend pkt _ _ => pkt !! 12%nat
  | _ => None
  end.

(** A Sender after a series of calls. *)
Definition run_calls (cs : list sender_call) (s : Sender.t) : Sender.t :=
  fold_left (fun s c => state_of (run_call c s)) cs s.

(** The receivers after [dataParser] dispatched an ArtDmx datagram: those
    that accept hold its channels. *)
Definition deliver_if (p_address : JS.num) (address : Z) (data : list Z)
                      (r : Receiver.t) : Receiver.t :=
  if Receiver.acceptPacket r p_address address
  then Receiver.set_values data r else r.

Definition dispatched (p_address : JS.num) (address : Z) (data : list Z)
                      (rs : list Receiver.t) : list Receiver.t :=
  map (deliver_if p_address address data) rs.

(** The OpCode of a datagram, low octet first. *)
Definition opcode_of (msg : list Z) : option Z :=
  match msg !! 8%nat, msg !! 9%nat with
  | Some lo, Some hi => Some (lo + hi * 256)
  | _, _ => None
  end.

(** The datagram is one [dataParser] drops before it looks at any field:
    too short, wrong identifier, or an OpCode other than ArtDmx, ArtPoll
    and ArtPollReply. *)
Definition malformed (msg : list Z) : Prop :=
  (length msg < 10)%nat \/
  take 8 msg <> [65; 114; 116; 45; 78; 101; 116; 0] \/
  (opcode_of msg <> Some 20480 /\ opcode_of msg <> Some 8192 /\
   opcode_of msg <> Some 8448).

(** The controller record [dataParser] builds from an ArtPoll. *)
Definition controller_of (now : Z) (msg : list Z) (rinfo : Hartnet.RemoteInfo)
  : Hartnet.Controller :=
  Hartnet.mkController (Hartnet.address rinfo) now true
    (Hartnet.ttm_bit (msg !! 12%nat) 8) (Hartnet.ttm_bit (msg !! 12%nat) 4)
    (Hartnet.ttm_bit (msg !! 12%nat) 2) (msg !! 13%nat).

(** Replace the controller of the same IP, or append. *)
Definition upsert (ctrl : Hartnet.Controller) (cs : list Hartnet.Controller)
  : list Hartnet.Controller :=
  match Hartnet.findIndex (Hartnet.c_ip ctrl) cs with
  | Some key => <[key := ctrl]> cs
  | None => cs ++ [ctrl]
  end.

(** No two controllers share an IP. *)
Definition controllers_ok (h : Hartnet.t) : Prop :=
  NoDup (map Hartnet.c_ip (Hartnet.controllers h)).

(** Every node is filed under its own MAC. *)
Definition nodes_keyed (h : Hartnet.t) : Prop :=
  forall k n, Hartnet.nodes h !! k = Some n -> Node.mac n = k.

(** The node was heard of less than 30 s before [now]. *)
Definition fresh (now : Z) (kn : list Z * Node.t) : Prop :=
  Node.isAlive now 30000 (snd kn) = true.

#[global] Instance fresh_dec (now : Z) (kn : list Z * Node.t) : Decision (fresh now kn).
Proof. unfold fresh. apply _. Defined.

(** The controller polled less than a minute before [now], to the second. *)
Definition polled_lately (now : Z) (c : Hartnet.Controller) : bool :=
  now - 1000 * (Hartnet.last_poll c / 1000) <=? 60000.

(** Further example states. *)
Module Scene.

(** The polling engine after it heard of node [node_a] at time 10 and was
    polled by 10.0.0.9 at time 5000. *)
Definition watched_engine : Hartnet.t :=
  Hartnet.set_nodes {[ [2; 0; 0; 0; 0; 1] := Example.node_a ]}
    (Hartnet.set_controllers
       [Hartnet.mkController (Netmask.ipv4 10 0 0 9) 5000 true false false false (Some 0)]
       Example.poll_engine).

(** The reply for the universe-5 receiver as it comes from 10.0.0.2, whole
    and cut to 210 octets. *)
Definition cut_reply : list Z := take 210 Example.reply_u5.


End Scene.

(** An ArtPollReply datagram: the identifier and the OpCode 0x2100. *)
Definition is_ArtPollReply (msg : list Z) : Prop :=
  take 10 msg = [65; 114; 116; 45; 78; 101; 116; 0; 0; 33].

(** What [Unpack] returns on a buffer that is long enough. *)
Fixpoint decoded (fmt : list Jspack.item) (a : list Z) (p : nat) : list Jspack.val :=
  match fmt with
  | [] => []
  | it :: fmt' =>
      match it with
      | Jspack.Fs n => [Jspack.VStr (Jspack.DeString a p n)]
      | Jspack.FB n => Jspack.UnpackSeries Jspack.DeB 1 n a p
      | Jspack.FH n => Jspack.UnpackSeries Jspack.DeH 2 n a p
      end ++ decoded fmt' a (p + Jspack.item_len it)
  end.

(** The MAC, the short name, the long name and the node report of an
    ArtPollReply datagram, as [dataParser] reads them. *)
Definition mac_of (msg : list Z) : list Z := take 6 (drop 201 msg).
Definition short_name_of (msg : list Z) : list Z := strip_nuls (take 18 (drop 26 msg)).
Definition long_name_of (msg : list Z) : list Z := strip_nuls (take 64 (drop 44 msg)).
Definition report_of (msg : list Z) : list Z := strip_nuls (take 64 (drop 108 msg)).

(** The test [dataParser] makes to recognise a reply of its own engine. *)
Definition from_myself (INTERFACES : list Iface.t) (h : Hartnet.t)
                       (msg : list Z) (rinfo : Hartnet.RemoteInfo) : bool :=
  Hartnet.is_local INTERFACES (Hartnet.address rinfo)
  && bool_decide (short_name_of msg = Hartnet.sName (Hartnet.options h))
  && bool_decide (long_name_of msg = Hartnet.lName (Hartnet.options h)).

(** The entry [getNetworkInfo] makes of an address of the system. *)
Definition info_of (a : OS.Address) : Iface.t :=
  Iface.mk (OS.address a) (OS.mac a) (Netmask.new (OS.address a) (OS.cidr_bits a)).



(** A source filter the Receiver constructor can make a netmask of: an
    IPv4 address with a prefix length up to 32, or none. *)
Definition filter_ok (from : option (Z * option Z)) : Prop :=
  match from with
  | None => True
  | Some (a, bits) => 0 <= a < 2 ^ 32 /\ 0 <= default 32 bits <= 32
  end.

(** The address shares the filter's prefix; a filter without a prefix
    length is an exact match and no filter matches everything. *)
Definition in_filter (from : option (Z * option Z)) (ip : Z) : Prop :=
  match from with
  | None => True
  | Some (a, bits) =>
      ip / 2 ^ (32 - default 32 bits) = a / 2 ^ (32 - default 32 bits)
  end.

(** One turn of the interface loop of the Sender constructor, on the
    broadcast flag, the destination and the interfaces found so far. *)
Definition resolve_step (to : Z) (acc : bool * option Z * list Iface.t)
                        (iface : Iface.t) : bool * option Z * list Iface.t :=
  let '(bc, ip, ifs) := acc in
  if Netmask.contains (Iface.netmask iface) to then
    let bc' :=
      match Netmask.broadcast (Iface.netmask iface) with
      | Some b => if to =? b then true else bc
      | None => bc
      end in
    let ip' :=
      match Netmask.broadcast (Iface.netmask iface) with
      | Some b => if bc' then Some b else Some to
      | None => Some to
      end in
    (bc', ip', ifs ++ [iface])
  else (bc, ip, ifs).

(** The interfaces whose subnet holds the address. *)
Definition reaching (INTERFACES : list Iface.t) (to : Z) : list Iface.t :=
  List.filter (fun i => Netmask.contains (Iface.netmask i) to) INTERFACES.




(** * Properties *)

(** ** JavaScript integer operators on small non-negative values *)

Lemma ToInt32_small (x : Z) : - 2 ^ 31 <= x < 2 ^ 31 -> JS.ToInt32 x = x.
Proof.
  intros Hx. unfold JS.ToInt32.
  rewrite Z.mod_small; lia.
Qed.

Lemma sar_small (x k : Z) :
  0 <= x < 2 ^ 31 -> 0 <= k < 32 -> JS.sar x k = x / 2 ^ k.
Proof.
  intros Hx Hk. unfold JS.sar.
  rewrite ToInt32_small by lia.
  rewrite Z.mod_small by lia.
  apply Z.shiftr_div_pow2. lia.
Qed.

Lemma band_ones (x n : Z) :
  0 <= x < 2 ^ 31 -> 0 <= n < 31 -> JS.band x (Z.ones n) = x mod 2 ^ n.
Proof.
  intros Hx Hn. unfold JS.band.
  assert (Hones : 0 <= Z.ones n < 2 ^ 31).
  { rewrite Z.ones_equiv. split; [pose proof (Z.pow_pos_nonneg 2 n); lia|].
    assert (2 ^ n <= 2 ^ 30) by (apply Z.pow_le_mono_r; lia). lia. }
  rewrite !ToInt32_small by lia.
  apply Z.land_ones. lia.
Qed.

Lemma shl_small (x k : Z) :
  0 <= x -> 0 <= k < 32 -> x * 2 ^ k < 2 ^ 31 -> JS.shl x k = x * 2 ^ k.
Proof.
  intros Hx Hk Hb. unfold JS.shl.
  assert (1 <= 2 ^ k) by (pose proof (Z.pow_pos_nonneg 2 k); lia).
  rewrite (ToInt32_small x) by nia.
  rewrite Z.mod_small by lia.
  rewrite Z.shiftl_mul_pow2 by lia.
  apply ToInt32_small. nia.
Qed.

Lemma land_high_low (a b k : Z) :
  0 <= k -> 0 <= b < 2 ^ k -> Z.land (a * 2 ^ k) b = 0.
Proof.
  intros Hk Hb. apply Z.bits_inj'. intros n Hn.
  rewrite Z.land_spec, Z.bits_0.
  destruct (Z.lt_ge_cases n k) as [Hlt | Hge].
  - rewrite Z.mul_pow2_bits_low by lia. reflexivity.
  - rewrite <- (Z.mod_small b (2 ^ k)) by lia.
    rewrite Z.mod_pow2_bits_high by lia.
    apply andb_false_r.
Qed.

Lemma bor_high_low (a b k : Z) :
  0 <= k -> 0 <= a -> 0 <= b < 2 ^ k -> a * 2 ^ k + b < 2 ^ 31 ->
  JS.bor (a * 2 ^ k) b = a * 2 ^ k + b.
Proof.
  intros Hk Ha Hb Hs. unfold JS.bor.
  assert (0 < 2 ^ k) by (apply Z.pow_pos_nonneg; lia).
  rewrite !ToInt32_small by nia.
  rewrite <- Z.lxor_lor by (apply land_high_low; lia).
  symmetry. apply Z.add_nocarry_lxor. apply land_high_low; lia.
Qed.

(** ** Port addresses *)

Lemma calculate_carries (net subnet universe : Z) :
  0 <= net < 2 ^ 20 -> 0 <= subnet < 2 ^ 20 -> 0 <= universe < 2 ^ 20 ->
  let pa := PortAddress.calculate net subnet universe in
  PortAddress.universe pa = universe mod 16 /\
  PortAddress.subnet pa = (subnet + universe / 16) mod 16 /\
  PortAddress.net pa = net + (subnet + universe / 16) / 16 /\
  PortAddress.port_subuni pa
    = 16 * ((subnet + universe / 16) mod 16) + universe mod 16 /\
  PortAddress.port_address pa = 256 * net + 16 * subnet + universe.
Proof.
  intros Hn Hs Hu. unfold PortAddress.calculate. cbn [PortAddress.universe
    PortAddress.subnet PortAddress.net PortAddress.port_subuni PortAddress.port_address].
  change (2 ^ 20) with 1048576 in *.
  assert (Hsar_u : JS.sar universe 4 = universe / 16)
    by (rewrite sar_small by lia; reflexivity).
  rewrite Hsar_u.
  assert (Hu16 : 0 <= universe / 16 < 65536)
    by (split; [apply Z.div_pos; lia | apply Z.div_lt_upper_bound; lia]).
  set (s1 := subnet + universe / 16) in *.
  assert (Hs1 : 0 <= s1 < 2 ^ 31) by (subst s1; lia).
  assert (Hband_u : JS.band universe 15 = universe mod 16)
    by (change 15 with (Z.ones 4); rewrite band_ones by lia; reflexivity).
  assert (Hband_s : JS.band s1 15 = s1 mod 16)
    by (change 15 with (Z.ones 4); rewrite band_ones by lia; reflexivity).
  assert (Hsar_s : JS.sar s1 4 = s1 / 16)
    by (rewrite sar_small by lia; reflexivity).
  rewrite Hband_u, Hband_s, Hsar_s.
  pose proof (Z.mod_pos_bound universe 16 ltac:(lia)) as Hum.
  pose proof (Z.mod_pos_bound s1 16 ltac:(lia)) as Hsm.
  assert (Hs16 : 0 <= s1 / 16 < 131072)
    by (subst s1; split; [apply Z.div_pos; lia | apply Z.div_lt_upper_bound; lia]).
  assert (Hshl_s : JS.shl (s1 mod 16) 4 = s1 mod 16 * 2 ^ 4)
    by (apply shl_small; lia).
  rewrite Hshl_s.
  assert (Hsu : JS.bor (s1 mod 16 * 2 ^ 4) (universe mod 16)
                = s1 mod 16 * 2 ^ 4 + universe mod 16)
    by (apply bor_high_low; lia).
  rewrite Hsu.
  assert (Hshl_n : JS.shl (net + s1 / 16) 8 = (net + s1 / 16) * 2 ^ 8)
    by (apply shl_small; lia).
  rewrite Hshl_n.
  rewrite bor_high_low by lia.
  pose proof (Z.div_mod universe 16 ltac:(lia)) as Hdu.
  pose proof (Z.div_mod s1 16 ltac:(lia)) as Hds.
  repeat split; lia.
Qed.

(** Both constructors raise exactly when the port address they computed
    exceeds 32767, whatever the raw inputs. *)
Lemma constructors_raise_iff (INTERFACES : list Iface.t)
                             (so : Sender.Options) (ro : Receiver.Options) :
  (threw (snd (Sender.new INTERFACES so)) = true <->
   PortAddress.port_address
     (PortAddress.calculate (Sender.net so) (Sender.subnet so) (Sender.universe so))
   > 32767) /\
  (threw (snd (Receiver.new INTERFACES ro)) = true <->
   PortAddress.port_address
     (PortAddress.calculate (Receiver.net ro) (Receiver.subnet ro) (Receiver.universe ro))
   > 32767).
Proof.
  unfold Sender.new, Receiver.new.
  destruct (Sender.resolve INTERFACES so) as [[bc ip] ifs].
  split.
  - destruct (_ >? 32767) eqn:E; cbn [snd threw].
    + apply Z.gtb_lt in E. split; [lia | reflexivity].
    + rewrite Z.gtb_ltb in E. apply Z.ltb_ge in E. split; [discriminate | lia].
  - destruct (_ >? 32767) eqn:E; cbn [snd threw].
    + apply Z.gtb_lt in E. split; [lia | reflexivity].
    + rewrite Z.gtb_ltb in E. apply Z.ltb_ge in E. split; [discriminate | lia].
Qed.

(** For raw net, subnet and universe from 0 up to [2 ^ 20], where no
    32-bit operation of the constructors wraps: the universe overflow is
    carried into the subnet and the subnet overflow into the net, keeping
    the low four bits of each; nothing is lost, the combined value is
    [256 * net + 16 * subnet + universe] of the raw inputs; and the
    construction raises exactly when that combined value exceeds 32767. *)
Theorem port_address_carries_then_checks
  (INTERFACES : list Iface.t) (net subnet universe : Z)
  (to : Z) (broadcast : bool) (port refresh : Z) (from : option (Z * option Z)) :
  0 <= net < 2 ^ 20 -> 0 <= subnet < 2 ^ 20 -> 0 <= universe < 2 ^ 20 ->
  let pa := PortAddress.calculate net subnet universe in
  let combined := 256 * net + 16 * subnet + universe in
  let sender := Sender.new INTERFACES
                  (Sender.mkOptions net subnet universe to broadcast port refresh) in
  let receiver := Receiver.new INTERFACES
                    (Receiver.mkOptions from net subnet universe) in
  (PortAddress.universe pa = universe mod 16 /\
   PortAddress.subnet pa = (subnet + universe / 16) mod 16 /\
   PortAddress.net pa = net + (subnet + universe / 16) / 16 /\
   PortAddress.port_address pa = combined) /\
  (threw (snd sender) = true <-> combined > 32767) /\
  (threw (snd receiver) = true <-> combined > 32767) /\
  (forall s, snd sender = Normal s ->
     Sender.port_address s = combined /\
     Sender.universe (Sender.options s) = universe mod 16 /\
     Sender.subnet (Sender.options s) = (subnet + universe / 16) mod 16 /\
     Sender.net (Sender.options s) = net + (subnet + universe / 16) / 16) /\
  (forall r, snd receiver = Normal r ->
     Receiver.port_address r = combined /\
     Receiver.universe (Receiver.options r) = universe mod 16 /\
     Receiver.subnet (Receiver.options r) = (subnet + universe / 16) mod 16 /\
     Receiver.net (Receiver.options r) = net + (subnet + universe / 16) / 16).
Proof.
  intros Hn Hs Hu pa combined sender receiver.
  destruct (calculate_carries net subnet universe Hn Hs Hu)
    as (Eu & Es & En & _ & Ea).
  fold pa in Eu, Es, En, Ea. fold combined in Ea.
  split; [repeat split; assumption|].
  subst sender receiver. unfold Sender.new, Receiver.new.
  cbn [Sender.net Sender.subnet Sender.universe
       Receiver.net Receiver.subnet Receiver.universe].
  fold pa. clearbody pa. rewrite Ea.
  destruct (Sender.resolve INTERFACES _) as [[bc ip] ifs].
  destruct (combined >? 32767) eqn:Hc; cbn [snd threw].
  - apply Z.gtb_lt in Hc.
    repeat split; intros; try lia; try discriminate.
  - assert (~ combined > 32767) by (intros Hgt; apply Z.gt_lt, Z.gtb_lt in Hgt; congruence).
    split; [split; [discriminate | lia]|].
    split; [split; [discriminate | lia]|].
    split.
    + intros s [= <-]. cbn. rewrite Eu, Es, En. auto.
    + intros r [= <-]. cbn. rewrite Eu, Es, En. auto.
Qed.

Lemma port_address_carries_then_checks_witness :
  threw (snd (Sender.new [] (Sender.mkOptions 127 15 31 0 false 6454 1000))) = true
  <-> 256 * 127 + 16 * 15 + 31 > 32767.
Proof.
  apply (port_address_carries_then_checks [] 127 15 31 0 false 6454 1000 None);
    lia.
Defined.

Lemma calculate_net_2_24 :
  PortAddress.calculate 16777216 0 0 = PortAddress.mk 16777216 0 0 0 0.
Proof. vm_compute. reflexivity. Qed.

Lemma calculate_universe_2_32_5 :
  PortAddress.calculate 0 0 4294967301 = PortAddress.mk 0 0 5 5 5.
Proof. vm_compute. reflexivity. Qed.

(** The exception of a failed construction is never the
    ['Invalid Port Address'] error the constructor builds: the call that
    should hand it on is the one that raises. *)
Lemma port_address_error_is_TypeError (INTERFACES : list Iface.t)
                                      (so : Sender.Options) (ro : Receiver.Options)
                                      (e : JS.exn) :
  snd (Sender.new INTERFACES so) = Abrupt e \/
  snd (Receiver.new INTERFACES ro) = Abrupt e ->
  e = JS.TypeError "this.handleError is not a function".
Proof.
  unfold Sender.new, Receiver.new.
  destruct (Sender.resolve INTERFACES so) as [[bc ip] ifs].
  intros [H | H]; destruct (_ >? 32767); cbn [snd] in H; congruence.
Qed.

(** C4. The constructors do not refuse every port address above 32767,
    and they cut inputs to 32 bits without carrying.
    With net [2 ^ 24] (subnet and universe 0) the combined value is far
    above 32767, yet the 32-bit shift [net << 8] wraps to 0 and both
    constructors complete, with port address 0. With universe [2 ^ 32 + 5]
    the 32-bit [universe >> 4] is 0, so nothing is carried and both
    constructors complete with net 0, subnet 0, universe 5: the input is cut
    to 32 bits without a carry. And where the range check does fire (net
    128), the exception that reaches the caller is the TypeError of the
    call to the [handleError] that neither class defines, not the
    ['Invalid Port Address'] error built for it. *)
Theorem oversized_port_address_is_constructed
  (INTERFACES : list Iface.t) (to : Z) (broadcast : bool) (port refresh : Z)
  (from : option (Z * option Z)) :
  (256 * 16777216 + 16 * 0 + 0 > 32767 /\
   (exists s,
      snd (Sender.new INTERFACES
             (Sender.mkOptions 16777216 0 0 to broadcast port refresh)) = Normal s /\
      Sender.port_address s = 0 /\ Sender.port_subuni s = 0) /\
   (exists r,
      snd (Receiver.new INTERFACES (Receiver.mkOptions from 16777216 0 0)) = Normal r /\
      Receiver.port_address r = 0)) /\
  (256 * 0 + 16 * 0 + 4294967301 > 32767 /\
   (exists s,
      snd (Sender.new INTERFACES
             (Sender.mkOptions 0 0 4294967301 to broadcast port refresh)) = Normal s /\
      Sender.port_address s = 5 /\
      Sender.net (Sender.options s) = 0 /\ Sender.subnet (Sender.options s) = 0 /\
      Sender.universe (Sender.options s) = 5) /\
   (exists r,
      snd (Receiver.new INTERFACES (Receiver.mkOptions from 0 0 4294967301)) = Normal r /\
      Receiver.port_address r = 5 /\
      Receiver.net (Receiver.options r) = 0 /\ Receiver.subnet (Receiver.options r) = 0 /\
      Receiver.universe (Receiver.options r) = 5)) /\
  snd (Sender.new INTERFACES (Sender.mkOptions 128 0 0 to broadcast port refresh))
  = Abrupt (JS.TypeError "this.handleError is not a function") /\
  snd (Receiver.new INTERFACES (Receiver.mkOptions from 128 0 0))
  = Abrupt (JS.TypeError "this.handleError is not a function").
Proof.
  unfold Sender.new, Receiver.new.
  cbn [Sender.net Sender.subnet Sender.universe
       Receiver.net Receiver.subnet Receiver.universe].
  rewrite calculate_net_2_24, calculate_universe_2_32_5.
  cbn [PortAddress.port_address PortAddress.port_subuni PortAddress.net
       PortAddress.subnet PortAddress.universe].
  change (0 >? 32767) with false. change (5 >? 32767) with false.
  change (PortAddress.port_address (PortAddress.calculate 128 0 0) >? 32767) with true.
  cbn iota.
  repeat split; try lia.
  - destruct (Sender.resolve INTERFACES _) as [[bc ip] ifs].
    eexists. cbn [snd]. repeat split.
  - eexists. cbn [snd]. repeat split.
  - destruct (Sender.resolve INTERFACES _) as [[bc ip] ifs].
    eexists. cbn [snd]. repeat split.
  - eexists. cbn [snd]. repeat split.
Qed.

(** ** Channel mutation *)

Lemma range_check_true (x hi : Z) : x < 0 \/ hi < x -> (x >? hi) || (x <? 0) = true.
Proof.
  intros [H | H]; apply orb_true_iff.
  - right. apply Z.ltb_lt. exact H.
  - left. apply Z.gtb_lt. exact H.
Qed.

Lemma range_check_cases (x hi : Z) :
  ((x >? hi) || (x <? 0) = true /\ (x < 0 \/ hi < x)) \/
  ((x >? hi) || (x <? 0) = false /\ 0 <= x <= hi).
Proof.
  destruct ((x >? hi) || (x <? 0)) eqn:E.
  - left. split; [reflexivity|].
    apply orb_true_iff in E as [E | E]; [apply Z.gtb_lt in E | apply Z.ltb_lt in E]; lia.
  - right. split; [reflexivity|].
    apply orb_false_iff in E as [E1 E2].
    apply Z.ltb_ge in E2.
    rewrite Z.gtb_ltb in E1. apply Z.ltb_ge in E1. lia.
Qed.

(** C10. [setChannel] and [prepChannel] with a channel outside 0..511 or a
    value outside 0..255, and [fillChannels] with an out-of-range start,
    stop or value, complete abruptly (the error reaches the caller), send
    nothing and leave the whole Sender, its channel buffer included, as it
    was. *)
Theorem channel_mutation_out_of_range_raises (s : Sender.t) :
  (forall channel value, bad_channel channel \/ bad_value value ->
     exists e, Sender.setChannel channel value s = (s, [], Abrupt e)) /\
  (forall channel value, bad_channel channel \/ bad_value value ->
     exists e, Sender.prepChannel channel value s = (s, [], Abrupt e)) /\
  (forall start stop value,
     bad_channel start \/ bad_channel stop \/ bad_value value ->
     exists e, Sender.fillChannels start stop value s = (s, [], Abrupt e)).
Proof.
  unfold bad_channel, bad_value.
  split; [|split].
  - intros channel value H. unfold Sender.setChannel, bind, when.
    destruct (range_check_cases channel 511) as [[-> _] | [-> Hc]].
    + eexists. reflexivity.
    + destruct H as [H | H]; [lia|].
      rewrite (range_check_true value 255 H). cbn. eexists. reflexivity.
  - intros channel value H. unfold Sender.prepChannel, bind, when.
    destruct (range_check_cases channel 511) as [[-> _] | [-> Hc]].
    + eexists. reflexivity.
    + destruct H as [H | H]; [lia|].
      rewrite (range_check_true value 255 H). cbn. eexists. reflexivity.
  - intros start stop value H. unfold Sender.fillChannels, bind, when.
    destruct (range_check_cases start 511) as [[-> _] | [-> Hc]].
    + eexists. reflexivity.
    + destruct (range_check_cases stop 511) as [[-> _] | [-> Hc']].
      * cbn. eexists. reflexivity.
      * destruct H as [H | [H | H]]; [lia | lia |].
        rewrite (range_check_true value 255 H). cbn. eexists. reflexivity.
Qed.

Lemma channel_mutation_out_of_range_raises_witness :
  (exists e, Sender.setChannel 512 0 Example.sender0 = (Example.sender0, [], Abrupt e)) /\
  (exists e, Sender.prepChannel 3 256 Example.sender0 = (Example.sender0, [], Abrupt e)) /\
  (exists e, Sender.fillChannels 0 600 7 Example.sender0 = (Example.sender0, [], Abrupt e)).
Proof.
  pose proof (channel_mutation_out_of_range_raises Example.sender0) as (H1 & H2 & H3).
  unfold bad_channel, bad_value in *.
  split; [apply H1; lia | split; [apply H2; lia | apply H3; lia]].
Defined.

(** ** The ArtDmx codec *)

Lemma EnB_octet (v : Z) : is_octet v -> Jspack.EnB v = [v].
Proof.
  unfold is_octet. intros Hv. unfold Jspack.EnB, Jspack.clamp.
  destruct (v <? 0) eqn:E1; [apply Z.ltb_lt in E1; lia|].
  destruct (255 <? v) eqn:E2; [apply Z.ltb_lt in E2; lia|].
  change 255 with (Z.ones 8). rewrite band_ones by lia.
  rewrite Z.mod_small by (change (2 ^ 8) with 256; lia). reflexivity.
Qed.

Lemma PackSeries_octets (vals : list Z) (rest : list Jspack.val) :
  Forall is_octet vals ->
  Jspack.PackSeries Jspack.EnB (length vals) (map Jspack.VNum vals ++ rest)
  = Some (vals, rest).
Proof.
  induction 1 as [| v vals Hv _ IH]; [reflexivity|].
  cbn [length map app Jspack.PackSeries]. change (fmap Jspack.VNum vals) with (map Jspack.VNum vals).
  rewrite IH, (EnB_octet v Hv). reflexivity.
Qed.

Lemma PackSeries_too_few (en : Z -> list Z) (n : nat) (vals : list Z) :
  (length vals < n)%nat ->
  Jspack.PackSeries en n (map Jspack.VNum vals) = None.
Proof.
  revert vals. induction n as [| n IH]; intros vals Hlen; [lia|].
  destruct vals as [| v vals]; [reflexivity|].
  cbn [map Jspack.PackSeries]. change (fmap Jspack.VNum vals) with (map Jspack.VNum vals).
  rewrite IH by (cbn [length] in Hlen; lia). reflexivity.
Qed.

Lemma ArtDmxPacket_full (seq subuni net : Z) (vals : list Z) :
  is_octet seq -> is_octet subuni -> is_octet net ->
  length vals = 512%nat -> Forall is_octet vals ->
  Sender.ArtDmxPacket seq subuni net vals
  = Some (ArtDmxHeader seq subuni net ++ vals).
Proof.
  intros Hq Hs Hn Hlen Hvals.
  unfold Sender.ArtDmxPacket, Sender.ArtDmxFormat.
  rewrite <- Hlen.
  cbn [Jspack.Pack Jspack.PackSeries app].
  pose proof (PackSeries_octets vals [] Hvals) as HP.
  rewrite app_nil_r in HP. rewrite HP.
  rewrite (EnB_octet seq Hq), (EnB_octet subuni Hs), (EnB_octet net Hn).
  rewrite (app_nil_r vals). reflexivity.
Qed.

Lemma ArtDmxPacket_short (seq subuni net : Z) (vals : list Z) :
  (length vals < 512)%nat -> Sender.ArtDmxPacket seq subuni net vals = None.
Proof.
  intros Hlen. unfold Sender.ArtDmxPacket, Sender.ArtDmxFormat.
  remember 512%nat as n eqn:En. clear En.
  cbn [Jspack.Pack Jspack.PackSeries app].
  rewrite PackSeries_too_few by assumption. reflexivity.
Qed.

(** What a bound Sender with a full buffer transmits. *)
Lemma transmit_packet (s : Sender.t) :
  Sender.socket_ready s = true ->
  is_octet (Sender.ArtDmxSeq s) -> is_octet (Sender.port_subuni s) ->
  is_octet (Sender.net (Sender.options s)) ->
  length (Sender.values s) = 512%nat -> Forall is_octet (Sender.values s) ->
  Sender.transmit s
  = (Sender.set_ArtDmxSeq ((Sender.ArtDmxSeq s + 1) mod 256) s,
     [UdpSend (ArtDmxHeader (Sender.ArtDmxSeq s) (Sender.port_subuni s)
                            (Sender.net (Sender.options s)) ++ Sender.values s)
              (Sender.port (Sender.options s)) (Sender.ip4 s)],
     Normal tt).
Proof.
  intros Hready Hq Hs Hn Hlen Hvals. unfold Sender.transmit, bind, get.
  rewrite Hready. cbn [negb].
  rewrite ArtDmxPacket_full by assumption. reflexivity.
Qed.

Lemma parse_data_drop (msg : list Z) : Hartnet.parse_data msg = drop 18 msg.
Proof.
  unfold Hartnet.parse_data. apply list_eq. intros i.
  change (map ?f ?l) with (fmap f l).
  rewrite list_lookup_fmap, lookup_drop.
  destruct (decide (i < length msg - 18)%nat) as [Hi | Hi].
  - rewrite lookup_seq_lt by assumption. cbn [fmap option_fmap option_map].
    unfold readUInt8.
    replace (1 + i + 17)%nat with (18 + i)%nat by lia.
    destruct (lookup_lt_is_Some_2 msg (18 + i) ltac:(lia)) as [x ->]. reflexivity.
  - rewrite lookup_seq_ge by lia. cbn.
    symmetry. apply lookup_ge_None. lia.
Qed.

(** ** Laws of the handler monad *)

Lemma bind_get {St B} (k : St -> Eff St B) (s : St) : bind get k s = k s s.
Proof. unfold bind, get. destruct (k s s) as [[s2 ev2] c]. reflexivity. Qed.

Lemma bind_ret {St A B} (a : A) (k : A -> Eff St B) (s : St) :
  bind (ret a) k s = k a s.
Proof. unfold bind, ret. destruct (k a s) as [[s2 ev2] c]. reflexivity. Qed.

Lemma bind_modify {St B} (f : St -> St) (k : unit -> Eff St B) (s : St) :
  bind (modify f) k s = k tt (f s).
Proof. unfold bind, modify. destruct (k tt (f s)) as [[s2 ev2] c]. reflexivity. Qed.

Lemma bind_emit {St B} (e : event) (k : unit -> Eff St B) (s : St) :
  bind (emit e) k s
  = (state_of (k tt s), e :: events_of (k tt s), completion_of (k tt s)).
Proof. unfold bind, emit. destruct (k tt s) as [[s2 ev2] c]. reflexivity. Qed.

Lemma bind_throw {St A B} (e : JS.exn) (k : A -> Eff St B) (s : St) :
  bind (throw e) k s = (s, [], Abrupt e).
Proof. reflexivity. Qed.

Lemma bind_assoc {St A B C} (m : Eff St A) (k : A -> Eff St B)
                 (k' : B -> Eff St C) (s : St) :
  bind (bind m k) k' s = bind m (fun a => bind (k a) k') s.
Proof.
  unfold bind. destruct (m s) as [[s1 ev1] [a | e]]; [|reflexivity].
  destruct (k a s1) as [[s2 ev2] [b | e]]; [|reflexivity].
  destruct (k' b s2) as [[s3 ev3] c]. rewrite app_assoc. reflexivity.
Qed.

(** ** Dispatch of ArtDmx to the receivers *)

Ltac first10 msg H :=
  do 10 (destruct msg as [| ? msg]; [discriminate H|]);
  cbn [take] in H; injection H as -> -> -> -> -> -> -> -> -> ->.

Lemma dataParser_ArtDmx (INTERFACES : list Iface.t) (now : Z) (msg : list Z)
                        (rinfo : Hartnet.RemoteInfo) (h : Hartnet.t) :
  is_ArtDmx msg -> sized msg rinfo ->
  Hartnet.dataParser INTERFACES now msg rinfo h = Hartnet.on_ArtDmx msg rinfo h.
Proof.
  unfold is_ArtDmx, sized. intros Hhd Hsz.
  first10 msg Hhd.
  unfold Hartnet.dataParser.
  cbn [length] in Hsz.
  destruct (Hartnet.size rinfo <? 10) eqn:E; [apply Z.ltb_lt in E; lia|].
  reflexivity.
Qed.

Lemma parseInt_B_lookup (msg : list Z) (p : nat) :
  Jspack.parseInt_B msg p = msg !! p.
Proof.
  unfold Jspack.parseInt_B. cbn [Jspack.Unpack Jspack.item_len].
  destruct (length msg <? p + 1)%nat eqn:E.
  - apply Nat.ltb_lt in E. symmetry. apply lookup_ge_None. lia.
  - apply Nat.ltb_ge in E. cbn.
    unfold Jspack.DeB, Jspack.octet.
    destruct (lookup_lt_is_Some_2 msg p ltac:(lia)) as [x ->]. reflexivity.
Qed.

Lemma acceptPacket_iff (r : Receiver.t) (p : JS.num) (address : Z) :
  Receiver.acceptPacket r p address = true <->
  p = Some (Receiver.port_address r) /\
  Netmask.contains (Receiver.ipnet r) address = true.
Proof.
  unfold Receiver.acceptPacket, JS.neq. rewrite andb_true_iff.
  destruct p as [x |].
  - rewrite Z.eqb_eq. split; intros [H1 H2]; split; congruence.
  - split; intros [H1 H2]; discriminate.
Qed.

Lemma acceptPacket_NaN (r : Receiver.t) (address : Z) :
  Receiver.acceptPacket r None address = false.
Proof. reflexivity. Qed.

Lemma accepting_insert (rs : list Receiver.t) (p : JS.num) (address : Z)
                       (i : nat) (r' : Receiver.t) (indices : list nat) :
  i ∉ indices ->
  accepting (<[i := r']> rs) p address indices = accepting rs p address indices.
Proof.
  intros Hi. unfold accepting. apply filter_ext_in. intros j Hj.
  rewrite list_lookup_insert_ne; [reflexivity|].
  intros ->. apply Hi. apply list_elem_of_In. exact Hj.
Qed.

Lemma dmx_loop_spec (msg : list Z) (p : JS.num) (rinfo : Hartnet.RemoteInfo)
                    (indices : list nat) :
  NoDup indices ->
  forall (data : option (list Z)) (h : Hartnet.t),
    data = None \/ data = Some (Hartnet.parse_data msg) ->
    let acc := accepting (Hartnet.receivers h) p (Hartnet.address rinfo) indices in
    exists h',
      Hartnet.dmx_loop msg p rinfo indices data h
      = (h', map (fun i => EmitData i (Hartnet.parse_data msg)) acc,
         Normal (match acc with [] => data | _ => Some (Hartnet.parse_data msg) end)).
Proof.
  induction 1 as [| i rest Hi Hnd IH]; intros data h Hdata;
    [exists h; reflexivity|].
  cbn zeta. unfold accepting. cbn [List.filter Hartnet.dmx_loop].
  fold (accepting (Hartnet.receivers h) p (Hartnet.address rinfo) rest).
  rewrite bind_get.
  destruct (Hartnet.receivers h !! i) as [r |] eqn:Hr; [|apply (IH data h Hdata)].
  destruct (Receiver.acceptPacket r p (Hartnet.address rinfo)) eqn:Hacc;
    [|apply (IH data h Hdata)].
  assert (Hd : match data with Some d => d | None => Hartnet.parse_data msg end
               = Hartnet.parse_data msg)
    by (destruct Hdata as [-> | ->]; reflexivity).
  rewrite Hd.
  unfold bind at 1, Hartnet.zoom_receiver at 1. rewrite Hr.
  cbn [Receiver.receive bind modify emit app].
  set (h1 := Hartnet.set_receivers _ h).
  destruct (IH (Some (Hartnet.parse_data msg)) h1 (or_intror eq_refl)) as [h2 ->].
  exists h2. subst h1. cbn [Hartnet.set_receivers Hartnet.receivers].
  rewrite accepting_insert by assumption.
  cbn [map app]. f_equal.
  destruct (accepting _ _ _ rest); reflexivity.
Qed.


(** What [on_ArtDmx] emits: the decoded channels to each accepting
    receiver in registration order, or the one log line when none accepts. *)
Lemma on_ArtDmx_events (msg : list Z) (rinfo : Hartnet.RemoteInfo) (h : Hartnet.t) :
  let acc := accepting (Hartnet.receivers h) (msg !! 14%nat) (Hartnet.address rinfo)
                       (seq 0 (length (Hartnet.receivers h))) in
  events_of (Hartnet.on_ArtDmx msg rinfo h)
  = match acc with
    | [] => [Log NoReceiverSet]
    | _ => map (fun i => EmitData i (drop 18 msg)) acc
    end
  /\ completion_of (Hartnet.on_ArtDmx msg rinfo h) = Normal tt.
Proof.
  cbn zeta. unfold Hartnet.on_ArtDmx.
  rewrite parseInt_B_lookup.
  rewrite bind_get.
  destruct (dmx_loop_spec msg (msg !! 14%nat) rinfo
              (seq 0 (length (Hartnet.receivers h)))
              (NoDup_seq 0 _) None h (or_introl eq_refl)) as [h' Hloop].
  cbn zeta in Hloop. unfold bind. rewrite Hloop.
  rewrite parse_data_drop.
  destruct (accepting _ _ _ _) as [| i acc]; cbn; rewrite ?app_nil_r; split; reflexivity.
Qed.

Lemma on_ArtDmx_delivered (msg : list Z) (rinfo : Hartnet.RemoteInfo)
                          (h : Hartnet.t) (i : nat) (data : list Z) :
  delivered i data (events_of (Hartnet.on_ArtDmx msg rinfo h)) <->
  exists r, Hartnet.receivers h !! i = Some r /\
            Receiver.acceptPacket r (msg !! 14%nat) (Hartnet.address rinfo) = true /\
            data = drop 18 msg.
Proof.
  unfold delivered.
  destruct (on_ArtDmx_events msg rinfo h) as [-> _].
  set (acc := accepting _ _ _ _).
  assert (Hin : In (EmitData i data) (map (fun j => EmitData j (drop 18 msg)) acc) <->
                exists r, Hartnet.receivers h !! i = Some r /\
                  Receiver.acceptPacket r (msg !! 14%nat) (Hartnet.address rinfo) = true /\
                  data = drop 18 msg).
  { rewrite in_map_iff. subst acc. unfold accepting. split.
    - intros (j & Heq & Hj). injection Heq as Hji Hd. subst j data.
      apply filter_In in Hj as [_ Hj].
      destruct (Hartnet.receivers h !! i) as [r |]; [|discriminate].
      exists r. auto.
    - intros (r & Hr & Hacc & ->). exists i. split; [reflexivity|].
      apply filter_In. split.
      + apply in_seq. apply lookup_lt_Some in Hr. lia.
      + rewrite Hr. exact Hacc. }
  destruct acc as [| j acc'] eqn:Eacc; [|exact Hin].
  rewrite <- Hin. cbn. split; [intros [[=] | []] | intros []].
Qed.

Lemma subuni_value (subnet universe : Z) :
  0 <= subnet <= 15 -> 0 <= universe <= 15 ->
  JS.bor (JS.shl subnet 4) universe = 16 * subnet + universe.
Proof.
  intros Hs Hu.
  rewrite shl_small by (change (2 ^ 4) with 16; change (2 ^ 31) with 2147483648; lia).
  rewrite bor_high_low by (change (2 ^ 4) with 16; change (2 ^ 31) with 2147483648; lia).
  change (2 ^ 4) with 16. lia.
Qed.

(** C2, as stated, fails: a one-channel array is not encoded at all, the
    format always takes 512 channel values. *)
Lemma artdmx_roundtrip_one_channel_fails : ~ artdmx_roundtrip 1 0 0 0 [7].
Proof.
  intros (pkt & Hpack & _). vm_compute in Hpack. discriminate Hpack.
Qed.

(** C2 (amended). For every channel array of exactly 512 values 0..255 and
    every sequence octet, net 0..127, subnet and universe 0..15, the
    datagram [transmit] builds has the ArtDmx layout, and decoding it gives
    back the exact channel array and the sequence, port-address low octet
    and net octet. *)
Theorem artdmx_roundtrip_512 (seq net subnet universe : Z) (vals : list Z) :
  is_octet seq -> 0 <= net <= 127 -> 0 <= subnet <= 15 -> 0 <= universe <= 15 ->
  length vals = 512%nat -> Forall is_octet vals ->
  artdmx_roundtrip seq net subnet universe vals.
Proof.
  intros Hq Hn Hs Hu Hlen Hvals. unfold artdmx_roundtrip.
  rewrite subuni_value by assumption.
  exists (ArtDmxHeader seq (16 * subnet + universe) net ++ vals).
  split; [apply ArtDmxPacket_full; unfold is_octet in *; try assumption; lia|].
  split; [reflexivity|].
  split; [rewrite parse_data_drop; reflexivity|].
  rewrite !parseInt_B_lookup. repeat split; reflexivity.
Qed.

Lemma artdmx_roundtrip_512_witness : artdmx_roundtrip 7 1 2 3 (repeat 9 512).
Proof.
  apply artdmx_roundtrip_512; unfold is_octet; try lia.
  - reflexivity.
  - apply List.Forall_forall. intros x Hx. apply repeat_spec in Hx. lia.
Defined.




(** ** Receivers above net 0 *)

(** A receiver whose port address has a net part is never handed anything:
    [dataParser] compares the single octet at offset 14 with the whole
    15-bit port address. *)
Lemma receiver_with_net_is_deaf (r : Receiver.t) (msg : list Z) (address : Z) :
  255 < Receiver.port_address r -> Forall is_octet msg ->
  Receiver.acceptPacket r (Jspack.parseInt_B msg 14) address = false.
Proof.
  intros Hpa Hmsg. rewrite parseInt_B_lookup.
  destruct (msg !! 14%nat) as [b |] eqn:Hb; [|reflexivity].
  rewrite List.Forall_forall in Hmsg.
  assert (Hoct : is_octet b)
    by (apply Hmsg, list_elem_of_In, list_elem_of_lookup; eauto).
  unfold Receiver.acceptPacket, JS.neq, is_octet in *.
  destruct (b =? Receiver.port_address r) eqn:E; [apply Z.eqb_eq in E; lia|].
  reflexivity.
Qed.

(** The example of the specification holds on net 0: the receiver with
    [from = "10.0.0.5/32"] and universe 3 accepts the matching octet from
    10.0.0.5 and rejects it from 10.0.0.6, and rejects another universe. *)
Lemma receiver_u3_example :
  Receiver.acceptPacket Example.receiver_u3 (Some 3) (Netmask.ipv4 10 0 0 5) = true /\
  Receiver.acceptPacket Example.receiver_u3 (Some 3) (Netmask.ipv4 10 0 0 6) = false /\
  Receiver.acceptPacket Example.receiver_u3 (Some 4) (Netmask.ipv4 10 0 0 5) = false.
Proof. repeat split; vm_compute; reflexivity. Qed.

(** C1, at the failing input. A Sender and a Receiver are both constructed
    for net 1, subnet 0, universe 3. In the datagram the Sender transmits,
    the octet at offset 14 is 3, the low octet of the Receiver's port
    address 259, and the source is inside the Receiver's filter; yet
    [dataParser] hands the datagram to no receiver. *)
Theorem same_port_address_on_net1_not_delivered :
  let pkt := Example.packet_of Example.sender_net1 in
  let rinfo := Example.from_ip (Netmask.ipv4 10 0 0 7) pkt in
  Receiver.port_address Example.receiver_net1 = 259 /\
  pkt !! 14%nat = Some (Receiver.port_address Example.receiver_net1 mod 256) /\
  pkt !! 15%nat = Some 1 /\
  Netmask.contains (Receiver.ipnet Example.receiver_net1) (Hartnet.address rinfo) = true /\
  Hartnet.dataParser [Example.eth0] 0 pkt rinfo (Example.engine [] [Example.receiver_net1])
  = (Example.engine [] [Example.receiver_net1], [Log NoReceiverSet], Normal tt).
Proof. repeat split; vm_compute; reflexivity. Qed.

(** ** ArtPollReply packets *)

Lemma take_as_lookups (n : nat) (s : list Z) :
  (n <= length s)%nat ->
  take n s = map (fun i => default 0 (s !! i)) (seq 0 n).
Proof.
  intros Hn. apply list_eq. intros i.
  change (map ?f ?l) with (fmap f l). rewrite list_lookup_fmap.
  destruct (decide (i < n)%nat) as [Hi | Hi].
  - rewrite lookup_take_lt by assumption. rewrite lookup_seq_lt by assumption.
    cbn. destruct (lookup_lt_is_Some_2 s i ltac:(lia)) as [x ->]. reflexivity.
  - rewrite lookup_take_ge by lia. rewrite lookup_seq_ge by lia. reflexivity.
Qed.

Lemma EnString_as_lookups (n : nat) (s : list Z) :
  Jspack.EnString n s = map (fun i => default 0 ((s ++ repeat 0 n) !! i)) (seq 0 n).
Proof.
  unfold Jspack.EnString. apply take_as_lookups.
  rewrite length_app, repeat_length. lia.
Qed.

Lemma createPacket_fields (h : Hartnet.t) (iface : Iface.t)
                          (devices : list Hartnet.Device) (bindIndex : Z) :
  devices <> [] -> length (Iface.mac iface) = 6%nat ->
  exists pkt,
    Hartnet.createPacket h iface devices bindIndex = Some pkt /\
    length pkt = 214%nat /\
    pkt !! 213%nat = Some (JS.band (Jspack.clamp 0 255 bindIndex) 255) /\
    Jspack.EnH (Z.min (Z.of_nat (length devices)) 4)
      = [default 0 (pkt !! 172%nat); default 0 (pkt !! 173%nat)].
Proof.
  intros Hdev Hmac.
  destruct devices as [| d0 ds]; [congruence|].
  destruct iface as [ip mac nm]. cbn [Iface.mac] in Hmac.
  do 6 (destruct mac as [| ? mac]; [discriminate Hmac|]).
  destruct mac; [|discriminate Hmac].
  unfold Hartnet.createPacket, Hartnet.basePacket, Hartnet.ArtPollReplyFormat.
  set (b := Hartnet.add_ports _ _ _).
  set (np := Z.min _ 4).
  cbn [Iface.ip Iface.mac ip_octets map app insert list_insert
       Jspack.Pack Jspack.PackSeries].
  rewrite !EnString_as_lookups.
  cbn [seq map app].
  eexists. split; [reflexivity|].
  split; [reflexivity|].
  split; reflexivity.
Qed.

Lemma for_each_emits {St A : Type} (l : list A) (body : A -> Eff St unit)
                     (s : St) (ev : A -> event) :
  (forall x, In x l -> body x s = (s, [ev x], Normal tt)) ->
  for_each l body s = (s, map ev l, Normal tt).
Proof.
  induction l as [| x l IH]; intros Hbody; [reflexivity|].
  cbn [for_each map]. unfold bind.
  rewrite (Hbody x (or_introl eq_refl)).
  rewrite IH by (intros y Hy; apply Hbody; right; exact Hy).
  reflexivity.
Qed.

Lemma for_each_pure {St A : Type} (l : list A) (body : A -> Eff St unit) (s : St) :
  (forall x, In x l -> exists evs, body x s = (s, evs, Normal tt)) ->
  exists evs, for_each l body s = (s, evs, Normal tt).
Proof.
  induction l as [| x l IH]; intros Hbody; [exists []; reflexivity|].
  destruct (Hbody x (or_introl eq_refl)) as [ev1 H1].
  destruct IH as [ev2 H2]; [intros y Hy; apply Hbody; right; exact Hy|].
  exists (ev1 ++ ev2). cbn [for_each]. unfold bind. rewrite H1, H2. reflexivity.
Qed.

Lemma packetCount_bound (n i : nat) :
  (i < Hartnet.packetCount n)%nat -> (i * 4 < n)%nat.
Proof.
  unfold Hartnet.packetCount. intros Hi.
  pose proof (Z.mul_div_le (Z.of_nat n + 3) 4 ltac:(lia)).
  assert (0 <= (Z.of_nat n + 3) / 4) by (apply Z.div_pos; lia).
  lia.
Qed.

(** The datagram [send_group] sends for the slice of index [i]. *)
Lemma send_group_spec (g : Hartnet.Group) (h : Hartnet.t) :
  length (Iface.mac (Hartnet.g_iface g)) = 6%nat ->
  Hartnet.send_group g h
  = (h,
     map (fun i =>
            UdpSend
              (default [] (Hartnet.createPacket h (Hartnet.g_iface g)
                             (take 4 (drop (i * 4) (Hartnet.g_devices g)))
                             (Z.of_nat i)))
              6454 (Netmask.broadcast (Iface.netmask (Hartnet.g_iface g))))
         (seq 0 (Hartnet.packetCount (length (Hartnet.g_devices g)))),
     Normal tt).
Proof.
  intros Hmac. unfold Hartnet.send_group.
  apply for_each_emits. intros i Hi.
  apply in_seq in Hi. rewrite bind_get.
  assert (Hne : take 4 (drop (i * 4) (Hartnet.g_devices g)) <> []).
  { assert (i * 4 < length (Hartnet.g_devices g))%nat
      by (apply packetCount_bound; lia).
    intros Hnil. apply (f_equal length) in Hnil.
    rewrite length_take, length_drop in Hnil.
    change (length (@nil Hartnet.Device)) with 0%nat in Hnil. lia. }
  destruct (createPacket_fields h (Hartnet.g_iface g) _ (Z.of_nat i) Hne Hmac)
    as (pkt & -> & _).
  reflexivity.
Qed.





(** ** Replies always complete *)

Lemma group_push_ifaces (P : Iface.t -> Prop) (key : Hartnet.Key)
                        (iface : Iface.t) (device : Hartnet.Device)
                        (groups : list (Hartnet.Key * Hartnet.Group)) :
  P iface ->
  Forall (fun kg => P (Hartnet.g_iface (snd kg))) groups ->
  Forall (fun kg => P (Hartnet.g_iface (snd kg)))
         (Hartnet.group_push key iface device groups).
Proof.
  intros Hi. induction 1 as [| [k g] groups Hg Hrest IH]; cbn [Hartnet.group_push].
  - repeat constructor. exact Hi.
  - destruct (bool_decide (k = key)); constructor; cbn in *; assumption.
Qed.

Lemma groupDevices_ifaces (P : Iface.t -> Prop) (devices : list Hartnet.Device) :
  Forall (fun d => Forall P (Hartnet.dev_interfaces d)) devices ->
  Forall (fun kg => P (Hartnet.g_iface (snd kg))) (Hartnet.groupDevices devices).
Proof.
  unfold Hartnet.groupDevices.
  assert (Hnil : Forall (fun kg : Hartnet.Key * Hartnet.Group =>
                           P (Hartnet.g_iface (snd kg))) []) by constructor.
  revert Hnil. generalize (@nil (Hartnet.Key * Hartnet.Group)) as groups.
  intros groups Hgroups Hall. revert groups Hgroups.
  induction Hall as [| d devices Hd _ IH]; intros groups Hgroups; [exact Hgroups|].
  cbn [fold_left]. apply IH.
  revert groups Hgroups.
  induction Hd as [| i ifs Hi _ IHi]; intros groups Hgroups; [exact Hgroups|].
  cbn [fold_left]. apply IHi. apply group_push_ifaces; assumption.
Qed.

(** [ArtPollReply()] runs to its end: whatever it sends, it leaves the
    engine with the counter advanced once and the time recorded. *)
Lemma ArtPollReply_completes (h : Hartnet.t) (now : Z) :
  interfaces_ok h ->
  exists evs,
    Hartnet.ArtPollReply now h
    = (Hartnet.set_reply_stamp ((Hartnet.artPollReplyCount h + 1) mod 10000) now h,
       evs, Normal tt).
Proof.
  intros [Hs Hr]. unfold Hartnet.ArtPollReply. rewrite bind_get.
  set (groups := Hartnet.groupDevices _).
  assert (Hg : Forall (fun kg => mac6 (Hartnet.g_iface (snd kg))) groups).
  { subst groups. apply groupDevices_ifaces. apply Forall_app. split.
    - apply Forall_fmap. eapply Forall_impl; [exact Hs|]. intros s H. exact H.
    - apply Forall_fmap. eapply Forall_impl; [exact Hr|]. intros r H. exact H. }
  destruct (for_each_pure (map snd groups) Hartnet.send_group h) as [evs Hevs].
  { intros g Hin. apply in_map_iff in Hin as ([k g'] & <- & Hin).
    rewrite List.Forall_forall in Hg. specialize (Hg _ Hin).
    eexists. apply send_group_spec. exact Hg. }
  exists evs. unfold bind. rewrite Hevs. cbn. rewrite app_nil_r. reflexivity.
Qed.

(** ** ArtPoll and the periodic poll *)

Lemma dataParser_ArtPoll (INTERFACES : list Iface.t) (now : Z) (msg : list Z)
                         (rinfo : Hartnet.RemoteInfo) (h : Hartnet.t) :
  is_ArtPoll msg -> sized msg rinfo ->
  Hartnet.dataParser INTERFACES now msg rinfo h = Hartnet.on_ArtPoll now msg rinfo h.
Proof.
  unfold is_ArtPoll, sized. intros Hhd Hsz.
  first10 msg Hhd.
  unfold Hartnet.dataParser.
  cbn [length] in Hsz.
  destruct (Hartnet.size rinfo <? 10) eqn:E; [apply Z.ltb_lt in E; lia|].
  reflexivity.
Qed.

(** The timer callback skips the poll, and says so, when the last reply is
    less than half an interval old. *)
Lemma on_poll_timer_skips (h : Hartnet.t) (now : Z) :
  2 * (now - Hartnet.last_poll_reply h) < Hartnet.poll_interval (Hartnet.options h) ->
  Hartnet.on_poll_timer now h = (h, [Log SkipArtPoll], Normal tt).
Proof.
  intros Hrecent. unfold Hartnet.on_poll_timer. rewrite bind_get.
  destruct (2 * (now - Hartnet.last_poll_reply h)
            <? Hartnet.poll_interval (Hartnet.options h)) eqn:E;
    [reflexivity | apply Z.ltb_ge in E; lia].
Qed.

Lemma on_poll_timer_polls (h : Hartnet.t) (now : Z) :
  Hartnet.poll_interval (Hartnet.options h) <= 2 * (now - Hartnet.last_poll_reply h) ->
  Hartnet.on_poll_timer now h = Hartnet.ArtPoll h.
Proof.
  intros Hold. unfold Hartnet.on_poll_timer. rewrite bind_get.
  destruct (2 * (now - Hartnet.last_poll_reply h)
            <? Hartnet.poll_interval (Hartnet.options h)) eqn:E;
    [apply Z.ltb_lt in E; lia | reflexivity].
Qed.

(** An ArtPoll that passes the checks is answered: the run completes and
    the time of the reply is the time of the ArtPoll. *)
Lemma on_ArtPoll_replies (now : Z) (msg : list Z) (rinfo : Hartnet.RemoteInfo)
                         (h : Hartnet.t) :
  interfaces_ok h -> passes_ArtPoll_checks msg -> sized msg rinfo ->
  exists h1 evs,
    Hartnet.on_ArtPoll now msg rinfo h
    = (Hartnet.set_reply_stamp ((Hartnet.artPollReplyCount h + 1) mod 10000) now h1,
       evs, Normal tt) /\
    Hartnet.options h1 = Hartnet.options h /\
    Hartnet.controllers h1 <> [].
Proof.
  intros Hok (_ & Hlen & a & b & Ha & Hb & Hv) Hsz.
  unfold sized in Hsz. unfold Hartnet.on_ArtPoll.
  destruct (Hartnet.size rinfo <? 14) eqn:E; [apply Z.ltb_lt in E; lia|].
  rewrite !parseInt_B_lookup, Ha, Hb. cbn [JS.nadd JS.nmul JS.falsy JS.nlt].
  destruct (a + b * 256 =? 0) eqn:E0; [apply Z.eqb_eq in E0; lia|].
  destruct (a + b * 256 <? 14) eqn:E1; [apply Z.ltb_lt in E1; lia|].
  cbn [orb]. rewrite bind_get.
  set (ctrl := Hartnet.mkController _ _ _ _ _ _ _).
  destruct (Hartnet.findIndex (Hartnet.address rinfo) (Hartnet.controllers h))
    as [key |] eqn:Hkey.
  - rewrite bind_modify.
    set (h1 := Hartnet.set_controllers _ h).
    destruct (ArtPollReply_completes h1 now Hok) as [evs ->].
    exists h1, evs. repeat split.
    subst h1. cbn [Hartnet.set_controllers Hartnet.controllers].
    intros Hnil. apply (f_equal length) in Hnil. rewrite length_insert in Hnil.
    destruct (Hartnet.controllers h); [discriminate Hkey | discriminate Hnil].
  - rewrite bind_assoc, bind_modify, bind_emit.
    set (h1 := Hartnet.set_controllers _ h).
    destruct (ArtPollReply_completes h1 now Hok) as [evs ->].
    exists h1, (Log NewController :: evs). repeat split.
    subst h1. cbn [Hartnet.set_controllers Hartnet.controllers].
    intros Hnil. apply (f_equal length) in Hnil. rewrite length_app in Hnil.
    cbn in Hnil. lia.
Qed.

(** C9. The periodic poll is skipped, with a log line and a normal
    completion, whenever an ArtPollReply was sent less than half a poll
    interval before the timer fires; an ArtPoll received at [t0] is answered
    with an ArtPollReply, so a timer that fires at [t1] with
    [t1 - t0 < poll_interval / 2] skips its poll. *)
Theorem recent_reply_suppresses_poll
  (INTERFACES : list Iface.t) (h : Hartnet.t) (msg : list Z)
  (rinfo : Hartnet.RemoteInfo) (t0 t1 : Z) :
  interfaces_ok h -> passes_ArtPoll_checks msg -> sized msg rinfo ->
  2 * (t1 - t0) < Hartnet.poll_interval (Hartnet.options h) ->
  let replied := state_of (Hartnet.ArtPollReply t0 h) in
  let polled := Hartnet.dataParser INTERFACES t0 msg rinfo h in
  Hartnet.on_poll_timer t1 replied = (replied, [Log SkipArtPoll], Normal tt) /\
  completion_of polled = Normal tt /\
  Hartnet.last_poll_reply (state_of polled) = t0 /\
  Hartnet.on_poll_timer t1 (state_of polled)
  = (state_of polled, [Log SkipArtPoll], Normal tt).
Proof.
  intros Hok Hpoll Hsz Hrecent replied polled.
  split.
  - subst replied. destruct (ArtPollReply_completes h t0 Hok) as [evs ->].
    apply on_poll_timer_skips. exact Hrecent.
  - subst polled.
    rewrite (dataParser_ArtPoll INTERFACES t0 msg rinfo h (proj1 Hpoll) Hsz).
    destruct (on_ArtPoll_replies t0 msg rinfo h Hok Hpoll Hsz)
      as (h1 & evs & -> & Hopt & _).
    cbn [completion_of state_of fst snd].
    repeat split.
    apply on_poll_timer_skips.
    cbn [Hartnet.set_reply_stamp Hartnet.last_poll_reply Hartnet.options].
    rewrite Hopt. exact Hrecent.
Qed.

Lemma recent_reply_suppresses_poll_witness :
  Hartnet.on_poll_timer 2500 (state_of (Hartnet.ArtPollReply 1000 Example.poll_engine))
  = (state_of (Hartnet.ArtPollReply 1000 Example.poll_engine),
     [Log SkipArtPoll], Normal tt) /\
  completion_of (Hartnet.dataParser [Example.eth0] 1000 Example.artpoll
                   Example.artpoll_rinfo Example.poll_engine) = Normal tt /\
  Hartnet.last_poll_reply
    (state_of (Hartnet.dataParser [Example.eth0] 1000 Example.artpoll
                 Example.artpoll_rinfo Example.poll_engine)) = 1000 /\
  Hartnet.on_poll_timer 2500
    (state_of (Hartnet.dataParser [Example.eth0] 1000 Example.artpoll
                 Example.artpoll_rinfo Example.poll_engine))
  = (state_of (Hartnet.dataParser [Example.eth0] 1000 Example.artpoll
                 Example.artpoll_rinfo Example.poll_engine),
     [Log SkipArtPoll], Normal tt).
Proof.
  apply (recent_reply_suppresses_poll [Example.eth0] Example.poll_engine
           Example.artpoll Example.artpoll_rinfo 1000 2500).
  - split; repeat constructor.
  - split; [reflexivity|]. split; [cbn; lia|].
    exists 0, 14. repeat split. lia.
  - reflexivity.
  - cbn. lia.
Defined.

(** The two ArtPoll checks, as the code makes them: a datagram under 14
    octets, or one whose version octets read low octet first give less than
    14, is discarded; nothing is recorded and nothing is sent. *)
Lemma artpoll_discarded (INTERFACES : list Iface.t) (now : Z) (msg : list Z)
                        (rinfo : Hartnet.RemoteInfo) (h : Hartnet.t) :
  is_ArtPoll msg -> sized msg rinfo ->
  ((length msg < 14)%nat \/
   exists a b, msg !! 10%nat = Some a /\ msg !! 11%nat = Some b /\ a + b * 256 < 14) ->
  exists m, Hartnet.dataParser INTERFACES now msg rinfo h = (h, [Log m], Normal tt).
Proof.
  intros Hpoll Hsz Hbad.
  rewrite (dataParser_ArtPoll INTERFACES now msg rinfo h Hpoll Hsz).
  unfold sized in Hsz. unfold Hartnet.on_ArtPoll.
  destruct (Hartnet.size rinfo <? 14) eqn:E; [eexists; reflexivity|].
  apply Z.ltb_ge in E.
  destruct Hbad as [Hlen | (a & b & Ha & Hb & Hv)]; [lia|].
  rewrite !parseInt_B_lookup, Ha, Hb. cbn [JS.nadd JS.nmul JS.falsy JS.nlt].
  destruct (a + b * 256 <? 14) eqn:E1; [|apply Z.ltb_ge in E1; lia].
  rewrite orb_true_r. eexists. reflexivity.
Qed.

(** C6, at the failing input. The ArtPoll carries 13 in its big-endian
    protocol-version field (octets 0, 13). [dataParser] reads the field low
    octet first, finds 3328, and answers: the controller is recorded, an
    ArtPollReply is sent and the reply counter advances. *)
Theorem artpoll_version_13_is_answered :
  Jspack.DeH Example.artpoll_v13 10 = 13 /\
  exists pkt ctrl,
    Hartnet.dataParser [Example.eth0] 50 Example.artpoll_v13
      (Example.from_ip (Netmask.ipv4 10 0 0 9) Example.artpoll_v13)
      Example.poll_engine
    = (Hartnet.set_reply_stamp 1 50
         (Hartnet.set_controllers [ctrl] Example.poll_engine),
       [Log NewController; UdpSend pkt 6454 (Some (Netmask.ipv4 10 0 0 255))],
       Normal tt) /\
    Hartnet.c_ip ctrl = Netmask.ipv4 10 0 0 9.
Proof.
  split; [reflexivity|].
  eexists. eexists. split; [vm_compute; reflexivity | reflexivity].
Qed.

(** ** Decoding ArtPollReply *)

(** C3, at the failing input. The engine's own ArtPollReply for one
    Receiver of universe 5 has 5 in the first octet of the SwIn array
    (offset 186) and 1 in the first octet of the GoodInput array (offset
    178). Decoded by [dataParser] on a peer, port slot 0 is recorded with
    universe 0 and [isGood] false: the universe is taken from the high four
    bits of that octet and the flag from the last octet of the array. *)
Theorem own_reply_decoded_with_wrong_universe :
  Jspack.DeH Example.reply_u5 172 = 1 /\
  Example.reply_u5 !! 186%nat = Some 5 /\
  Example.reply_u5 !! 178%nat = Some 1 /\
  exists node,
    Hartnet.nodes
      (state_of (Hartnet.dataParser [Example.eth_peer] 77 Example.reply_u5
                   (Example.from_ip (Netmask.ipv4 10 0 0 1) Example.reply_u5)
                   Example.peer_engine))
      !! [2; 0; 0; 0; 0; 1] = Some node /\
    Node.inPorts node !! 0
    = Some (Node.mkPort 0 0 0 (Netmask.ipv4 10 0 0 1) 0 false).
Proof.
  split; [reflexivity|]. split; [reflexivity|]. split; [reflexivity|].
  eexists. split; vm_compute; reflexivity.
Qed.

(** A reply laid out with one octet per port, universes 5, 6, 7 and 8 in
    the low four bits of the four SwIn octets and every port input-capable,
    is decoded as universes 0, 5, 0 and 6. *)
Lemma one_octet_per_port_misread :
  let apr := Node.mkReply (Netmask.ipv4 10 0 0 1) [2; 0; 0; 0; 0; 1] [] [] []
               4 (Hartnet.word_of 128 128 128 128) 0 0
               (Hartnet.word_of 5 6 7 8) 0 0 0 0 [] [] in
  map Node.universe (Node.r_inPorts (Hartnet.parse_ports apr)) = [0; 5; 0; 6].
Proof. vm_compute. reflexivity. Qed.

(** ** The node registry *)

Lemma port_eta (p : Node.Port) :
  Node.mkPort (Node.net p) (Node.subnet p) (Node.universe p) (Node.ip p)
              (Node.portNumber p) (Node.isGood p) = p.
Proof. destruct p. reflexivity. Qed.

(** What [updatePorts] leaves under a port number is either the entry it
    wrote last or the entry that was there. *)
Lemma updatePorts_lookup_shape (INTERFACES : list Iface.t)
                               (ports : list Node.Port) (j : Z) :
  exists w : option Node.Port,
    forall m : gmap Z Node.Port,
      Node.updatePorts INTERFACES ports m !! j
      = match w with Some p => Some p | None => m !! j end.
Proof.
  unfold Node.updatePorts.
  induction ports as [| x ports [w IH]]; [exists None; reflexivity|].
  cbn [fold_left].
  destruct w as [p |].
  - exists (Some p). intros m. apply IH.
  - destruct (Node.isCompatibleWithLocalInterfaces INTERFACES (Node.ip x)) eqn:Hc.
    + destruct (decide (Node.portNumber x = j)) as [<- | Hne].
      * exists (Some x). intros m. rewrite IH, port_eta. apply lookup_insert_eq.
      * exists None. intros m. rewrite IH. apply lookup_insert_ne. exact Hne.
    + exists None. intros m. apply IH.
Qed.

Lemma updatePorts_idempotent (INTERFACES : list Iface.t)
                             (ports : list Node.Port) (m : gmap Z Node.Port) :
  Node.updatePorts INTERFACES ports (Node.updatePorts INTERFACES ports m)
  = Node.updatePorts INTERFACES ports m.
Proof.
  apply map_eq. intros j.
  destruct (updatePorts_lookup_shape INTERFACES ports j) as [w Hw].
  rewrite (Hw (Node.updatePorts INTERFACES ports m)), (Hw m).
  destruct w; reflexivity.
Qed.

Lemma updatePorts_lookup_other (INTERFACES : list Iface.t)
                               (ports : list Node.Port) (j : Z) :
  ~ In j (map Node.portNumber ports) ->
  forall m : gmap Z Node.Port, Node.updatePorts INTERFACES ports m !! j = m !! j.
Proof.
  unfold Node.updatePorts.
  induction ports as [| x ports IH]; intros Hj m; [reflexivity|].
  cbn [fold_left]. cbn [map In] in Hj.
  rewrite IH by tauto.
  destruct (Node.isCompatibleWithLocalInterfaces INTERFACES (Node.ip x));
    [apply lookup_insert_ne; tauto | reflexivity].
Qed.

Lemma updatePorts_cons (INTERFACES : list Iface.t) (x : Node.Port)
                       (ports : list Node.Port) (m : gmap Z Node.Port) :
  Node.updatePorts INTERFACES (x :: ports) m
  = Node.updatePorts INTERFACES ports
      (if Node.isCompatibleWithLocalInterfaces INTERFACES (Node.ip x)
       then <[Node.portNumber x := x]> m else m).
Proof. unfold Node.updatePorts. cbn [fold_left]. rewrite port_eta. reflexivity. Qed.

Lemma updatePorts_lookup_written (INTERFACES : list Iface.t)
                                 (ports : list Node.Port) (p : Node.Port) :
  NoDup (map Node.portNumber ports) -> In p ports ->
  Node.isCompatibleWithLocalInterfaces INTERFACES (Node.ip p) = true ->
  forall m : gmap Z Node.Port,
    Node.updatePorts INTERFACES ports m !! Node.portNumber p = Some p.
Proof.
  intros Hnd Hin Hc.
  induction ports as [| x ports IH]; [destruct Hin|].
  cbn [map] in Hnd. apply NoDup_cons in Hnd as [Hx Hnd].
  intros m. rewrite updatePorts_cons.
  destruct Hin as [-> | Hin].
  - rewrite updatePorts_lookup_other
      by (intros H; apply Hx, list_elem_of_In; exact H).
    rewrite Hc. apply lookup_insert_eq.
  - apply IH; assumption.
Qed.

Lemma same_json_tracked (a b : Node.t) :
  Node.mac a = Node.mac b -> Node.status a = Node.status b ->
  Node.lastUpdate a = Node.lastUpdate b ->
  Node.same_json a b = bool_decide (tracked a = tracked b).
Proof.
  intros Hm Hs Hl. unfold Node.same_json. apply bool_decide_ext.
  unfold tracked. destruct a, b. cbn in *. subst.
  split; [intros [= -> -> -> -> ->]; reflexivity
         | intros [= -> -> -> -> ->]; reflexivity].
Qed.

(** A second update with the identical record reports no change. *)
Lemma upsertNode_twice (INTERFACES : list Iface.t) (t0 t1 : Z)
                       (data : Node.Reply) (node : Node.t) :
  Node.mac node = Node.r_mac data ->
  snd (Node.updateFromArtPollReply INTERFACES t1 data
         (fst (Node.updateFromArtPollReply INTERFACES t0 data node)))
  = Some false.
Proof.
  intros Hmac. unfold Node.updateFromArtPollReply.
  rewrite (bool_decide_eq_true_2 _ Hmac). cbn [negb fst snd Node.mac].
  rewrite (bool_decide_eq_true_2 _ Hmac). cbn [negb fst snd].
  f_equal. apply negb_false_iff. unfold Node.same_json.
  apply bool_decide_eq_true_2.
  cbn [Node.mac Node.node_ip Node.shortName Node.longName Node.status
       Node.lastUpdate Node.inPorts Node.outPorts].
  rewrite !updatePorts_idempotent. reflexivity.
Qed.

(** C8, as stated, fails for the status: the same reply with another status
    text changes the node's status and is reported as no change. *)
Lemma status_change_is_not_reported :
  Node.status (upserted [Example.eth_peer] 20 Example.reply_b Example.node_a)
  <> Node.status Example.node_a /\
  changed [Example.eth_peer] 20 Example.reply_b Example.node_a = Some false.
Proof.
  split; [|vm_compute; reflexivity].
  vm_compute. intros H. discriminate H.
Qed.

(** C8 (amended). For a record of the node's own MAC, [upsertNode] reports
    whether the node's IP, short name, long name or port tables differ from
    before the update (the status text and the time stamp are not compared);
    so a second update with the identical record reports no change, and a
    record whose short name differs from the stored one, or one of whose
    recorded ports differs in [isGood] from the stored port of that number,
    reports a change. *)
Theorem upsertNode_change_report
  (INTERFACES : list Iface.t) (now : Z) (data : Node.Reply) (node : Node.t) :
  Node.mac node = Node.r_mac data ->
  changed INTERFACES now data node
  = Some (negb (bool_decide (tracked (upserted INTERFACES now data node)
                             = tracked node))) /\
  (forall later,
     changed INTERFACES later data (upserted INTERFACES now data node) = Some false) /\
  (Node.r_shortName data <> Node.shortName node ->
   changed INTERFACES now data node = Some true) /\
  (flips_isGood INTERFACES (Node.r_inPorts data) (Node.inPorts node) \/
   flips_isGood INTERFACES (Node.r_outPorts data) (Node.outPorts node) ->
   changed INTERFACES now data node = Some true).
Proof.
  intros Hmac.
  unfold changed, upserted, Node.updateFromArtPollReply.
  rewrite (bool_decide_eq_true_2 _ Hmac). cbn [negb fst snd Node.mac].
  rewrite (bool_decide_eq_true_2 _ Hmac). cbn [negb fst snd].
  split; [|split; [|split]].
  - f_equal. f_equal. rewrite same_json_tracked by reflexivity.
    apply bool_decide_ext. unfold tracked. cbn. split; intros H; symmetry; exact H.
  - intros later.
    pose proof (upsertNode_twice INTERFACES now later data node Hmac) as Htwice.
    unfold Node.updateFromArtPollReply in Htwice.
    rewrite (bool_decide_eq_true_2 _ Hmac) in Htwice.
    cbn [negb fst snd Node.mac] in Htwice.
    rewrite (bool_decide_eq_true_2 _ Hmac) in Htwice. exact Htwice.
  - intros Hname. f_equal. apply negb_true_iff. unfold Node.same_json.
    apply bool_decide_eq_false_2. intros H.
    apply (f_equal Node.shortName) in H. cbn in H. congruence.
  - intros Hflip. f_equal. apply negb_true_iff. unfold Node.same_json.
    apply bool_decide_eq_false_2. intros H.
    destruct Hflip as [(Hnd & p & q & Hin & Hc & Hq & Hgood)
                      | (Hnd & p & q & Hin & Hc & Hq & Hgood)].
    + apply (f_equal Node.inPorts) in H. cbn in H.
      apply (f_equal (fun m => m !! Node.portNumber p)) in H. cbn beta in H.
      rewrite (updatePorts_lookup_written INTERFACES _ p Hnd Hin Hc) in H.
      rewrite Hq in H. injection H as ->. apply Hgood. reflexivity.
    + apply (f_equal Node.outPorts) in H. cbn in H.
      apply (f_equal (fun m => m !! Node.portNumber p)) in H. cbn beta in H.
      rewrite (updatePorts_lookup_written INTERFACES _ p Hnd Hin Hc) in H.
      rewrite Hq in H. injection H as ->. apply Hgood. reflexivity.
Qed.

Lemma upsertNode_change_report_witness :
  changed [Example.eth_peer] 30 Example.reply_a Example.node_a = Some false /\
  changed [Example.eth_peer] 30 Example.reply_c Example.node_a = Some true.
Proof.
  split.
  - apply (proj1 (proj2 (upsertNode_change_report [Example.eth_peer] 10
                           Example.reply_a (Node.new [2; 0; 0; 0; 0; 1]) eq_refl))).
  - apply (proj2 (proj2 (proj2 (upsertNode_change_report [Example.eth_peer] 30
                                  Example.reply_c Example.node_a eq_refl)))).
    left. split; [repeat constructor; intros H; inversion H|].
    exists (Node.mkPort 0 0 0 (Netmask.ipv4 10 0 0 1) 0 false),
           (Node.mkPort 0 0 0 (Netmask.ipv4 10 0 0 1) 0 true).
    split; [left; reflexivity|].
    split; [vm_compute; reflexivity|].
    split; [vm_compute; reflexivity|].
    cbn. discriminate.
Defined.

(** At the engine: the same ArtPollReply datagram received a second time
    never raises a second node-update notification. *)
Lemma identical_reply_twice_no_second_update
  (INTERFACES : list Iface.t) (t0 t1 : Z) (msg : list Z)
  (rinfo : Hartnet.RemoteInfo) (h : Hartnet.t) (m : list Z) :
  ~ In (EmitNodeUpdate m)
       (events_of
          (Hartnet.on_ArtPollReply INTERFACES t1 msg rinfo
             (state_of (Hartnet.on_ArtPollReply INTERFACES t0 msg rinfo h)))).
Proof.
  unfold Hartnet.on_ArtPollReply.
  destruct (length msg <? 208)%nat; [cbn; intros [H | []]; discriminate H|].
  destruct (Jspack.Unpack Hartnet.ArtPollReplyFormat msg 0) as [unpacked |];
    [|cbn; tauto].
  set (apr0 := Hartnet.reply_of msg rinfo unpacked).
  set (apr := Hartnet.parse_ports apr0).
  rewrite (bind_get _ h).
  destruct (Hartnet.is_local INTERFACES (Node.r_ip apr0)
            && bool_decide (Node.r_shortName apr0 = Hartnet.sName (Hartnet.options h))
            && bool_decide (Node.r_longName apr0 = Hartnet.lName (Hartnet.options h)))
    eqn:Hself.
  - cbn [emit state_of fst]. rewrite bind_get, Hself.
    cbn. intros [H | []]; discriminate H.
  - assert (Hfirst : exists node evs,
              (node0 <- match Hartnet.nodes h !! Node.r_mac apr with
                        | Some n => ret n
                        | None => emit (Log NewNode) ;; ret (Node.new (Node.r_mac apr))
                        end ;;
               match Node.updateFromArtPollReply INTERFACES t0 apr node0 with
               | (node', didChange) =>
                   modify (Hartnet.set_nodes (<[Node.r_mac apr := node']> (Hartnet.nodes h))) ;;
                   when (default false didChange) (emit (EmitNodeUpdate (Node.r_mac apr)))
               end)%eff h
              = (Hartnet.set_nodes
                   (<[Node.r_mac apr :=
                        fst (Node.updateFromArtPollReply INTERFACES t0 apr node)]>
                      (Hartnet.nodes h)) h,
                 evs, Normal tt)).
    { destruct (Hartnet.nodes h !! Node.r_mac apr) as [n |].
      - exists n. rewrite bind_ret.
        destruct (Node.updateFromArtPollReply INTERFACES t0 apr n) as [node' [[] |]];
          eexists; reflexivity.
      - exists (Node.new (Node.r_mac apr)).
        rewrite bind_assoc, bind_emit, bind_ret.
        destruct (Node.updateFromArtPollReply INTERFACES t0 apr _) as [node' [[] |]];
          eexists; reflexivity. }
    destruct Hfirst as (node & evs & ->).
    cbn [state_of fst]. rewrite bind_get.
    cbn [Hartnet.set_nodes Hartnet.options Hartnet.nodes]. rewrite Hself.
    rewrite lookup_insert_eq, bind_ret.
    assert (Hsecond : snd (Node.updateFromArtPollReply INTERFACES t1 apr
                             (fst (Node.updateFromArtPollReply INTERFACES t0 apr node)))
                      = Some false \/
                      snd (Node.updateFromArtPollReply INTERFACES t1 apr
                             (fst (Node.updateFromArtPollReply INTERFACES t0 apr node)))
                      = None).
    { destruct (decide (Node.mac node = Node.r_mac apr)) as [Hmac | Hmac].
      - left. apply (upsertNode_twice INTERFACES t0 t1 apr node Hmac).
      - right. unfold Node.updateFromArtPollReply.
        rewrite (bool_decide_eq_false_2 _ Hmac). cbn [negb fst].
        rewrite (bool_decide_eq_false_2 _ Hmac). reflexivity. }
    destruct (Node.updateFromArtPollReply INTERFACES t1 apr _) as [node2 ch].
    cbn [snd] in Hsecond.
    destruct Hsecond as [-> | ->]; cbn; tauto.
Qed.

(** * The rest of the code *)

(** ** Port addresses, whatever the inputs *)

Lemma ToInt32_range (x : Z) : - 2 ^ 31 <= JS.ToInt32 x < 2 ^ 31.
Proof.
  unfold JS.ToInt32.
  pose proof (Z.mod_pos_bound (x + 2 ^ 31) (2 ^ 32) ltac:(lia)). lia.
Qed.

Lemma band_low_range (x n : Z) :
  0 <= n < 31 -> 0 <= JS.band x (Z.ones n) < 2 ^ n.
Proof.
  intros Hn. unfold JS.band.
  assert (Hones : 0 <= Z.ones n < 2 ^ 31).
  { rewrite Z.ones_equiv. split; [pose proof (Z.pow_pos_nonneg 2 n); lia|].
    assert (2 ^ n <= 2 ^ 30) by (apply Z.pow_le_mono_r; lia). lia. }
  rewrite (ToInt32_small (Z.ones n)) by lia.
  rewrite Z.land_ones by lia.
  apply Z.mod_pos_bound. apply Z.pow_pos_nonneg; lia.
Qed.

Lemma band_15_range (x : Z) : 0 <= JS.band x 15 <= 15.
Proof. pose proof (band_low_range x 4 ltac:(lia)). change (Z.ones 4) with 15 in *.
       change (2 ^ 4) with 16 in *. lia. Qed.

Lemma band_255_range (x : Z) : 0 <= JS.band x 255 <= 255.
Proof. pose proof (band_low_range x 8 ltac:(lia)). change (Z.ones 8) with 255 in *.
       change (2 ^ 8) with 256 in *. lia. Qed.

(** X1. Whatever integers are passed as net, subnet and universe, the
    universe and the subnet the constructors keep are within 0..15 and the
    subnet-and-universe octet is [16 * subnet + universe], within 0..255. *)
Theorem calculate_normal_form (net subnet universe : Z) :
  let pa := PortAddress.calculate net subnet universe in
  0 <= PortAddress.universe pa <= 15 /\
  0 <= PortAddress.subnet pa <= 15 /\
  PortAddress.port_subuni pa
  = 16 * PortAddress.subnet pa + PortAddress.universe pa /\
  0 <= PortAddress.port_subuni pa <= 255.
Proof.
  cbn zeta. unfold PortAddress.calculate.
  cbn [PortAddress.universe PortAddress.subnet PortAddress.port_subuni].
  set (u := JS.band universe 15).
  set (s := JS.band (subnet + JS.sar universe 4) 15).
  pose proof (band_15_range universe) as Hu. fold u in Hu.
  pose proof (band_15_range (subnet + JS.sar universe 4)) as Hs. fold s in Hs.
  rewrite (subuni_value s u Hs Hu). lia.
Qed.

(** X2. Inputs already in range (net 0..127, subnet 0..15, universe 0..15)
    are kept as they are, both constructors succeed, and the parts can be
    read back from the port address: net = address / 256,
    subnet = address / 16 mod 16, universe = address mod 16. *)
Theorem in_range_port_address_roundtrip
  (INTERFACES : list Iface.t) (net subnet universe : Z)
  (to : Z) (broadcast : bool) (port refresh : Z) (from : option (Z * option Z)) :
  0 <= net <= 127 -> 0 <= subnet <= 15 -> 0 <= universe <= 15 ->
  let pa := PortAddress.calculate net subnet universe in
  (PortAddress.net pa = net /\ PortAddress.subnet pa = subnet /\
   PortAddress.universe pa = universe) /\
  (PortAddress.port_address pa / 256 = net /\
   PortAddress.port_address pa / 16 mod 16 = subnet /\
   PortAddress.port_address pa mod 16 = universe) /\
  threw (snd (Sender.new INTERFACES
                (Sender.mkOptions net subnet universe to broadcast port refresh)))
  = false /\
  threw (snd (Receiver.new INTERFACES
                (Receiver.mkOptions from net subnet universe))) = false.
Proof.
  intros Hn Hs Hu pa.
  destruct (calculate_carries net subnet universe) as (Eu & Es & En & _ & Ea);
    [change (2 ^ 20) with 1048576; lia ..|].
  fold pa in Eu, Es, En, Ea.
  assert (Hu0 : universe / 16 = 0) by (apply Z.div_small; lia).
  rewrite Hu0, Z.add_0_r in Es, En.
  assert (Hs0 : subnet / 16 = 0) by (apply Z.div_small; lia).
  rewrite Hs0, Z.add_0_r in En.
  rewrite Z.mod_small in Eu, Es by lia.
  split; [auto|]. split.
  - rewrite Ea. repeat split.
    + symmetry. apply Z.div_unique with (r := 16 * subnet + universe); lia.
    + replace (256 * net + 16 * subnet + universe)
        with (universe + (16 * net + subnet) * 16) by lia.
      rewrite Z.div_add by lia. rewrite (Z.div_small universe) by lia.
      replace (0 + (16 * net + subnet)) with (subnet + net * 16) by lia.
      rewrite Z.mod_add by lia. apply Z.mod_small. lia.
    + replace (256 * net + 16 * subnet + universe)
        with (universe + (16 * net + subnet) * 16) by lia.
      rewrite Z.mod_add by lia. apply Z.mod_small. lia.
  - destruct (constructors_raise_iff INTERFACES
                (Sender.mkOptions net subnet universe to broadcast port refresh)
                (Receiver.mkOptions from net subnet universe)) as [HS HR].
    cbn [Sender.net Sender.subnet Sender.universe
         Receiver.net Receiver.subnet Receiver.universe] in HS, HR.
    fold pa in HS, HR. rewrite Ea in HS, HR.
    split; apply not_true_is_false; intros H; [apply HS in H | apply HR in H]; lia.
Qed.

Lemma in_range_port_address_roundtrip_witness :
  threw (snd (Sender.new [Example.eth0]
                (Sender.mkOptions 127 15 15 0 false 6454 1000))) = false.
Proof.
  apply (in_range_port_address_roundtrip [Example.eth0] 127 15 15 0 false 6454 1000 None);
    lia.
Defined.




(** ** The Sender's buffer and its datagrams *)

Lemma octet_of_octet (v : Z) : is_octet v -> octet_of v = v.
Proof.
  intros Hv. pose proof (EnB_octet v Hv) as H. unfold Jspack.EnB in H.
  injection H as H. exact H.
Qed.

Lemma octet_of_range (v : Z) : is_octet (octet_of v).
Proof. unfold octet_of, is_octet. apply band_255_range. Qed.

Lemma ArtDmxPacket_any (seq subuni net : Z) (vals : list Z) :
  is_octet seq -> length vals = 512%nat -> Forall is_octet vals ->
  Sender.ArtDmxPacket seq subuni net vals
  = Some (ArtDmxHeader seq (octet_of subuni) (octet_of net) ++ vals).
Proof.
  intros Hq Hlen Hvals.
  unfold Sender.ArtDmxPacket, Sender.ArtDmxFormat.
  rewrite <- Hlen.
  cbn [Jspack.Pack Jspack.PackSeries app].
  pose proof (PackSeries_octets vals [] Hvals) as HP.
  rewrite app_nil_r in HP. rewrite HP.
  rewrite (EnB_octet seq Hq), (app_nil_r vals). reflexivity.
Qed.

(** [transmit] never raises on a sound buffer. *)
Lemma transmit_spec (s : Sender.t) :
  buffer_ok s -> Sender.transmit s = transmitted s.
Proof.
  intros (Hlen & Hvals & Hseq). unfold Sender.transmit, transmitted.
  rewrite bind_get. destruct (Sender.socket_ready s); [|reflexivity].
  cbn [negb]. rewrite ArtDmxPacket_any by assumption.
  rewrite bind_modify. reflexivity.
Qed.

Lemma transmitted_buffer_ok (s : Sender.t) :
  buffer_ok s -> buffer_ok (state_of (transmitted s)).
Proof.
  intros (Hlen & Hvals & Hseq). unfold transmitted.
  destruct (Sender.socket_ready s); [|split; [|split]; assumption].
  unfold buffer_ok. cbn. repeat split; try assumption;
    pose proof (Z.mod_pos_bound (Sender.ArtDmxSeq s + 1) 256 ltac:(lia)); lia.
Qed.

Lemma store_in_range (channel value : Z) (vals : list Z) :
  0 <= channel < Z.of_nat (length vals) ->
  Sender.store channel value vals = <[Z.to_nat channel := value]> vals.
Proof.
  intros Hc. unfold Sender.store.
  destruct (channel <? 0) eqn:E0; [apply Z.ltb_lt in E0; lia|].
  destruct (channel <? Z.of_nat (length vals)) eqn:E1;
    [reflexivity | apply Z.ltb_ge in E1; lia].
Qed.

Lemma Forall_insert_octet (vals : list Z) (i : nat) (v : Z) :
  Forall is_octet vals -> is_octet v -> Forall is_octet (<[i := v]> vals).
Proof. intros Hvals Hv. apply Forall_insert; assumption. Qed.

(** The block [start..stop] after the loop of [fillChannels]. *)
Lemma fill_loop_from (start value : Z) (n : nat) (vals : list Z) :
  0 <= start -> start + Z.of_nat n <= Z.of_nat (length vals) ->
  let out := fold_left (fun acc k => Sender.store (start + Z.of_nat k) value acc)
                       (seq 0 n) vals in
  length out = length vals /\
  forall k : nat,
    out !! k = if decide (start <= Z.of_nat k < start + Z.of_nat n)
               then (fun _ => value) <$> vals !! k
               else vals !! k.
Proof.
  intros Hs. induction n as [| n IH]; intros Hn out.
  - subst out. cbn. split; [reflexivity|]. intros k.
    destruct (decide _); [lia | reflexivity].
  - subst out. rewrite seq_S, fold_left_app. cbn [fold_left Nat.add].
    destruct IH as [IHlen IHk]; [lia|].
    set (acc := fold_left _ (seq 0 n) vals) in *.
    rewrite store_in_range by lia.
    split; [rewrite length_insert; exact IHlen|].
    intros k.
    destruct (decide (k = Z.to_nat (start + Z.of_nat n))) as [-> | Hne].
    + rewrite list_lookup_insert_eq by lia.
      destruct (decide _) as [_ | Hout]; [|lia].
      destruct (lookup_lt_is_Some_2 vals (Z.to_nat (start + Z.of_nat n)) ltac:(lia))
        as [x ->]. reflexivity.
    + rewrite list_lookup_insert_ne by (intros E; apply Hne; symmetry; exact E).
      rewrite IHk.
      destruct (decide (start <= Z.of_nat k < start + Z.of_nat n)) as [Hin | Hout];
        destruct (decide (start <= Z.of_nat k < start + Z.of_nat (S n))) as [Hin' | Hout'];
        try reflexivity; lia.
Qed.

Lemma fill_loop_spec (start stop value : Z) (vals : list Z) :
  0 <= start <= Z.of_nat (length vals) -> stop < Z.of_nat (length vals) ->
  length (Sender.fill_loop start stop value vals) = length vals /\
  forall k : nat,
    Sender.fill_loop start stop value vals !! k
    = if decide (start <= Z.of_nat k <= stop)
      then (fun _ => value) <$> vals !! k
      else vals !! k.
Proof.
  intros Hs Hstop. unfold Sender.fill_loop.
  destruct (fill_loop_from start value (Z.to_nat (stop - start + 1)) vals
              (proj1 Hs) ltac:(lia))
    as [Hlen Hk].
  split; [exact Hlen|]. intros k. rewrite Hk.
  destruct (decide (start <= Z.of_nat k < start + Z.of_nat (Z.to_nat (stop - start + 1))));
    destruct (decide (start <= Z.of_nat k <= stop)); try reflexivity; lia.
Qed.

Lemma fill_loop_octets (start stop value : Z) (vals : list Z) :
  0 <= start <= Z.of_nat (length vals) -> stop < Z.of_nat (length vals) ->
  is_octet value ->
  Forall is_octet vals ->
  Forall is_octet (Sender.fill_loop start stop value vals).
Proof.
  intros Hs Hstop Hv Hvals.
  destruct (fill_loop_spec start stop value vals Hs Hstop) as [_ Hk].
  apply Forall_lookup. intros k x Hx. rewrite Hk in Hx.
  rewrite Forall_lookup in Hvals.
  destruct (decide _).
  - destruct (vals !! k); [injection Hx as <-; exact Hv | discriminate Hx].
  - exact (Hvals k x Hx).
Qed.

Lemma set_values_buffer_ok (f : list Z -> list Z) (s : Sender.t) :
  length (f (Sender.values s)) = 512%nat ->
  Forall is_octet (f (Sender.values s)) ->
  buffer_ok s -> buffer_ok (Sender.set_values f s).
Proof.
  intros Hlen Hoct (_ & _ & Hseq). unfold buffer_ok.
  cbn [Sender.set_values Sender.values Sender.ArtDmxSeq].
  split; [|split]; assumption.
Qed.

(** The three checked calls: either an argument is out of range and the
    call raises at once, or the buffer is written and the call goes on. *)
Lemma setChannel_cases (channel value : Z) (s : Sender.t) :
  (~ call_in_range (SetChannel channel value) /\
   exists e, Sender.setChannel channel value s = (s, [], Abrupt e)) \/
  (call_in_range (SetChannel channel value) /\
   Sender.setChannel channel value s
   = Sender.transmit (Sender.set_values (Sender.store channel value) s)).
Proof.
  unfold Sender.setChannel. cbn [call_in_range].
  destruct (range_check_cases channel 511) as [[E Hc] | [E Hc]]; rewrite E; cbn [when];
    [left; split; [lia | eexists; reflexivity]|].
  rewrite bind_ret.
  destruct (range_check_cases value 255) as [[E' Hv] | [E' Hv]]; rewrite E'; cbn [when];
    [left; split; [lia | eexists; reflexivity]|].
  rewrite bind_ret, bind_modify. right. split; [lia | reflexivity].
Qed.

Lemma prepChannel_cases (channel value : Z) (s : Sender.t) :
  (~ call_in_range (PrepChannel channel value) /\
   exists e, Sender.prepChannel channel value s = (s, [], Abrupt e)) \/
  (call_in_range (PrepChannel channel value) /\
   Sender.prepChannel channel value s
   = (Sender.set_values (Sender.store channel value) s, [], Normal tt)).
Proof.
  unfold Sender.prepChannel. cbn [call_in_range].
  destruct (range_check_cases channel 511) as [[E Hc] | [E Hc]]; rewrite E; cbn [when];
    [left; split; [lia | eexists; reflexivity]|].
  rewrite bind_ret.
  destruct (range_check_cases value 255) as [[E' Hv] | [E' Hv]]; rewrite E'; cbn [when];
    [left; split; [lia | eexists; reflexivity]|].
  rewrite bind_ret. right. split; [lia | reflexivity].
Qed.

Lemma fillChannels_cases (start stop value : Z) (s : Sender.t) :
  (~ call_in_range (FillChannels start stop value) /\
   exists e, Sender.fillChannels start stop value s = (s, [], Abrupt e)) \/
  (call_in_range (FillChannels start stop value) /\
   Sender.fillChannels start stop value s
   = Sender.transmit (Sender.set_values (Sender.fill_loop start stop value) s)).
Proof.
  unfold Sender.fillChannels. cbn [call_in_range].
  destruct (range_check_cases start 511) as [[E Ha] | [E Ha]]; rewrite E; cbn [when];
    [left; split; [lia | eexists; reflexivity]|].
  rewrite bind_ret.
  destruct (range_check_cases stop 511) as [[E' Hb] | [E' Hb]]; rewrite E'; cbn [when];
    [left; split; [lia | eexists; reflexivity]|].
  rewrite bind_ret.
  destruct (range_check_cases value 255) as [[E'' Hv] | [E'' Hv]]; rewrite E''; cbn [when];
    [left; split; [lia | eexists; reflexivity]|].
  rewrite bind_ret, bind_modify. right. split; [lia | reflexivity].
Qed.

Lemma blackout_spec (s : Sender.t) :
  Sender.blackout s
  = Sender.transmit (Sender.set_values (fun vals => map (fun _ => 0) vals) s).
Proof.
  unfold Sender.blackout. rewrite bind_modify. reflexivity.
Qed.

Lemma stored_buffer_ok (channel value : Z) (s : Sender.t) :
  0 <= channel <= 511 -> 0 <= value <= 255 -> buffer_ok s ->
  buffer_ok (Sender.set_values (Sender.store channel value) s).
Proof.
  intros Hc Hv Hok. pose proof Hok as (Hlen & Hvals & _).
  apply set_values_buffer_ok; [| |exact Hok];
    rewrite store_in_range by lia.
  - rewrite length_insert. exact Hlen.
  - apply Forall_insert_octet; assumption.
Qed.

Lemma filled_buffer_ok (start stop value : Z) (s : Sender.t) :
  0 <= start <= 511 -> 0 <= stop <= 511 -> 0 <= value <= 255 -> buffer_ok s ->
  buffer_ok (Sender.set_values (Sender.fill_loop start stop value) s).
Proof.
  intros Ha Hb Hv Hok. pose proof Hok as (Hlen & Hvals & _).
  apply set_values_buffer_ok; [| |exact Hok].
  - destruct (fill_loop_spec start stop value (Sender.values s)) as [-> _]; lia.
  - apply fill_loop_octets; unfold is_octet; try assumption; lia.
Qed.

Lemma blacked_buffer_ok (s : Sender.t) :
  buffer_ok s -> buffer_ok (Sender.set_values (fun vals => map (fun _ => 0) vals) s).
Proof.
  intros Hok. pose proof Hok as (Hlen & Hvals & _).
  apply set_values_buffer_ok; [| |exact Hok].
  - rewrite length_map. exact Hlen.
  - apply Forall_fmap. eapply Forall_impl; [exact Hvals|].
    intros x _. unfold is_octet. cbn. lia.
Qed.

Lemma Normal_inj {A : Type} (a b : A) : Normal a = Normal b -> a = b.
Proof. intros H. injection H as H. exact H. Qed.

Lemma new_sender_buffer_ok (INTERFACES : list Iface.t) (opt : Sender.Options)
                           (s : Sender.t) :
  snd (Sender.new INTERFACES opt) = Normal s ->
  buffer_ok s /\ Sender.socket_ready s = false /\ Sender.ArtDmxSeq s = 1 /\
  Sender.values s = repeat 0 512.
Proof.
  unfold Sender.new.
  remember (repeat 0 512) as zeros eqn:Hz.
  generalize (PortAddress.calculate (Sender.net opt) (Sender.subnet opt)
                (Sender.universe opt)) as pa.
  intros pa.
  destruct (_ >? 32767); [discriminate|].
  destruct (Sender.resolve INTERFACES opt) as [[bc ip] ifs].
  cbn [snd]. intros H. apply Normal_inj in H. subst s.
  unfold buffer_ok, is_octet.
  cbn [Sender.values Sender.ArtDmxSeq Sender.socket_ready]. subst zeros.
  repeat split; try lia; try apply repeat_length.
  apply List.Forall_forall. intros x Hx. apply repeat_spec in Hx. lia.
Qed.

Lemma sender0_buffer_ok : buffer_ok Example.sender0.
Proof.
  destruct (new_sender_buffer_ok [Example.eth0] Sender.default_options
              (Example.sender_of Sender.default_options) eq_refl) as [Hok _].
  exact Hok.
Qed.

Lemma run_call_keeps_buffer (c : sender_call) (s : Sender.t) :
  buffer_ok s ->
  buffer_ok (state_of (run_call c s)) /\
  (call_in_range c -> completion_of (run_call c s) = Normal tt).
Proof.
  intros Hok. destruct c as [ch v | ch v | a b v | | |]; cbn [run_call].
  - destruct (setChannel_cases ch v s) as [[Hout [e ->]] | [Hin ->]].
    + split; [exact Hok | intros Hin; contradiction].
    + destruct Hin as [Hc Hv].
      rewrite transmit_spec by (apply stored_buffer_ok; assumption).
      split; [apply transmitted_buffer_ok, stored_buffer_ok; assumption|].
      intros _. unfold transmitted. destruct (Sender.socket_ready _); reflexivity.
  - destruct (prepChannel_cases ch v s) as [[Hout [e ->]] | [Hin ->]].
    + split; [exact Hok | intros Hin; contradiction].
    + destruct Hin as [Hc Hv].
      split; [apply stored_buffer_ok; assumption | reflexivity].
  - destruct (fillChannels_cases a b v s) as [[Hout [e ->]] | [Hin ->]].
    + split; [exact Hok | intros Hin; contradiction].
    + destruct Hin as (Ha & Hb & Hv).
      rewrite transmit_spec by (apply filled_buffer_ok; assumption).
      split; [apply transmitted_buffer_ok, filled_buffer_ok; assumption|].
      intros _. unfold transmitted. destruct (Sender.socket_ready _); reflexivity.
  - rewrite blackout_spec, transmit_spec by (apply blacked_buffer_ok; exact Hok).
    split; [apply transmitted_buffer_ok, blacked_buffer_ok; exact Hok|].
    intros _. unfold transmitted. destruct (Sender.socket_ready _); reflexivity.
  - rewrite transmit_spec by exact Hok.
    split; [apply transmitted_buffer_ok; exact Hok|].
    intros _. unfold transmitted. destruct (Sender.socket_ready _); reflexivity.
  - split; [exact Hok | reflexivity].
Qed.



Lemma map_const_repeat (l : list Z) : map (fun _ => 0) l = repeat 0 (length l).
Proof. induction l as [| x l IH]; [reflexivity|]. cbn. rewrite IH. reflexivity. Qed.

(** X5. With channel 0..511 and value 0..255, [prepChannel] writes exactly
    that channel, sends nothing and leaves the sequence counter alone;
    [setChannel] writes the same and then transmits the updated buffer. *)
Theorem set_channel_effect (s : Sender.t) (channel value : Z) :
  buffer_ok s -> 0 <= channel <= 511 -> 0 <= value <= 255 ->
  let s' := Sender.set_values (fun vals => <[Z.to_nat channel := value]> vals) s in
  Sender.prepChannel channel value s = (s', [], Normal tt) /\
  Sender.setChannel channel value s = transmitted s' /\
  Sender.values s' !! Z.to_nat channel = Some value /\
  (forall k, k <> Z.to_nat channel ->
             Sender.values s' !! k = Sender.values s !! k).
Proof.
  intros Hok Hc Hv s'. pose proof Hok as (Hlen & _ & _).
  assert (Hs' : Sender.set_values (Sender.store channel value) s = s').
  { subst s'. unfold Sender.set_values. rewrite store_in_range by lia. reflexivity. }
  split; [|split; [|split]].
  - destruct (prepChannel_cases channel value s) as [[Hout _] | [_ ->]];
      [exfalso; apply Hout; cbn; lia|].
    rewrite Hs'. reflexivity.
  - destruct (setChannel_cases channel value s) as [[Hout _] | [_ ->]];
      [exfalso; apply Hout; cbn; lia|].
    rewrite Hs'. apply transmit_spec. rewrite <- Hs'.
    apply stored_buffer_ok; assumption.
  - subst s'. cbn [Sender.set_values Sender.values].
    apply list_lookup_insert_eq. lia.
  - intros k Hk. subst s'. cbn [Sender.set_values Sender.values].
    apply list_lookup_insert_ne. intros E. apply Hk. symmetry. exact E.
Qed.

Lemma set_channel_effect_witness :
  Sender.setChannel 511 255 Example.sender0
  = transmitted (Sender.set_values (fun vals => <[511%nat := 255]> vals) Example.sender0).
Proof.
  apply (set_channel_effect Example.sender0 511 255 sender0_buffer_ok); lia.
Defined.

(** X6. With start, stop 0..511 and value 0..255, [fillChannels] sets the
    channels from start to stop, both included, to the value, leaves the
    others, and transmits; when stop is below start the buffer stays as it
    was and the datagram is sent all the same. *)
Theorem fill_channels_effect (s : Sender.t) (start stop value : Z) :
  buffer_ok s -> 0 <= start <= 511 -> 0 <= stop <= 511 -> 0 <= value <= 255 ->
  let s' := Sender.set_values (Sender.fill_loop start stop value) s in
  Sender.fillChannels start stop value s = transmitted s' /\
  (forall k : nat, (k < 512)%nat ->
     Sender.values s' !! k
     = if decide (start <= Z.of_nat k <= stop) then Some value
       else Sender.values s !! k) /\
  (stop < start -> Sender.values s' = Sender.values s).
Proof.
  intros Hok Ha Hb Hv s'. pose proof Hok as (Hlen & _ & _).
  destruct (fill_loop_spec start stop value (Sender.values s)) as [Hflen Hk];
    [lia | lia |].
  split; [|split].
  - destruct (fillChannels_cases start stop value s) as [[Hout _] | [_ ->]];
      [exfalso; apply Hout; cbn; lia|].
    apply transmit_spec, filled_buffer_ok; assumption.
  - intros k Hlt. subst s'. cbn [Sender.set_values Sender.values].
    rewrite Hk. destruct (decide _); [|reflexivity].
    destruct (lookup_lt_is_Some_2 (Sender.values s) k ltac:(lia)) as [x ->].
    reflexivity.
  - intros Hlt. subst s'. cbn [Sender.set_values Sender.values].
    apply list_eq. intros k. rewrite Hk.
    destruct (decide _); [lia | reflexivity].
Qed.

Lemma fill_channels_effect_witness :
  Sender.fillChannels 10 20 255 Example.sender0
  = transmitted (Sender.set_values (Sender.fill_loop 10 20 255) Example.sender0).
Proof.
  apply (fill_channels_effect Example.sender0 10 20 255 sender0_buffer_ok); lia.
Defined.

(** X7. [blackout] sets all 512 channels to 0 and transmits them. *)
Theorem blackout_effect (s : Sender.t) :
  buffer_ok s ->
  Sender.blackout s = transmitted (Sender.set_values (fun _ => repeat 0 512) s).
Proof.
  intros Hok. pose proof Hok as (Hlen & _ & _).
  rewrite blackout_spec, transmit_spec by (apply blacked_buffer_ok; exact Hok).
  f_equal. unfold Sender.set_values. rewrite map_const_repeat, Hlen. reflexivity.
Qed.

Lemma blackout_effect_witness :
  Sender.blackout Example.sender0
  = transmitted (Sender.set_values (fun _ => repeat 0 512) Example.sender0).
Proof. apply (blackout_effect Example.sender0 sender0_buffer_ok). Defined.

Lemma transmit_times_unbound (n : nat) (s : Sender.t) :
  Sender.socket_ready s = false -> transmit_times n s = (s, []).
Proof.
  intros Hr. induction n as [| n IH]; [reflexivity|].
  cbn [transmit_times]. unfold Sender.transmit. rewrite bind_get, Hr.
  cbn [negb ret state_of events_of fst snd]. rewrite IH. reflexivity.
Qed.

Lemma transmit_times_bound (n : nat) :
  forall s : Sender.t,
    buffer_ok s -> Sender.socket_ready s = true ->
    map sequence_of (snd (transmit_times n s))
    = map (fun k => Some ((Sender.ArtDmxSeq s + Z.of_nat k) mod 256)) (seq 0 n) /\
    Sender.ArtDmxSeq (fst (transmit_times n s))
    = (Sender.ArtDmxSeq s + Z.of_nat n) mod 256 /\
    Sender.values (fst (transmit_times n s)) = Sender.values s.
Proof.
  induction n as [| n IH]; intros s Hok Hr.
  - cbn. destruct Hok as (_ & _ & Hq). unfold is_octet in Hq.
    rewrite Z.add_0_r, Z.mod_small by lia. auto.
  - cbn [transmit_times]. rewrite transmit_spec by exact Hok.
    pose proof (transmitted_buffer_ok s Hok) as Hok1.
    unfold transmitted in *. rewrite Hr in *.
    cbn [state_of events_of fst snd] in *.
    set (s1 := Sender.set_ArtDmxSeq _ s) in *.
    destruct (IH s1 Hok1 Hr) as (IHs & IHq & IHv).
    cbn [app map snd fst]. rewrite IHs, IHq, IHv.
    destruct Hok as (_ & _ & Hq). unfold is_octet in Hq.
    subst s1. cbn [Sender.set_ArtDmxSeq Sender.ArtDmxSeq Sender.values].
    split; [|split; [|reflexivity]].
    + cbn [seq map sequence_of dmx_datagram]. f_equal.
      * cbn. rewrite Z.add_0_r, Z.mod_small by lia. reflexivity.
      * rewrite <- seq_shift, map_map. apply map_ext. intros k.
        rewrite Zplus_mod_idemp_l. do 2 f_equal. lia.
    + rewrite Zplus_mod_idemp_l. f_equal. lia.
Qed.

(** X8. The datagrams of successive [transmit] calls of a bound Sender
    carry the sequence octets seq, seq+1, ... modulo 256 (so 255 is followed
    by 0), the counter ends at seq+n modulo 256 and the channel buffer is
    not touched; a Sender whose socket is not bound yet sends nothing and
    does not advance its counter. *)
Theorem transmit_sequence (s : Sender.t) (n : nat) :
  buffer_ok s ->
  (Sender.socket_ready s = false -> transmit_times n s = (s, [])) /\
  (Sender.socket_ready s = true ->
   map sequence_of (snd (transmit_times n s))
   = map (fun k => Some ((Sender.ArtDmxSeq s + Z.of_nat k) mod 256)) (seq 0 n) /\
   Sender.ArtDmxSeq (fst (transmit_times n s))
   = (Sender.ArtDmxSeq s + Z.of_nat n) mod 256 /\
   Sender.values (fst (transmit_times n s)) = Sender.values s).
Proof.
  intros Hok. split.
  - apply transmit_times_unbound.
  - apply transmit_times_bound. exact Hok.
Qed.

Lemma transmit_sequence_witness :
  map sequence_of (snd (transmit_times 300 Example.sender0))
  = map (fun k => Some ((1 + Z.of_nat k) mod 256)) (seq 0 300).
Proof.
  apply (proj2 (transmit_sequence Example.sender0 300 sender0_buffer_ok) eq_refl).
Defined.

(** ** Datagrams that are dropped *)

Lemma opcode_dispatch_default {A : Type} (z : Z) (a b c d : A) :
  z <> 20480 -> z <> 8192 -> z <> 8448 ->
  match z with
  | 20480 => a
  | 8192 => b
  | 8448 => c
  | _ => d
  end = d.
Proof.
  intros H1 H2 H3.
  destruct z as [| p | p]; try reflexivity.
  do 16 (try (destruct p as [p | p |]; try reflexivity)); congruence.
Qed.

(** X9. A datagram under 10 octets, with another identifier than
    ["Art-Net\0"], or with an OpCode other than ArtDmx, ArtPoll and
    ArtPollReply is dropped: one log line, the engine unchanged, nothing
    sent, nothing delivered, no exception. *)
Theorem malformed_datagram_is_dropped
  (INTERFACES : list Iface.t) (now : Z) (msg : list Z)
  (rinfo : Hartnet.RemoteInfo) (h : Hartnet.t) :
  sized msg rinfo -> malformed msg ->
  exists m, Hartnet.dataParser INTERFACES now msg rinfo h = (h, [Log m], Normal tt).
Proof.
  unfold sized, malformed. intros Hsz Hbad. unfold Hartnet.dataParser.
  destruct (Hartnet.size rinfo <? 10) eqn:Esz; [eexists; reflexivity|].
  apply Z.ltb_ge in Esz.
  destruct Hbad as [Hlen | [Hid | Hop]]; [lia | |].
  - rewrite bool_decide_eq_false_2; [eexists; reflexivity|].
    cbn [Jspack.Unpack Jspack.item_len]. destruct (_ <? _)%nat; [discriminate|].
    intros [= E]. apply Hid. unfold Jspack.DeString in E. exact E.
  - destruct (bool_decide _); [|eexists; reflexivity]. cbn [negb].
    rewrite !parseInt_B_lookup.
    destruct (lookup_lt_is_Some_2 msg 8 ltac:(lia)) as [lo Hlo].
    destruct (lookup_lt_is_Some_2 msg 9 ltac:(lia)) as [hi Hhi].
    unfold opcode_of in Hop. rewrite Hlo, Hhi in *. cbn [JS.nadd JS.nmul JS.falsy].
    destruct (lo + hi * 256 =? 0); [eexists; reflexivity|].
    destruct Hop as (H1 & H2 & H3).
    rewrite opcode_dispatch_default by congruence.
    eexists. reflexivity.
Qed.

Lemma malformed_datagram_is_dropped_witness :
  exists m,
    Hartnet.dataParser [Example.eth0] 0 [65; 114; 116; 45; 78; 101; 116; 0; 0; 82; 0; 14]
      (Example.from_ip (Netmask.ipv4 10 0 0 5)
         [65; 114; 116; 45; 78; 101; 116; 0; 0; 82; 0; 14])
      Example.poll_engine
    = (Example.poll_engine, [Log m], Normal tt).
Proof.
  apply (malformed_datagram_is_dropped [Example.eth0] 0
           [65; 114; 116; 45; 78; 101; 116; 0; 0; 82; 0; 14]).
  - reflexivity.
  - right. right. cbn. repeat split; discriminate.
Defined.

(** ** Where ArtDmx channels end up *)

Lemma set_receivers_same (h : Hartnet.t) :
  Hartnet.set_receivers (Hartnet.receivers h) h = h.
Proof. destruct h. reflexivity. Qed.

Lemma set_receivers_twice (a b : list Receiver.t) (h : Hartnet.t) :
  Hartnet.set_receivers a (Hartnet.set_receivers b h) = Hartnet.set_receivers a h.
Proof. reflexivity. Qed.

(** The receivers after the loop over [indices]. *)
Lemma dmx_loop_state (msg : list Z) (p : JS.num) (rinfo : Hartnet.RemoteInfo)
                     (indices : list nat) :
  NoDup indices ->
  forall (data : option (list Z)) (h : Hartnet.t),
    data = None \/ data = Some (Hartnet.parse_data msg) ->
    exists rs',
      state_of (Hartnet.dmx_loop msg p rinfo indices data h)
      = Hartnet.set_receivers rs' h /\
      length rs' = length (Hartnet.receivers h) /\
      forall j,
        rs' !! j
        = if decide (j ∈ indices)
          then deliver_if p (Hartnet.address rinfo) (Hartnet.parse_data msg) <$> Hartnet.receivers h !! j
          else Hartnet.receivers h !! j.
Proof.
  induction 1 as [| i rest Hi Hnd IH]; intros data h Hdata.
  - exists (Hartnet.receivers h). cbn [Hartnet.dmx_loop ret state_of fst].
    rewrite set_receivers_same. split; [reflexivity|]. split; [reflexivity|].
    intros j. destruct (decide (j ∈ [])) as [Hin | _]; [inversion Hin | reflexivity].
  - cbn [Hartnet.dmx_loop]. rewrite bind_get.
    assert (Hskip :
      forall rs' : list Receiver.t,
        (forall j, rs' !! j
           = if decide (j ∈ rest)
             then deliver_if p (Hartnet.address rinfo) (Hartnet.parse_data msg) <$> Hartnet.receivers h !! j
             else Hartnet.receivers h !! j) ->
        (Hartnet.receivers h !! i = None \/
         exists r, Hartnet.receivers h !! i = Some r /\
                   Receiver.acceptPacket r p (Hartnet.address rinfo) = false) ->
        forall j, rs' !! j
           = if decide (j ∈ i :: rest)
             then deliver_if p (Hartnet.address rinfo) (Hartnet.parse_data msg) <$> Hartnet.receivers h !! j
             else Hartnet.receivers h !! j).
    { intros rs' Hrs Hnone j. rewrite Hrs.
      destruct (decide (j ∈ rest)) as [Hin | Hout];
        destruct (decide (j ∈ i :: rest)) as [Hin' | Hout']; try reflexivity.
      - exfalso. apply Hout'. right. exact Hin.
      - apply elem_of_cons in Hin' as [-> | Hin']; [|contradiction].
        destruct Hnone as [-> | (r & -> & Hacc)]; [reflexivity|].
        cbn. unfold deliver_if. rewrite Hacc. reflexivity. }
    destruct (Hartnet.receivers h !! i) as [r |] eqn:Hr.
    + destruct (Receiver.acceptPacket r p (Hartnet.address rinfo)) eqn:Hacc.
      * assert (Hd : match data with Some d => d | None => Hartnet.parse_data msg end
                     = Hartnet.parse_data msg)
          by (destruct Hdata as [-> | ->]; reflexivity).
        rewrite Hd.
        unfold bind at 1, Hartnet.zoom_receiver at 1. rewrite Hr.
        cbn [Receiver.receive bind modify emit app].
        set (h1 := Hartnet.set_receivers _ h).
        destruct (IH (Some (Hartnet.parse_data msg)) h1 (or_intror eq_refl))
          as (rs' & Hst & Hlen & Hrs).
        exists rs'.
        unfold state_of in *.
        destruct (Hartnet.dmx_loop msg p rinfo rest _ h1) as [[h2 ev2] c2].
        cbn [fst] in *. subst h2 h1.
        cbn [Hartnet.set_receivers Hartnet.receivers] in *.
        split; [reflexivity|]. split; [rewrite Hlen; apply length_insert|].
        intros j. rewrite Hrs.
        destruct (decide (j = i)) as [-> | Hne].
        -- destruct (decide (i ∈ rest)) as [Hin | _]; [contradiction|].
           destruct (decide (i ∈ i :: rest)) as [_ | Hout];
             [|exfalso; apply Hout; left].
           rewrite list_lookup_insert_eq by (apply lookup_lt_Some in Hr; exact Hr).
           rewrite Hr. cbn. unfold deliver_if. rewrite Hacc. reflexivity.
        -- rewrite list_lookup_insert_ne by (intros E; apply Hne; symmetry; exact E).
           destruct (decide (j ∈ rest)) as [Hin | Hout];
             destruct (decide (j ∈ i :: rest)) as [Hin' | Hout']; try reflexivity.
           ++ exfalso. apply Hout'. right. exact Hin.
           ++ apply elem_of_cons in Hin' as [-> | Hin']; contradiction.
      * destruct (IH data h Hdata) as (rs' & Hst & Hlen & Hrs).
        exists rs'. split; [exact Hst|]. split; [exact Hlen|].
        apply Hskip; [exact Hrs|]. right. exists r. auto.
    + destruct (IH data h Hdata) as (rs' & Hst & Hlen & Hrs).
      exists rs'. split; [exact Hst|]. split; [exact Hlen|].
      apply Hskip; [exact Hrs|]. left. reflexivity.
Qed.

Lemma on_ArtDmx_state (msg : list Z) (rinfo : Hartnet.RemoteInfo) (h : Hartnet.t) :
  state_of (Hartnet.on_ArtDmx msg rinfo h)
  = Hartnet.set_receivers
      (dispatched (msg !! 14%nat) (Hartnet.address rinfo) (drop 18 msg)
                  (Hartnet.receivers h)) h.
Proof.
  unfold Hartnet.on_ArtDmx. rewrite parseInt_B_lookup, bind_get.
  destruct (dmx_loop_state msg (msg !! 14%nat) rinfo
              (seq 0 (length (Hartnet.receivers h))) (NoDup_seq 0 _) None h
              (or_introl eq_refl)) as (rs' & Hst & Hlen & Hrs).
  destruct (dmx_loop_spec msg (msg !! 14%nat) rinfo
              (seq 0 (length (Hartnet.receivers h))) (NoDup_seq 0 _) None h
              (or_introl eq_refl)) as [h' Hloop].
  cbn zeta in Hloop. rewrite Hloop in Hst. cbn [state_of fst] in Hst. subst h'.
  unfold bind. rewrite Hloop.
  assert (Hfinal : state_of
            (match (match accepting (Hartnet.receivers h) (msg !! 14%nat)
                            (Hartnet.address rinfo)
                            (seq 0 (length (Hartnet.receivers h)))
                    with [] => None | _ :: _ => Some (Hartnet.parse_data msg) end)
             with
             | Some _ => ret tt
             | None => emit (Log NoReceiverSet)
             end (Hartnet.set_receivers rs' h))
            = Hartnet.set_receivers rs' h)
    by (destruct (accepting _ _ _ _); reflexivity).
  unfold state_of in *.
  destruct (match _ with Some _ => ret tt | None => emit (Log NoReceiverSet) end
              (Hartnet.set_receivers rs' h)) as [[s2 ev2] c2].
  cbn [fst] in *. subst s2. f_equal.
  apply list_eq. intros j. rewrite Hrs. unfold dispatched.
  change (map ?f ?l) with (fmap f l). rewrite list_lookup_fmap, parse_data_drop.
  destruct (decide (j ∈ seq 0 (length (Hartnet.receivers h)))) as [_ | Hout];
    [reflexivity|].
  rewrite elem_of_seq in Hout.
  rewrite (lookup_ge_None_2 (Hartnet.receivers h) j) by lia. reflexivity.
Qed.

(** X10. An ArtDmx datagram changes nothing but the channel values of the
    receivers that accept it, which afterwards hold the octets from offset
    18 on; every other receiver and the rest of the engine stay as they
    were, the handler completes normally and never sends a datagram. *)
Theorem artdmx_only_writes_accepting_receivers
  (INTERFACES : list Iface.t) (now : Z) (msg : list Z)
  (rinfo : Hartnet.RemoteInfo) (h : Hartnet.t) :
  is_ArtDmx msg -> sized msg rinfo ->
  let run := Hartnet.dataParser INTERFACES now msg rinfo h in
  state_of run
  = Hartnet.set_receivers
      (dispatched (msg !! 14%nat) (Hartnet.address rinfo) (drop 18 msg)
                  (Hartnet.receivers h)) h /\
  completion_of run = Normal tt /\
  (forall pkt port address, ~ In (UdpSend pkt port address) (events_of run)) /\
  (forall mac, ~ In (EmitNodeUpdate mac) (events_of run)).
Proof.
  intros Hdmx Hsz run. subst run.
  rewrite (dataParser_ArtDmx INTERFACES now msg rinfo h Hdmx Hsz).
  split; [apply on_ArtDmx_state|].
  destruct (on_ArtDmx_events msg rinfo h) as [Hev Hc].
  split; [exact Hc|]. rewrite Hev.
  split; intros; destruct (accepting _ _ _ _) as [| j acc];
    try (intros [H | []]; discriminate H);
    intros H; apply in_map_iff in H as (k & Hk & _); discriminate Hk.
Qed.

Lemma artdmx_only_writes_accepting_receivers_witness :
  state_of (Hartnet.dataParser [Example.eth0] 0 Example.dmx_packet Example.dmx_rinfo
              (Example.engine [] [Example.receiver_u3]))
  = Hartnet.set_receivers
      (dispatched (Example.dmx_packet !! 14%nat) (Hartnet.address Example.dmx_rinfo)
                  (drop 18 Example.dmx_packet) [Example.receiver_u3])
      (Example.engine [] [Example.receiver_u3]).
Proof.
  apply (artdmx_only_writes_accepting_receivers [Example.eth0] 0 Example.dmx_packet
           Example.dmx_rinfo (Example.engine [] [Example.receiver_u3]));
    reflexivity.
Defined.

(** ** From a Sender to a Receiver *)

Lemma new_sender_addressing (INTERFACES : list Iface.t) (opt : Sender.Options)
                            (s : Sender.t) :
  snd (Sender.new INTERFACES opt) = Normal s ->
  let pa := PortAddress.calculate (Sender.net opt) (Sender.subnet opt)
                                  (Sender.universe opt) in
  Sender.port_subuni s = PortAddress.port_subuni pa /\
  Sender.port_address s = PortAddress.port_address pa /\
  Sender.net (Sender.options s) = PortAddress.net pa /\
  Sender.port (Sender.options s) = Sender.port opt /\
  PortAddress.port_address pa <= 32767.
Proof.
  unfold Sender.new. cbn zeta.
  generalize (PortAddress.calculate (Sender.net opt) (Sender.subnet opt)
                (Sender.universe opt)) as pa.
  intros pa.
  destruct (_ >? 32767) eqn:E; [discriminate|].
  rewrite Z.gtb_ltb in E. apply Z.ltb_ge in E.
  destruct (Sender.resolve INTERFACES opt) as [[bc ip] ifs].
  cbn [snd]. intros H. apply Normal_inj in H. subst s. cbn. auto.
Qed.

Lemma new_receiver_fields (INTERFACES : list Iface.t) (opt : Receiver.Options)
                          (r : Receiver.t) :
  snd (Receiver.new INTERFACES opt) = Normal r ->
  let pa := PortAddress.calculate (Receiver.net opt) (Receiver.subnet opt)
                                  (Receiver.universe opt) in
  Receiver.port_address r = PortAddress.port_address pa /\
  PortAddress.port_address pa <= 32767 /\
  Receiver.values r = repeat 0 512 /\
  Receiver.ipnet r
  = match Receiver.from opt with
    | Some (a, Some bits) => Netmask.new a bits
    | Some (a, None) => Netmask.new a 32
    | None => Netmask.new (Netmask.ipv4 0 0 0 0) 0
    end /\
  Receiver.interfaces r
  = List.filter (fun iface => Netmask.contains (Receiver.ipnet r) (Iface.ip iface))
                INTERFACES.
Proof.
  unfold Receiver.new. cbn zeta.
  remember (repeat 0 512) as zeros eqn:Hz.
  generalize (PortAddress.calculate (Receiver.net opt) (Receiver.subnet opt)
                (Receiver.universe opt)) as pa.
  intros pa.
  destruct (_ >? 32767) eqn:E; [discriminate|].
  rewrite Z.gtb_ltb in E. apply Z.ltb_ge in E.
  cbn [snd]. intros H. apply Normal_inj in H. subst r.
  cbn [Receiver.port_address Receiver.values Receiver.ipnet Receiver.interfaces].
  repeat split; try assumption.
  destruct (Receiver.from opt) as [[a [bits |]] |]; reflexivity.
Qed.

(** No call changes where a Sender sends, and none unbinds its socket. *)
Lemma run_call_addressing (c : sender_call) (s : Sender.t) :
  buffer_ok s ->
  let s' := state_of (run_call c s) in
  Sender.port_subuni s' = Sender.port_subuni s /\
  Sender.port_address s' = Sender.port_address s /\
  Sender.options s' = Sender.options s /\
  Sender.ip4 s' = Sender.ip4 s /\
  Sender.interfaces s' = Sender.interfaces s /\
  (Sender.socket_ready s = true -> Sender.socket_ready s' = true).
Proof.
  intros Hok.
  assert (Htr : forall s1 : Sender.t, buffer_ok s1 ->
            Sender.port_subuni s1 = Sender.port_subuni s ->
            Sender.port_address s1 = Sender.port_address s ->
            Sender.options s1 = Sender.options s ->
            Sender.ip4 s1 = Sender.ip4 s ->
            Sender.interfaces s1 = Sender.interfaces s ->
            Sender.socket_ready s1 = Sender.socket_ready s ->
            let s' := state_of (Sender.transmit s1) in
            Sender.port_subuni s' = Sender.port_subuni s /\
            Sender.port_address s' = Sender.port_address s /\
            Sender.options s' = Sender.options s /\
            Sender.ip4 s' = Sender.ip4 s /\
            Sender.interfaces s' = Sender.interfaces s /\
            (Sender.socket_ready s = true -> Sender.socket_ready s' = true)).
  { intros s1 Hok1 H1 H2 H3 H4 H5 H6. rewrite transmit_spec by exact Hok1.
    unfold transmitted. destruct (Sender.socket_ready s1) eqn:Hr; cbn;
      repeat split; try assumption; congruence. }
  destruct c as [ch v | ch v | a b v | | |]; cbn [run_call].
  - destruct (setChannel_cases ch v s) as [[_ [e ->]] | [[Hc Hv] ->]];
      [cbn; repeat split; auto|].
    apply Htr; try reflexivity. apply stored_buffer_ok; assumption.
  - destruct (prepChannel_cases ch v s) as [[_ [e ->]] | [_ ->]];
      cbn; repeat split; auto.
  - destruct (fillChannels_cases a b v s) as [[_ [e ->]] | [(Ha & Hb & Hv) ->]];
      [cbn; repeat split; auto|].
    apply Htr; try reflexivity. apply filled_buffer_ok; assumption.
  - rewrite blackout_spec. apply Htr; try reflexivity.
    apply blacked_buffer_ok. exact Hok.
  - apply Htr; try reflexivity. exact Hok.
  - cbn. repeat split; auto.
Qed.

Lemma run_calls_keep (cs : list sender_call) :
  forall s : Sender.t,
    buffer_ok s ->
    buffer_ok (run_calls cs s) /\
    Sender.port_subuni (run_calls cs s) = Sender.port_subuni s /\
    Sender.port_address (run_calls cs s) = Sender.port_address s /\
    Sender.options (run_calls cs s) = Sender.options s /\
    Sender.ip4 (run_calls cs s) = Sender.ip4 s /\
    Sender.interfaces (run_calls cs s) = Sender.interfaces s.
Proof.
  induction cs as [| c cs IH]; intros s Hok; [cbn; auto 10|].
  unfold run_calls. cbn [fold_left]. fold (run_calls cs (state_of (run_call c s))).
  destruct (run_call_keeps_buffer c s Hok) as [Hok' _].
  destruct (run_call_addressing c s Hok) as (H1 & H2 & H3 & H4 & H5 & _).
  destruct (IH _ Hok') as (K0 & K1 & K2 & K3 & K4 & K5).
  split; [exact K0|]. repeat split; congruence.
Qed.

(** X11. On net 0 a Sender and a Receiver constructed for the same subnet
    and universe (both 0..15) meet: whatever calls were made on the Sender,
    the datagram it transmits once its socket is bound, arriving from a
    source inside the Receiver's filter, is delivered to that Receiver,
    which then holds exactly the Sender's 512 channel values. *)
Theorem sender_reaches_receiver_on_net0
  (INTERFACES : list Iface.t) (subnet universe to port refresh : Z)
  (broadcast : bool) (from : option (Z * option Z))
  (cs : list sender_call) (s0 : Sender.t) (r : Receiver.t)
  (h : Hartnet.t) (i : nat) (now source source_port : Z) :
  0 <= subnet <= 15 -> 0 <= universe <= 15 ->
  snd (Sender.new INTERFACES
         (Sender.mkOptions 0 subnet universe to broadcast port refresh)) = Normal s0 ->
  snd (Receiver.new INTERFACES (Receiver.mkOptions from 0 subnet universe)) = Normal r ->
  Hartnet.receivers h !! i = Some r ->
  Netmask.contains (Receiver.ipnet r) source = true ->
  Sender.socket_ready (run_calls cs s0) = true ->
  exists pkt,
    events_of (Sender.transmit (run_calls cs s0))
    = [UdpSend pkt port (Sender.ip4 s0)] /\
    delivered i (Sender.values (run_calls cs s0))
      (events_of (Hartnet.dataParser INTERFACES now pkt
                    (Hartnet.mkRemoteInfo source source_port (Z.of_nat (length pkt)))
                    h)) /\
    Receiver.values
      <$> Hartnet.receivers
            (state_of (Hartnet.dataParser INTERFACES now pkt
                         (Hartnet.mkRemoteInfo source source_port
                            (Z.of_nat (length pkt))) h)) !! i
    = Some (Sender.values (run_calls cs s0)).
Proof.
  intros Hs Hu Hnew Hrecv Hi Hsrc Hready.
  destruct (new_sender_buffer_ok _ _ _ Hnew) as (Hok0 & _).
  destruct (new_sender_addressing _ _ _ Hnew) as (Hsu & _ & Hnet & Hport & _).
  destruct (new_receiver_fields _ _ _ Hrecv) as (Hpa & _).
  cbn [Sender.net Sender.subnet Sender.universe Sender.port
       Receiver.net Receiver.subnet Receiver.universe] in Hsu, Hnet, Hport, Hpa.
  destruct (calculate_carries 0 subnet universe) as (_ & _ & En & Esu & Ea);
    [change (2 ^ 20) with 1048576; lia ..|].
  assert (Hu0 : universe / 16 = 0) by (apply Z.div_small; lia).
  rewrite Hu0, Z.add_0_r in Esu, En.
  rewrite !Z.mod_small in Esu by lia.
  rewrite (Z.div_small subnet) in En by lia. rewrite Z.add_0_l in En.
  rewrite Esu in Hsu. rewrite Ea in Hpa. rewrite En in Hnet.
  destruct (run_calls_keep cs s0 Hok0) as (Hok & Ksu & _ & Kopt & Kip & _).
  set (s := run_calls cs s0) in *.
  rewrite transmit_spec by exact Hok. unfold transmitted. rewrite Hready.
  cbn [events_of fst snd]. unfold dmx_datagram.
  rewrite Ksu, Kopt, Kip, Hsu, Hnet, Hport.
  rewrite (octet_of_octet (16 * subnet + universe)) by (unfold is_octet; lia).
  rewrite (octet_of_octet 0) by (unfold is_octet; lia).
  set (pkt := ArtDmxHeader _ _ _ ++ Sender.values s).
  exists pkt. split; [reflexivity|].
  set (rinfo := Hartnet.mkRemoteInfo _ _ _).
  assert (Hdmx : is_ArtDmx pkt) by reflexivity.
  assert (Hsz : sized pkt rinfo) by reflexivity.
  assert (Hacc : Receiver.acceptPacket r (pkt !! 14%nat) (Hartnet.address rinfo) = true).
  { apply acceptPacket_iff. split; [|exact Hsrc].
    subst pkt. cbn. f_equal. lia. }
  rewrite (dataParser_ArtDmx INTERFACES now pkt rinfo h Hdmx Hsz).
  split.
  - apply on_ArtDmx_delivered. exists r. repeat split; assumption || reflexivity.
  - rewrite on_ArtDmx_state. cbn [Hartnet.set_receivers Hartnet.receivers].
    unfold dispatched. change (map ?f ?l) with (fmap f l).
    rewrite list_lookup_fmap, Hi. cbn [fmap option_fmap option_map].
    unfold deliver_if. rewrite Hacc. reflexivity.
Qed.

Lemma sender_reaches_receiver_on_net0_witness :
  exists pkt,
    events_of (Sender.transmit
                 (run_calls [SocketBound; SetChannel 0 255; FillChannels 10 20 7]
                    (Example.sender_of
                       (Sender.mkOptions 0 0 3 (Netmask.ipv4 255 255 255 255)
                          false 6454 1000))))
    = [UdpSend pkt 6454 (Some (Netmask.ipv4 255 255 255 255))] /\
    delivered 0
      (Sender.values
         (run_calls [SocketBound; SetChannel 0 255; FillChannels 10 20 7]
            (Example.sender_of
               (Sender.mkOptions 0 0 3 (Netmask.ipv4 255 255 255 255)
                  false 6454 1000))))
      (events_of (Hartnet.dataParser [Example.eth0] 5 pkt
                    (Hartnet.mkRemoteInfo (Netmask.ipv4 10 0 0 5) 6454
                       (Z.of_nat (length pkt)))
                    (Example.engine [] [Example.receiver_u3]))).
Proof.
  destruct (sender_reaches_receiver_on_net0 [Example.eth0] 0 3
              (Netmask.ipv4 255 255 255 255) 6454 1000 false
              (Some (Netmask.ipv4 10 0 0 5, Some 32))
              [SocketBound; SetChannel 0 255; FillChannels 10 20 7]
              (Example.sender_of
                 (Sender.mkOptions 0 0 3 (Netmask.ipv4 255 255 255 255)
                    false 6454 1000))
              Example.receiver_u3
              (Example.engine [] [Example.receiver_u3]) 0 5
              (Netmask.ipv4 10 0 0 5) 6454)
    as (pkt & Hev & Hdel & _);
    [lia | lia | reflexivity | reflexivity | reflexivity | reflexivity
     | vm_compute; reflexivity |].
  exists pkt. split; [exact Hev | exact Hdel].
Defined.

(** ** Controllers *)

Lemma findIndex_Some (ip : Z) (cs : list Hartnet.Controller) (k : nat) :
  Hartnet.findIndex ip cs = Some k ->
  exists c, cs !! k = Some c /\ Hartnet.c_ip c = ip.
Proof.
  revert k. induction cs as [| c cs IH]; intros k; [discriminate|].
  cbn [Hartnet.findIndex]. destruct (Hartnet.c_ip c =? ip) eqn:E.
  - intros [= <-]. exists c. split; [reflexivity | apply Z.eqb_eq; exact E].
  - destruct (Hartnet.findIndex ip cs) as [j |]; [|discriminate].
    cbn. intros [= <-]. apply (IH j eq_refl).
Qed.

Lemma findIndex_None (ip : Z) (cs : list Hartnet.Controller) :
  Hartnet.findIndex ip cs = None -> ~ In ip (map Hartnet.c_ip cs).
Proof.
  induction cs as [| c cs IH]; [intros _ []|].
  cbn [Hartnet.findIndex]. destruct (Hartnet.c_ip c =? ip) eqn:E; [discriminate|].
  apply Z.eqb_neq in E.
  destruct (Hartnet.findIndex ip cs); [discriminate|]. intros _ [H | H].
  - contradiction.
  - apply IH; [reflexivity | exact H].
Qed.

Lemma upsert_ips (ctrl : Hartnet.Controller) (cs : list Hartnet.Controller) :
  map Hartnet.c_ip (upsert ctrl cs)
  = if decide (Hartnet.c_ip ctrl ∈ map Hartnet.c_ip cs)
    then map Hartnet.c_ip cs
    else map Hartnet.c_ip cs ++ [Hartnet.c_ip ctrl].
Proof.
  unfold upsert.
  destruct (Hartnet.findIndex (Hartnet.c_ip ctrl) cs) as [k |] eqn:Hk.
  - destruct (findIndex_Some _ _ _ Hk) as (c & Hc & Hip).
    destruct (decide _) as [_ | Hout].
    + change (map ?f ?l) with (fmap f l). rewrite list_fmap_insert.
      apply list_insert_id. rewrite list_lookup_fmap, Hc. cbn. f_equal. exact Hip.
    + exfalso. apply Hout. apply list_elem_of_In, in_map_iff. exists c.
      split; [exact Hip|]. apply list_elem_of_In, list_elem_of_lookup. eauto.
  - destruct (decide _) as [Hin | _].
    + exfalso. apply list_elem_of_In in Hin. exact (findIndex_None _ _ Hk Hin).
    + rewrite map_app. reflexivity.
Qed.

Lemma upsert_members (ctrl : Hartnet.Controller) (cs : list Hartnet.Controller) :
  NoDup (map Hartnet.c_ip cs) ->
  forall c, In c (upsert ctrl cs) <->
            c = ctrl \/ (In c cs /\ Hartnet.c_ip c <> Hartnet.c_ip ctrl).
Proof.
  intros Hnd c. unfold upsert.
  destruct (Hartnet.findIndex (Hartnet.c_ip ctrl) cs) as [k |] eqn:Hk.
  - destruct (findIndex_Some _ _ _ Hk) as (c0 & Hc0 & Hip).
    rewrite <- !list_elem_of_In. rewrite list_elem_of_lookup. split.
    + intros [j Hj]. destruct (decide (j = k)) as [-> | Hne].
      * rewrite list_lookup_insert_eq in Hj by (apply lookup_lt_Some in Hc0; exact Hc0).
        left. congruence.
      * rewrite list_lookup_insert_ne in Hj by (intros E; apply Hne; symmetry; exact E).
        right. split; [apply list_elem_of_lookup; eauto|].
        intros Hsame. apply Hne.
        apply (NoDup_lookup (map Hartnet.c_ip cs) j k (Hartnet.c_ip c)).
        -- exact Hnd.
        -- change (map ?f ?l) with (fmap f l). rewrite list_lookup_fmap, Hj. reflexivity.
        -- change (map ?f ?l) with (fmap f l). rewrite list_lookup_fmap, Hc0. cbn.
           f_equal. congruence.
    + intros [-> | [Hin Hne]].
      * exists k. apply list_lookup_insert_eq. apply lookup_lt_Some in Hc0. exact Hc0.
      * apply list_elem_of_lookup in Hin as [j Hj]. exists j.
        rewrite list_lookup_insert_ne; [exact Hj|].
        intros <-. rewrite Hc0 in Hj. injection Hj as <-. contradiction.
  - rewrite in_app_iff. cbn [In]. split.
    + intros [Hin | [<- | []]]; [|left; reflexivity].
      right. split; [exact Hin|]. intros Hsame.
      apply (findIndex_None _ _ Hk). apply in_map_iff. exists c. auto.
    + intros [-> | [Hin _]]; auto.
Qed.

Lemma upsert_NoDup (ctrl : Hartnet.Controller) (cs : list Hartnet.Controller) :
  NoDup (map Hartnet.c_ip cs) -> NoDup (map Hartnet.c_ip (upsert ctrl cs)).
Proof.
  intros Hnd. rewrite upsert_ips. destruct (decide _) as [_ | Hout]; [exact Hnd|].
  apply NoDup_app. split; [exact Hnd|].
  split; [|apply NoDup_singleton].
  intros x Hx Hx'. apply list_elem_of_singleton in Hx'. subst x.
  apply Hout. exact Hx.
Qed.

Lemma land_pow2 (t k : Z) :
  0 <= k -> Z.land t (2 ^ k) = if Z.testbit t k then 2 ^ k else 0.
Proof.
  intros Hk. apply Z.bits_inj'. intros m Hm.
  rewrite Z.land_spec, Z.pow2_bits_eqb by lia.
  destruct (Z.eqb_spec k m) as [<- | Hne].
  - destruct (Z.testbit t k) eqn:E; cbn.
    + rewrite Z.pow2_bits_true by lia. reflexivity.
    + rewrite Z.bits_0. reflexivity.
  - rewrite andb_false_r. destruct (Z.testbit t k).
    + rewrite Z.pow2_bits_false by lia. reflexivity.
    + rewrite Z.bits_0. reflexivity.
Qed.

Lemma ttm_bit_testbit (t k : Z) :
  is_octet t -> 0 <= k < 8 ->
  Hartnet.ttm_bit (Some t) (2 ^ k) = Z.testbit t k.
Proof.
  unfold is_octet. intros Ht Hk. unfold Hartnet.ttm_bit, JS.band. change (default 0 (Some t)) with t.
  assert (Hp : 0 < 2 ^ k <= 2 ^ 7)
    by (split; [apply Z.pow_pos_nonneg; lia | apply Z.pow_le_mono_r; lia]).
  change (2 ^ 7) with 128 in Hp.
  assert (H31 : 2 ^ 31 = 2147483648) by reflexivity.
  rewrite (ToInt32_small t) by lia.
  rewrite (ToInt32_small (2 ^ k)) by lia.
  rewrite land_pow2 by lia.
  destruct (Z.testbit t k).
  - apply Z.gtb_lt. lia.
  - reflexivity.
Qed.

(** What an ArtPoll that passes the checks does to the engine. *)
Lemma on_ArtPoll_state (now : Z) (msg : list Z) (rinfo : Hartnet.RemoteInfo)
                       (h : Hartnet.t) :
  interfaces_ok h -> passes_ArtPoll_checks msg -> sized msg rinfo ->
  exists evs,
    Hartnet.on_ArtPoll now msg rinfo h
    = (Hartnet.set_reply_stamp ((Hartnet.artPollReplyCount h + 1) mod 10000) now
         (Hartnet.set_controllers
            (upsert (controller_of now msg rinfo) (Hartnet.controllers h)) h),
       evs, Normal tt).
Proof.
  intros Hok (_ & Hlen & a & b & Ha & Hb & Hv) Hsz.
  unfold sized in Hsz. unfold Hartnet.on_ArtPoll.
  destruct (Hartnet.size rinfo <? 14) eqn:E; [apply Z.ltb_lt in E; lia|].
  rewrite !parseInt_B_lookup, Ha, Hb. cbn [JS.nadd JS.nmul JS.falsy JS.nlt].
  destruct (a + b * 256 =? 0) eqn:E0; [apply Z.eqb_eq in E0; lia|].
  destruct (a + b * 256 <? 14) eqn:E1; [apply Z.ltb_lt in E1; lia|].
  cbn [orb]. rewrite bind_get.
  fold (controller_of now msg rinfo).
  unfold upsert. cbn [controller_of Hartnet.c_ip].
  fold (controller_of now msg rinfo).
  destruct (Hartnet.findIndex (Hartnet.address rinfo) (Hartnet.controllers h))
    as [key |] eqn:Hkey.
  - rewrite bind_modify.
    set (h1 := Hartnet.set_controllers _ h).
    destruct (ArtPollReply_completes h1 now Hok) as [evs ->].
    exists evs. reflexivity.
  - rewrite bind_assoc, bind_modify, bind_emit.
    set (h1 := Hartnet.set_controllers _ h).
    destruct (ArtPollReply_completes h1 now Hok) as [evs ->].
    exists (Log NewController :: evs). reflexivity.
Qed.

(** X12. An ArtPoll that passes the checks replaces the controller record
    of its source IP or, when that IP is new, appends one; every other
    record is kept and no two records ever share an IP. The new record is
    alive, carries the time of the poll, the priority octet at offset 13
    and the TalkToMe flags of the octet at offset 12: bit 3 diagnostic
    unicast, bit 2 diagnostic enable, bit 1 unilateral. *)
Theorem artpoll_upserts_controller
  (INTERFACES : list Iface.t) (now : Z) (msg : list Z)
  (rinfo : Hartnet.RemoteInfo) (h : Hartnet.t) (ttm : Z) :
  interfaces_ok h -> controllers_ok h ->
  passes_ArtPoll_checks msg -> sized msg rinfo ->
  msg !! 12%nat = Some ttm -> is_octet ttm ->
  let h' := state_of (Hartnet.dataParser INTERFACES now msg rinfo h) in
  let c := controller_of now msg rinfo in
  controllers_ok h' /\
  (forall x, In x (Hartnet.controllers h') <->
             x = c \/ (In x (Hartnet.controllers h) /\
                       Hartnet.c_ip x <> Hartnet.address rinfo)) /\
  Hartnet.c_ip c = Hartnet.address rinfo /\
  Hartnet.alive c = true /\ Hartnet.last_poll c = now /\
  Hartnet.priority c = msg !! 13%nat /\
  Hartnet.diagnostic_unicast c = Z.testbit ttm 3 /\
  Hartnet.diagnostic_enable c = Z.testbit ttm 2 /\
  Hartnet.unilateral c = Z.testbit ttm 1.
Proof.
  intros Hok Hcs Hpoll Hsz Httm Hoct h' c. subst h'.
  rewrite (dataParser_ArtPoll INTERFACES now msg rinfo h (proj1 Hpoll) Hsz).
  destruct (on_ArtPoll_state now msg rinfo h Hok Hpoll Hsz) as [evs ->].
  cbn [state_of fst Hartnet.set_reply_stamp Hartnet.set_controllers
       Hartnet.controllers].
  unfold controllers_ok in *.
  cbn [Hartnet.set_reply_stamp Hartnet.set_controllers Hartnet.controllers].
  fold c.
  split; [apply upsert_NoDup; exact Hcs|].
  split; [apply (upsert_members c _ Hcs)|].
  subst c. unfold controller_of.
  cbn [Hartnet.c_ip Hartnet.alive Hartnet.last_poll Hartnet.priority
       Hartnet.diagnostic_unicast Hartnet.diagnostic_enable Hartnet.unilateral].
  rewrite Httm.
  repeat split.
  - apply (ttm_bit_testbit ttm 3 Hoct). lia.
  - apply (ttm_bit_testbit ttm 2 Hoct). lia.
  - apply (ttm_bit_testbit ttm 1 Hoct). lia.
Qed.

Lemma artpoll_passes_checks : passes_ArtPoll_checks Example.artpoll.
Proof.
  split; [reflexivity|]. split; [cbn; lia|].
  exists 0, 14. repeat split. lia.
Qed.

Lemma poll_engine_interfaces_ok : interfaces_ok Example.poll_engine.
Proof. split; repeat constructor. Qed.

Lemma poll_engine_controllers_ok : controllers_ok Example.poll_engine.
Proof. constructor. Qed.

Lemma is_octet_0 : is_octet 0.
Proof. unfold is_octet. lia. Qed.

Lemma artpoll_upserts_controller_witness :
  controllers_ok
    (state_of (Hartnet.dataParser [Example.eth0] 1000 Example.artpoll
                 Example.artpoll_rinfo Example.poll_engine)).
Proof.
  exact (proj1 (artpoll_upserts_controller [Example.eth0] 1000 Example.artpoll
                  Example.artpoll_rinfo Example.poll_engine 0
                  poll_engine_interfaces_ok poll_engine_controllers_ok
                  artpoll_passes_checks eq_refl eq_refl is_octet_0)).
Defined.

(** ** The liveness sweep *)

Lemma sweep_fold_none (now : Z) (l : list (list Z * Node.t)) (k : list Z) :
  forall m : gmap (list Z) Node.t,
    m !! k = None ->
    fold_left (fun m kn => if Node.isAlive now 30000 (snd kn) then m
                           else delete (Node.mac (snd kn)) m) l m !! k = None.
Proof.
  induction l as [| x l IH]; intros m Hm; [exact Hm|].
  cbn [fold_left]. apply IH.
  destruct (Node.isAlive now 30000 (snd x)); [exact Hm|].
  apply lookup_delete_None. right. exact Hm.
Qed.

Lemma sweep_fold_keep (now : Z) (l : list (list Z * Node.t)) (k : list Z) :
  (forall kn, kn ∈ l -> Node.mac (snd kn) = k ->
              Node.isAlive now 30000 (snd kn) = true) ->
  forall m : gmap (list Z) Node.t,
    fold_left (fun m kn => if Node.isAlive now 30000 (snd kn) then m
                           else delete (Node.mac (snd kn)) m) l m !! k = m !! k.
Proof.
  induction l as [| x l IH]; intros Hl m; [reflexivity|].
  cbn [fold_left]. rewrite IH by (intros kn Hin; apply Hl; right; exact Hin).
  destruct (Node.isAlive now 30000 (snd x)) eqn:A; [reflexivity|].
  apply lookup_delete_ne. intros E.
  rewrite (Hl x ltac:(left) E) in A. discriminate.
Qed.

Lemma sweep_fold_drop (now : Z) (l : list (list Z * Node.t)) (kn : list Z * Node.t) :
  kn ∈ l -> Node.isAlive now 30000 (snd kn) = false ->
  forall m : gmap (list Z) Node.t,
    fold_left (fun m kn => if Node.isAlive now 30000 (snd kn) then m
                           else delete (Node.mac (snd kn)) m) l m
    !! Node.mac (snd kn) = None.
Proof.
  induction l as [| x l IH]; intros Hin Hdead m; [inversion Hin|].
  cbn [fold_left]. apply elem_of_cons in Hin as [<- | Hin].
  - rewrite Hdead. apply sweep_fold_none. apply lookup_delete_None. left. reflexivity.
  - apply IH; assumption.
Qed.

Lemma sweep_nodes_filter (now : Z) (ns : gmap (list Z) Node.t) :
  (forall k n, ns !! k = Some n -> Node.mac n = k) ->
  Hartnet.sweep_nodes now ns = filter (fresh now) ns.
Proof.
  intros Hkey. apply map_eq. intros k. unfold Hartnet.sweep_nodes.
  destruct (ns !! k) as [n |] eqn:E.
  - destruct (Node.isAlive now 30000 n) eqn:A.
    + rewrite sweep_fold_keep.
      * rewrite E. symmetry. apply map_lookup_filter_Some. split; [exact E | exact A].
      * intros [k' n'] Hin Hmac. apply elem_of_map_to_list in Hin.
        cbn [snd] in *. rewrite (Hkey k' n' Hin) in Hmac. subst k'.
        rewrite E in Hin. injection Hin as <-. exact A.
    + pose proof (sweep_fold_drop now (map_to_list ns) (k, n)) as Hd.
      cbn [snd] in Hd. rewrite (Hkey k n E) in Hd. rewrite Hd.
      * symmetry. apply map_lookup_filter_None. right. intros n' E'.
        rewrite E in E'. injection E' as <-. unfold fresh. cbn [snd].
        rewrite A. discriminate.
      * apply elem_of_map_to_list. exact E.
      * exact A.
  - rewrite sweep_fold_none by exact E.
    symmetry. apply map_lookup_filter_None. left. exact E.
Qed.

Lemma sweep_controller_fields (now : Z) (c : Hartnet.Controller) :
  Hartnet.sweep_controller now c
  = Hartnet.mkController (Hartnet.c_ip c) (Hartnet.last_poll c)
      (Hartnet.alive c && polled_lately now c)
      (Hartnet.diagnostic_unicast c) (Hartnet.diagnostic_enable c)
      (Hartnet.unilateral c) (Hartnet.priority c).
Proof.
  unfold Hartnet.sweep_controller, polled_lately, Hartnet.last_poll_time.
  destruct c as [ip lp al du de un pr]. cbn [Hartnet.c_ip Hartnet.last_poll
    Hartnet.alive Hartnet.diagnostic_unicast Hartnet.diagnostic_enable
    Hartnet.unilateral Hartnet.priority].
  destruct (now - 1000 * (lp / 1000) >? 60000) eqn:E.
  - apply Z.gtb_lt in E.
    destruct (now - 1000 * (lp / 1000) <=? 60000) eqn:E'; [apply Z.leb_le in E'; lia|].
    rewrite andb_false_r. reflexivity.
  - destruct (now - 1000 * (lp / 1000) <=? 60000) eqn:E'.
    + rewrite andb_true_r. reflexivity.
    + apply Z.leb_gt in E'. rewrite Z.gtb_ltb in E. apply Z.ltb_ge in E. lia.
Qed.

(** X13. The five-second sweep, on an engine whose nodes are filed under
    their own MAC: the nodes left are exactly those heard of less than 30 s
    ago and they are unchanged; no controller is ever removed or reordered,
    one polled more than a minute ago (its poll time cut to the second) is
    marked not alive and a dead one is never revived; senders, receivers,
    options and the reply counter are untouched. *)
Theorem sweep_keeps_fresh_nodes_and_all_controllers (now : Z) (h : Hartnet.t) :
  nodes_keyed h ->
  let h' := state_of (Hartnet.on_sweep_timer now h) in
  Hartnet.nodes h' = filter (fresh now) (Hartnet.nodes h) /\
  nodes_keyed h' /\
  Hartnet.controllers h'
  = map (fun c => Hartnet.mkController (Hartnet.c_ip c) (Hartnet.last_poll c)
                    (Hartnet.alive c && polled_lately now c)
                    (Hartnet.diagnostic_unicast c) (Hartnet.diagnostic_enable c)
                    (Hartnet.unilateral c) (Hartnet.priority c))
        (Hartnet.controllers h) /\
  Hartnet.senders h' = Hartnet.senders h /\
  Hartnet.receivers h' = Hartnet.receivers h /\
  Hartnet.options h' = Hartnet.options h /\
  Hartnet.artPollReplyCount h' = Hartnet.artPollReplyCount h /\
  Hartnet.last_poll_reply h' = Hartnet.last_poll_reply h.
Proof.
  intros Hkey h'. subst h'.
  unfold Hartnet.on_sweep_timer, modify.
  cbn [state_of fst Hartnet.set_nodes Hartnet.set_controllers Hartnet.nodes
       Hartnet.controllers Hartnet.senders Hartnet.receivers Hartnet.options
       Hartnet.artPollReplyCount Hartnet.last_poll_reply].
  assert (Hn : Hartnet.sweep_nodes now (Hartnet.nodes h)
               = filter (fresh now) (Hartnet.nodes h))
    by (apply sweep_nodes_filter; exact Hkey).
  split; [exact Hn|].
  split.
  { unfold nodes_keyed.
    cbn [Hartnet.set_nodes Hartnet.set_controllers Hartnet.nodes].
    intros k n. rewrite Hn. intros Hf.
    apply map_lookup_filter_Some in Hf as [Hf _]. apply (Hkey k n Hf). }
  split; [|repeat split].
  apply map_ext. intros c. apply sweep_controller_fields.
Qed.

Lemma watched_engine_keyed : nodes_keyed Scene.watched_engine.
Proof.
  intros k n H. unfold Scene.watched_engine in H.
  cbn [Hartnet.set_nodes Hartnet.nodes] in H.
  apply lookup_singleton_Some in H as [<- <-]. reflexivity.
Qed.

Lemma sweep_keeps_fresh_nodes_and_all_controllers_witness :
  Hartnet.nodes (state_of (Hartnet.on_sweep_timer 100000 Scene.watched_engine))
  = filter (fresh 100000) (Hartnet.nodes Scene.watched_engine).
Proof.
  apply (sweep_keeps_fresh_nodes_and_all_controllers 100000 Scene.watched_engine).
  intros k n H. unfold Scene.watched_engine in H.
  cbn [Hartnet.set_nodes Hartnet.nodes] in H.
  apply lookup_singleton_Some in H as [<- <-]. reflexivity.
Defined.

(** ** Decoding an ArtPollReply *)

Lemma dataParser_ArtPollReply (INTERFACES : list Iface.t) (now : Z) (msg : list Z)
                              (rinfo : Hartnet.RemoteInfo) (h : Hartnet.t) :
  is_ArtPollReply msg -> sized msg rinfo ->
  Hartnet.dataParser INTERFACES now msg rinfo h
  = Hartnet.on_ArtPollReply INTERFACES now msg rinfo h.
Proof.
  unfold is_ArtPollReply, sized. intros Hhd Hsz.
  first10 msg Hhd.
  unfold Hartnet.dataParser.
  cbn [length] in Hsz.
  destruct (Hartnet.size rinfo <? 10) eqn:E; [apply Z.ltb_lt in E; lia|].
  reflexivity.
Qed.

Lemma Unpack_short (fmt : list Jspack.item) (a : list Z) :
  fmt <> [] ->
  forall p, (length a < p + Jspack.CalcLength fmt)%nat ->
            Jspack.Unpack fmt a p = None.
Proof.
  induction fmt as [| it fmt IH]; intros Hne p Hlen; [congruence|].
  cbn [Jspack.Unpack]. cbn [Jspack.CalcLength fold_right] in Hlen.
  fold (Jspack.CalcLength fmt) in Hlen.
  destruct (length a <? p + Jspack.item_len it)%nat eqn:E; [reflexivity|].
  apply Nat.ltb_ge in E.
  destruct fmt as [| it' fmt].
  - cbn [Jspack.CalcLength fold_right] in Hlen. lia.
  - rewrite IH; [reflexivity | discriminate | lia].
Qed.

Lemma Unpack_decoded (fmt : list Jspack.item) (a : list Z) :
  forall p, (p + Jspack.CalcLength fmt <= length a)%nat ->
            Jspack.Unpack fmt a p = Some (decoded fmt a p).
Proof.
  induction fmt as [| it fmt IH]; intros p Hlen; [reflexivity|].
  cbn [Jspack.Unpack decoded]. cbn [Jspack.CalcLength fold_right] in Hlen.
  fold (Jspack.CalcLength fmt) in Hlen.
  destruct (length a <? p + Jspack.item_len it)%nat eqn:E;
    [apply Nat.ltb_lt in E; lia|].
  rewrite IH by lia. reflexivity.
Qed.

Lemma ArtPollReplyFormat_length :
  Jspack.CalcLength Hartnet.ArtPollReplyFormat = 214%nat.
Proof. reflexivity. Qed.

(** X14. An ArtPollReply datagram of fewer than 214 octets never reaches
    the node registry: under 208 octets it is dropped with a log line, and
    from 208 to 213 octets the length check lets it pass but the field
    layout needs 214 octets, so the handler raises a TypeError. In both
    cases the engine is unchanged and nothing is sent or reported. *)
Theorem truncated_ArtPollReply_dropped_or_raises
  (INTERFACES : list Iface.t) (now : Z) (msg : list Z)
  (rinfo : Hartnet.RemoteInfo) (h : Hartnet.t) :
  is_ArtPollReply msg -> sized msg rinfo -> (length msg < 214)%nat ->
  let run := Hartnet.dataParser INTERFACES now msg rinfo h in
  state_of run = h /\
  ((length msg < 208)%nat ->
   events_of run = [Log ArtPollReplyTooShort] /\ completion_of run = Normal tt) /\
  ((208 <= length msg)%nat ->
   events_of run = [] /\ threw (completion_of run) = true).
Proof.
  intros Hhd Hsz Hlen run. subst run.
  rewrite (dataParser_ArtPollReply INTERFACES now msg rinfo h Hhd Hsz).
  unfold Hartnet.on_ArtPollReply.
  destruct (length msg <? 208)%nat eqn:E.
  - apply Nat.ltb_lt in E. split; [reflexivity|].
    split; [intros _; split; reflexivity | intros H; lia].
  - apply Nat.ltb_ge in E.
    rewrite Unpack_short;
      [| discriminate | rewrite ArtPollReplyFormat_length; lia].
    split; [reflexivity|].
    split; [intros H; lia | intros _; split; reflexivity].
Qed.

Lemma truncated_ArtPollReply_dropped_or_raises_witness :
  state_of (Hartnet.dataParser [Example.eth0] 0 Scene.cut_reply
              (Example.from_ip (Netmask.ipv4 10 0 0 2) Scene.cut_reply)
              Example.poll_engine)
  = Example.poll_engine.
Proof.
  apply (truncated_ArtPollReply_dropped_or_raises [Example.eth0] 0 Scene.cut_reply
           (Example.from_ip (Netmask.ipv4 10 0 0 2) Scene.cut_reply)
           Example.poll_engine).
  - reflexivity.
  - reflexivity.
  - vm_compute. lia.
Defined.

Lemma reply_of_fields (msg : list Z) (rinfo : Hartnet.RemoteInfo) :
  let apr0 := Hartnet.reply_of msg rinfo (decoded Hartnet.ArtPollReplyFormat msg 0) in
  Node.r_ip apr0 = Hartnet.address rinfo /\
  Node.r_mac apr0 = mac_of msg /\
  Node.r_shortName apr0 = short_name_of msg /\
  Node.r_longName apr0 = long_name_of msg /\
  Node.r_nodeReport apr0 = report_of msg.
Proof. repeat split. Qed.

Lemma parse_port_keeps (i : Z) (a : Node.Reply) :
  let b := Hartnet.parse_port i a in
  Node.r_ip b = Node.r_ip a /\ Node.r_mac b = Node.r_mac a /\
  Node.r_shortName b = Node.r_shortName a /\
  Node.r_longName b = Node.r_longName a /\
  Node.r_nodeReport b = Node.r_nodeReport a.
Proof. repeat split. Qed.

Lemma parse_ports_keeps (a : Node.Reply) :
  let b := Hartnet.parse_ports a in
  Node.r_ip b = Node.r_ip a /\ Node.r_mac b = Node.r_mac a /\
  Node.r_shortName b = Node.r_shortName a /\
  Node.r_longName b = Node.r_longName a /\
  Node.r_nodeReport b = Node.r_nodeReport a.
Proof.
  unfold Hartnet.parse_ports.
  generalize (seq 0 (Z.to_nat (Z.min (Node.r_numPorts a) 4))) as l.
  intros l. cbn zeta.
  set (f := fun (a0 : Node.Reply) (i : nat) => Hartnet.parse_port (Z.of_nat i) a0).
  assert (G : forall (l : list nat) (x : Node.Reply),
             Node.r_ip (fold_left f l x) = Node.r_ip x /\
             Node.r_mac (fold_left f l x) = Node.r_mac x /\
             Node.r_shortName (fold_left f l x) = Node.r_shortName x /\
             Node.r_longName (fold_left f l x) = Node.r_longName x /\
             Node.r_nodeReport (fold_left f l x) = Node.r_nodeReport x).
  { clear. intros l. induction l as [| i l IH]; intros x; [repeat split|].
    cbn [fold_left]. destruct (IH (f x i)) as (H1 & H2 & H3 & H4 & H5).
    rewrite H1, H2, H3, H4, H5. subst f. repeat split. }
  apply G.
Qed.

(** The node [updateFromArtPollReply] leaves when the MAC matches. *)
Lemma update_fields (INTERFACES : list Iface.t) (now : Z)
                    (data : Node.Reply) (this : Node.t) :
  Node.mac this = Node.r_mac data ->
  let r := Node.updateFromArtPollReply INTERFACES now data this in
  Node.mac (fst r) = Node.r_mac data /\
  Node.node_ip (fst r) = Some (Node.r_ip data) /\
  Node.shortName (fst r) = Node.r_shortName data /\
  Node.longName (fst r) = Node.r_longName data /\
  Node.status (fst r) = Node.r_nodeReport data /\
  Node.lastUpdate (fst r) = now /\
  exists b, snd r = Some b.
Proof.
  intros Hmac. unfold Node.updateFromArtPollReply.
  rewrite bool_decide_eq_true_2 by exact Hmac. cbn [negb fst snd].
  cbn [Node.mac Node.node_ip Node.shortName Node.longName Node.status
       Node.lastUpdate].
  repeat split; try assumption. eexists. reflexivity.
Qed.

Lemma file_node_tail (key : list Z) (node' : Node.t) (b : bool) (h : Hartnet.t) :
  (modify (Hartnet.set_nodes (<[key := node']> (Hartnet.nodes h))) ;;
   when b (emit (EmitNodeUpdate key)))%eff h
  = (Hartnet.set_nodes (<[key := node']> (Hartnet.nodes h)) h,
     (if b then [EmitNodeUpdate key] else []), Normal tt).
Proof. rewrite bind_modify. destruct b; reflexivity. Qed.

(** X15. An ArtPollReply datagram of at least 214 octets, at an engine
    whose nodes are filed under their own MAC: when it comes from a local
    address and carries the engine's own short and long name it is
    ignored; otherwise the node filed under the six octets from offset 201
    is created or updated and afterwards holds that MAC, the source
    address, the three texts of the datagram without their trailing NULs
    and the time of arrival. No other node changes, nothing else of the
    engine changes, nothing is sent, the handler completes, and a new node
    is logged exactly when the MAC was unknown. *)
Theorem artpollreply_files_node_under_mac
  (INTERFACES : list Iface.t) (now : Z) (msg : list Z)
  (rinfo : Hartnet.RemoteInfo) (h : Hartnet.t) :
  is_ArtPollReply msg -> sized msg rinfo -> (214 <= length msg)%nat ->
  nodes_keyed h ->
  let run := Hartnet.dataParser INTERFACES now msg rinfo h in
  if from_myself INTERFACES h msg rinfo
  then run = (h, [Log ArtPollReplyFromMyself], Normal tt)
  else
    exists node,
      state_of run
      = Hartnet.set_nodes (<[mac_of msg := node]> (Hartnet.nodes h)) h /\
      completion_of run = Normal tt /\
      Node.mac node = mac_of msg /\
      Node.node_ip node = Some (Hartnet.address rinfo) /\
      Node.shortName node = short_name_of msg /\
      Node.longName node = long_name_of msg /\
      Node.status node = report_of msg /\
      Node.lastUpdate node = now /\
      nodes_keyed (state_of run) /\
      (In (Log NewNode) (events_of run) <-> Hartnet.nodes h !! mac_of msg = None) /\
      (forall pkt port a, ~ In (UdpSend pkt port a) (events_of run)).
Proof.
  intros Hhd Hsz Hlen Hkey run. subst run.
  rewrite (dataParser_ArtPollReply INTERFACES now msg rinfo h Hhd Hsz).
  unfold Hartnet.on_ArtPollReply.
  destruct (length msg <? 208)%nat eqn:E; [apply Nat.ltb_lt in E; lia|].
  rewrite Unpack_decoded by (rewrite ArtPollReplyFormat_length; lia).
  rewrite bind_get.
  destruct (reply_of_fields msg rinfo) as (F1 & F2 & F3 & F4 & F5).
  set (apr0 := Hartnet.reply_of msg rinfo _) in *.
  rewrite F1, F3, F4. fold (from_myself INTERFACES h msg rinfo).
  destruct (from_myself INTERFACES h msg rinfo); [reflexivity|].
  destruct (parse_ports_keeps apr0) as (P1 & P2 & P3 & P4 & P5).
  set (apr := Hartnet.parse_ports apr0) in *.
  rewrite F1 in P1. rewrite F2 in P2. rewrite F3 in P3. rewrite F4 in P4.
  rewrite F5 in P5. rewrite P2.
  assert (Hk : forall node',
             Node.mac node' = mac_of msg ->
             nodes_keyed (Hartnet.set_nodes (<[mac_of msg := node']> (Hartnet.nodes h)) h)).
  { intros node' Hm k n. cbn [Hartnet.set_nodes Hartnet.nodes].
    intros Hl. apply lookup_insert_Some in Hl as [[<- <-] | [_ Hl]];
      [exact Hm | apply (Hkey k n Hl)]. }
  destruct (Hartnet.nodes h !! mac_of msg) as [n |] eqn:En.
  - rewrite bind_ret.
    pose proof (update_fields INTERFACES now apr n
                  ltac:(rewrite P2; apply (Hkey _ _ En))) as U.
    destruct (Node.updateFromArtPollReply INTERFACES now apr n) as [node' d].
    cbn [fst snd] in U. destruct U as (U1 & U2 & U3 & U4 & U5 & U6 & b & ->).
    change (default false (Some b)) with b.
    rewrite file_node_tail.
    exists node'. cbn [state_of events_of completion_of fst snd].
    repeat split; try congruence.
    + apply Hk. congruence.
    + intros Hin. destruct b; cbn in Hin; intuition discriminate.
    + intros pkt port a Hin. destruct b; cbn in Hin; intuition discriminate.
  - rewrite bind_assoc, bind_emit, bind_ret.
    pose proof (update_fields INTERFACES now apr (Node.new (mac_of msg))
                  ltac:(rewrite P2; reflexivity)) as U.
    destruct (Node.updateFromArtPollReply INTERFACES now apr (Node.new (mac_of msg)))
      as [node' d].
    cbn [fst snd] in U. destruct U as (U1 & U2 & U3 & U4 & U5 & U6 & b & ->).
    change (default false (Some b)) with b.
    rewrite file_node_tail.
    exists node'. cbn [state_of events_of completion_of fst snd].
    repeat split; try congruence.
    + apply Hk. congruence.
    + left. reflexivity.
    + intros pkt port a Hin. destruct b; cbn in Hin; intuition discriminate.
Qed.

Lemma artpollreply_files_node_under_mac_witness :
  exists node,
    state_of (Hartnet.dataParser [Example.eth0] 50 Example.reply_u5
                (Example.from_ip (Netmask.ipv4 10 0 0 2) Example.reply_u5)
                Scene.watched_engine)
    = Hartnet.set_nodes (<[mac_of Example.reply_u5 := node]>
                           (Hartnet.nodes Scene.watched_engine))
                        Scene.watched_engine /\
    Node.lastUpdate node = 50.
Proof.
  assert (E : from_myself [Example.eth0] Scene.watched_engine Example.reply_u5
                (Example.from_ip (Netmask.ipv4 10 0 0 2) Example.reply_u5) = false)
    by (vm_compute; reflexivity).
  pose proof (artpollreply_files_node_under_mac [Example.eth0] 50 Example.reply_u5
                (Example.from_ip (Netmask.ipv4 10 0 0 2) Example.reply_u5)
                Scene.watched_engine) as H.
  cbv zeta in H. rewrite E in H.
  destruct H as (node & H1 & _ & _ & _ & _ & _ & _ & H2 & _).
  - vm_compute. reflexivity.
  - vm_compute. reflexivity.
  - vm_compute. lia.
  - exact watched_engine_keyed.
  - exists node. split; [exact H1 | exact H2].
Defined.

(** ** The periodic poll, when it is due *)

Lemma ArtPollPacket_octets :
  Hartnet.ArtPollPacket
  = Some [65; 114; 116; 45; 78; 101; 116; 0; 0; 32; 0; 14; 0; 0].
Proof. vm_compute. reflexivity. Qed.

(** X16. When the last ArtPollReply is at least half a poll interval old,
    the timer callback sends exactly one datagram, provided the sending
    socket is bound: the 14 octets ["Art-Net\0"], 00 20, 00 0e, 00, 00, to
    the poll destination on the configured port. With the socket not yet
    bound it sends nothing. The engine is unchanged either way, and the
    datagram passes the checks [dataParser] makes on an ArtPoll, so an
    engine that receives it answers. *)
Theorem stale_poll_timer_sends_one_ArtPoll (h : Hartnet.t) (now : Z) :
  Hartnet.poll_interval (Hartnet.options h) <= 2 * (now - Hartnet.last_poll_reply h) ->
  Hartnet.on_poll_timer now h
  = (h,
     (if Hartnet.socket_ready h
      then [UdpSend [65; 114; 116; 45; 78; 101; 116; 0; 0; 32; 0; 14; 0; 0]
                    (Hartnet.port (Hartnet.options h)) (Hartnet.pollTo h)]
      else []),
     Normal tt) /\
  passes_ArtPoll_checks [65; 114; 116; 45; 78; 101; 116; 0; 0; 32; 0; 14; 0; 0].
Proof.
  intros Hold. split.
  - rewrite (on_poll_timer_polls h now Hold).
    unfold Hartnet.ArtPoll. rewrite bind_get, ArtPollPacket_octets.
    destruct (Hartnet.socket_ready h); reflexivity.
  - split; [reflexivity|]. split; [cbn; lia|].
    exists 0, 14. repeat split. lia.
Qed.

Lemma poll_engine_is_due :
  Hartnet.poll_interval (Hartnet.options Example.poll_engine)
  <= 2 * (2000 - Hartnet.last_poll_reply Example.poll_engine).
Proof. vm_compute. discriminate. Qed.

Lemma stale_poll_timer_sends_one_ArtPoll_witness :
  events_of (Hartnet.on_poll_timer 2000 Example.poll_engine)
  = [UdpSend [65; 114; 116; 45; 78; 101; 116; 0; 0; 32; 0; 14; 0; 0] 6454
             (Hartnet.pollTo Example.poll_engine)].
Proof.
  rewrite (proj1 (stale_poll_timer_sends_one_ArtPoll Example.poll_engine 2000
                    poll_engine_is_due)).
  reflexivity.
Defined.

(** ** The interface list *)

Lemma getNetworkInfo_flat (interfaces : list (string * list OS.Address)) :
  forall acc,
    fold_left (fun networkInfo entry => fold_left OS.add_address (snd entry) networkInfo)
              interfaces acc
    = fold_left OS.add_address (concat (map snd interfaces)) acc.
Proof.
  induction interfaces as [| e l IH]; intros acc; [reflexivity|].
  cbn [fold_left map concat]. rewrite fold_left_app. apply IH.
Qed.

Lemma existsb_ip (ip : Z) (l : list Iface.t) :
  existsb (fun n => Iface.ip n =? ip) l = true <-> In ip (map Iface.ip l).
Proof.
  rewrite existsb_exists, in_map_iff. split.
  - intros (n & Hin & E). apply Z.eqb_eq in E. exists n. auto.
  - intros (n & E & Hin). exists n. split; [exact Hin | apply Z.eqb_eq; exact E].
Qed.

(** What the loop keeps true of the list it builds. *)
Lemma add_address_fold (addrs : list OS.Address) :
  forall acc,
    NoDup (map Iface.ip acc) ->
    let out := fold_left OS.add_address addrs acc in
    NoDup (map Iface.ip out) /\
    (forall i, In i out ->
       In i acc \/
       exists a, In a addrs /\ OS.family_IPv4 a = true /\ OS.internal a = false /\
                 i = info_of a) /\
    (forall i, In i acc -> In i out) /\
    (forall a, In a addrs -> OS.family_IPv4 a = true -> OS.internal a = false ->
       In (OS.address a) (map Iface.ip out)).
Proof.
  induction addrs as [| a addrs IH]; intros acc Hnd; cbn [fold_left].
  - cbn zeta. repeat split; auto. intros a [].
  - assert (Hstep : NoDup (map Iface.ip (OS.add_address acc a)) /\
                    (forall i, In i acc -> In i (OS.add_address acc a)) /\
                    (forall i, In i (OS.add_address acc a) ->
                       In i acc \/
                       (OS.family_IPv4 a = true /\ OS.internal a = false /\ i = info_of a)) /\
                    (OS.family_IPv4 a = true -> OS.internal a = false ->
                     In (OS.address a) (map Iface.ip (OS.add_address acc a)))).
    { unfold OS.add_address. fold (info_of a).
      destruct (OS.family_IPv4 a) eqn:Ef; destruct (OS.internal a) eqn:Ei;
        cbn [andb negb]; try (repeat split; auto; discriminate).
      destruct (existsb (fun n => Iface.ip n =? Iface.ip (info_of a)) acc) eqn:Ex.
      - repeat split; auto. intros _ _. apply existsb_ip in Ex. exact Ex.
      - assert (Hnot : ~ In (Iface.ip (info_of a)) (map Iface.ip acc)).
        { intros Hin. apply existsb_ip in Hin. congruence. }
        repeat split.
        + rewrite map_app. cbn [map].
          apply NoDup_app. split; [exact Hnd|].
          split; [|apply NoDup_singleton].
          intros x Hx Hx'. apply list_elem_of_singleton in Hx'. subst x.
          apply Hnot. apply list_elem_of_In. exact Hx.
        + intros i Hi. apply in_or_app. left. exact Hi.
        + intros i Hi. apply in_app_or in Hi as [Hi | [<- | []]]; auto.
        + intros _ _. rewrite map_app. apply in_or_app. right. left. reflexivity. }
    destruct Hstep as (S1 & S2 & S3 & S4).
    destruct (IH (OS.add_address acc a) S1) as (I1 & I2 & I3 & I4).
    cbn zeta. split; [exact I1|]. split; [|split].
    + intros i Hi. destruct (I2 i Hi) as [Hacc | (b & Hb & Hf & Hi' & E)].
      * destruct (S3 i Hacc) as [H' | (Hf & Hi' & E)]; [left; exact H'|].
        right. exists a. split; [left; reflexivity | auto].
      * right. exists b. split; [right; exact Hb | auto].
    + intros i Hi. apply I3, S2, Hi.
    + intros b [<- | Hb] Hf Hi.
      * pose proof (S4 Hf Hi) as Hin. apply in_map_iff in Hin as (n & E & Hn).
        apply in_map_iff. exists n. split; [exact E | apply I3; exact Hn].
      * apply (I4 b Hb Hf Hi).
Qed.

(** X17. The interface list [getNetworkInfo] builds holds each address at
    most once; every entry comes from an external IPv4 address of the
    system, with that address's MAC and the netmask of its CIDR; and every
    external IPv4 address of the system is in the list. IPv6 and internal
    (loopback) addresses never get in. *)
Theorem getNetworkInfo_unique_external_ipv4
  (interfaces : list (string * list OS.Address)) :
  let addrs := concat (map snd interfaces) in
  let out := OS.getNetworkInfo interfaces in
  NoDup (map Iface.ip out) /\
  (forall i, In i out ->
     exists a, In a addrs /\ OS.family_IPv4 a = true /\ OS.internal a = false /\
               i = info_of a) /\
  (forall a, In a addrs -> OS.family_IPv4 a = true -> OS.internal a = false ->
     In (OS.address a) (map Iface.ip out)).
Proof.
  intros addrs out. subst out. unfold OS.getNetworkInfo.
  rewrite getNetworkInfo_flat. fold addrs.
  destruct (add_address_fold addrs [] NoDup_nil_2) as (H1 & H2 & _ & H4).
  split; [exact H1|]. split; [|exact H4].
  intros i Hi. destruct (H2 i Hi) as [[] | H]. exact H.
Qed.

(** ** One ArtPollReply datagram per four ports *)







(** ** The source filter of a Receiver *)

Lemma land_prefix (x k : Z) :
  0 <= x < 2 ^ 32 -> 0 <= k <= 32 ->
  Z.land x (2 ^ 32 - 2 ^ k) = x / 2 ^ k * 2 ^ k.
Proof.
  intros Hx Hk.
  assert (Em : 2 ^ 32 - 2 ^ k = Z.shiftl (Z.ones (32 - k)) k).
  { rewrite Z.shiftl_mul_pow2, Z.ones_equiv by lia.
    rewrite <- Z.sub_1_r, Z.mul_sub_distr_r, <- Z.pow_add_r by lia.
    replace (32 - k + k) with 32 by lia. lia. }
  rewrite Em, <- Z.shiftr_div_pow2, <- Z.shiftl_mul_pow2 by lia.
  apply Z.bits_inj'. intros j Hj.
  rewrite Z.land_spec.
  destruct (Z.lt_ge_cases j k) as [Hlt | Hge].
  - rewrite !Z.shiftl_spec_low by lia. apply andb_false_r.
  - rewrite !Z.shiftl_spec by lia. rewrite Z.shiftr_spec by lia.
    replace (j - k + k) with j by lia.
    destruct (Z.lt_ge_cases j 32) as [H32 | H32].
    + rewrite Z.ones_spec_low by lia. apply andb_true_r.
    + rewrite Z.ones_spec_high by lia. rewrite andb_false_r.
      symmetry. destruct (Z.eq_dec x 0) as [-> | Hx0]; [apply Z.bits_0|].
      apply Z.bits_above_log2; [lia|].
      apply Z.lt_le_trans with 32; [|exact H32].
      apply Z.log2_lt_pow2; lia.
Qed.

Lemma contains_new (a bits ip : Z) :
  0 <= a < 2 ^ 32 -> 0 <= ip < 2 ^ 32 -> 0 <= bits <= 32 ->
  Netmask.contains (Netmask.new a bits) ip = true <->
  ip / 2 ^ (32 - bits) = a / 2 ^ (32 - bits).
Proof.
  intros Ha Hip Hb. unfold Netmask.contains, Netmask.new.
  cbn [Netmask.netLong Netmask.maskLong].
  rewrite <- Z.land_assoc, Z.land_diag, Z.eqb_eq.
  destruct (Z.eqb_spec bits 0) as [-> | Hne].
  - rewrite !Z.land_0_r. change (32 - 0) with 32.
    rewrite !Z.div_small by lia. tauto.
  - rewrite !land_prefix by lia.
    assert (0 < 2 ^ (32 - bits)) by (apply Z.pow_pos_nonneg; lia).
    split; [intros E; apply Z.mul_cancel_r in E; lia | intros ->; reflexivity].
Qed.

Lemma new_receiver_ipnet (INTERFACES : list Iface.t) (opt : Receiver.Options)
                         (r : Receiver.t) :
  snd (Receiver.new INTERFACES opt) = Normal r ->
  Receiver.ipnet r
  = match Receiver.from opt with
    | None => Netmask.new (Netmask.ipv4 0 0 0 0) 0
    | Some (a, bits) => Netmask.new a (default 32 bits)
    end.
Proof.
  unfold Receiver.new.
  destruct (_ >? 32767); cbn [snd]; [discriminate|].
  intros H. apply Normal_inj in H. subst r. cbn [Receiver.ipnet].
  destruct (Receiver.from opt) as [[a [bits |]] |]; reflexivity.
Qed.

(** X19. A constructed Receiver accepts a datagram exactly when the port
    address read from it is the Receiver's and the source address shares
    the prefix of the filter given as [from]: all 32 bits when [from] has
    no prefix length, the first [bits] bits when it has one, and any source
    when there is no filter. *)
Theorem receiver_filter_is_prefix_match
  (INTERFACES : list Iface.t) (opt : Receiver.Options) (r : Receiver.t)
  (p : JS.num) (ip : Z) :
  snd (Receiver.new INTERFACES opt) = Normal r ->
  filter_ok (Receiver.from opt) -> 0 <= ip < 2 ^ 32 ->
  Receiver.acceptPacket r p ip = true <->
  p = Some (Receiver.port_address r) /\ in_filter (Receiver.from opt) ip.
Proof.
  intros Hnew Hok Hip.
  rewrite acceptPacket_iff, (new_receiver_ipnet INTERFACES opt r Hnew).
  unfold filter_ok, in_filter in *.
  destruct (Receiver.from opt) as [[a bits] |].
  - destruct Hok as [Ha Hb]. rewrite (contains_new a (default 32 bits) ip Ha Hip Hb).
    tauto.
  - assert (Netmask.contains (Netmask.new (Netmask.ipv4 0 0 0 0) 0) ip = true).
    { unfold Netmask.contains, Netmask.new. cbn [Netmask.netLong Netmask.maskLong].
      change (0 =? 0) with true. cbn iota. rewrite !Z.land_0_r. reflexivity. }
    tauto.
Qed.

Lemma receiver_u3_constructed :
  snd (Receiver.new [Example.eth0]
         (Receiver.mkOptions (Some (Netmask.ipv4 10 0 0 5, None)) 0 0 3))
  = Normal Example.receiver_u3.
Proof. vm_compute. reflexivity. Qed.

Lemma receiver_filter_is_prefix_match_witness :
  Receiver.acceptPacket Example.receiver_u3 (Some 3) (Netmask.ipv4 10 0 0 5) = true <->
  Some 3 = Some (Receiver.port_address Example.receiver_u3) /\
  in_filter (Receiver.from (Receiver.mkOptions (Some (Netmask.ipv4 10 0 0 5, None)) 0 0 3))
            (Netmask.ipv4 10 0 0 5).
Proof.
  apply (receiver_filter_is_prefix_match [Example.eth0]
           (Receiver.mkOptions (Some (Netmask.ipv4 10 0 0 5, None)) 0 0 3)
           Example.receiver_u3 (Some 3) (Netmask.ipv4 10 0 0 5)
           receiver_u3_constructed).
  - unfold filter_ok, Netmask.ipv4. cbn [Receiver.from].
    change (default 32 None) with 32. lia.
  - unfold Netmask.ipv4. lia.
Defined.

(** ** The port tables of a node *)

Lemma updatePorts_keeps (INTERFACES : list Iface.t) (ports : list Node.Port) (k : Z) :
  forall m : gmap Z Node.Port,
    is_Some (m !! k) -> is_Some (Node.updatePorts INTERFACES ports m !! k).
Proof.
  induction ports as [| x ports IH]; intros m Hm; [exact Hm|].
  rewrite updatePorts_cons. apply IH.
  destruct (Node.isCompatibleWithLocalInterfaces INTERFACES (Node.ip x)); [|exact Hm].
  destruct (decide (Node.portNumber x = k)) as [<- | Hne].
  - rewrite lookup_insert_eq. eexists. reflexivity.
  - rewrite lookup_insert_ne by exact Hne. exact Hm.
Qed.

Lemma updatePorts_entries (INTERFACES : list Iface.t) (ports : list Node.Port)
                          (k : Z) (p : Node.Port) :
  forall m : gmap Z Node.Port,
    Node.updatePorts INTERFACES ports m !! k = Some p ->
    m !! k = Some p \/
    (In p ports /\ Node.portNumber p = k /\
     Node.isCompatibleWithLocalInterfaces INTERFACES (Node.ip p) = true).
Proof.
  induction ports as [| x ports IH]; intros m Hm; [left; exact Hm|].
  rewrite updatePorts_cons in Hm.
  destruct (IH _ Hm) as [Hin | (Hin & Hk & Hc)].
  - destruct (Node.isCompatibleWithLocalInterfaces INTERFACES (Node.ip x)) eqn:Hc;
      [|left; exact Hin].
    apply lookup_insert_Some in Hin as [[Hk <-] | [_ Hin]].
    + right. split; [left; reflexivity | split; assumption].
    + left. exact Hin.
  - right. split; [right; exact Hin | split; assumption].
Qed.

(** X20. An update from an ArtPollReply never removes a port from a node:
    every port number recorded before is still recorded after. Whatever a
    port table holds after the update was there before or is a port of the
    reply, filed under its own port number, whose IP is the address of a
    local interface or lies in the subnet of one; a port from any other
    address is never recorded. *)
Theorem node_ports_only_grow_and_only_local
  (INTERFACES : list Iface.t) (now : Z) (data : Node.Reply) (this : Node.t) :
  let this' := upserted INTERFACES now data this in
  (forall k, is_Some (Node.inPorts this !! k) -> is_Some (Node.inPorts this' !! k)) /\
  (forall k, is_Some (Node.outPorts this !! k) -> is_Some (Node.outPorts this' !! k)) /\
  (forall k p, Node.inPorts this' !! k = Some p ->
     Node.inPorts this !! k = Some p \/
     (In p (Node.r_inPorts data) /\ Node.portNumber p = k /\
      Node.isCompatibleWithLocalInterfaces INTERFACES (Node.ip p) = true)) /\
  (forall k p, Node.outPorts this' !! k = Some p ->
     Node.outPorts this !! k = Some p \/
     (In p (Node.r_outPorts data) /\ Node.portNumber p = k /\
      Node.isCompatibleWithLocalInterfaces INTERFACES (Node.ip p) = true)).
Proof.
  unfold upserted, Node.updateFromArtPollReply.
  destruct (bool_decide (Node.mac this = Node.r_mac data)); cbn [negb fst].
  - cbn [Node.inPorts Node.outPorts].
    repeat split.
    + intros k. apply updatePorts_keeps.
    + intros k. apply updatePorts_keeps.
    + intros k p. apply updatePorts_entries.
    + intros k p. apply updatePorts_entries.
  - repeat split; auto.
Qed.

(** ** Destination and interfaces of a Sender *)

Lemma resolve_as_fold (INTERFACES : list Iface.t) (o : Sender.Options) :
  Sender.resolve INTERFACES o
  = if Sender.to o =? Netmask.ipv4 255 255 255 255
    then (true, Some (Sender.to o), INTERFACES)
    else fold_left (resolve_step (Sender.to o)) INTERFACES (Sender.broadcast o, None, []).
Proof.
  unfold Sender.resolve.
  destruct (Sender.to o =? Netmask.ipv4 255 255 255 255); [reflexivity|].
  generalize (Sender.broadcast o, @None Z, @nil Iface.t) as acc.
  induction INTERFACES as [| x l IH]; intros acc; [reflexivity|].
  cbn [fold_left]. rewrite <- IH.
  destruct acc as [[bc ip] ifs]. reflexivity.
Qed.

Lemma resolve_fold (to : Z) (INTERFACES : list Iface.t) :
  forall (bc : bool) (ip : option Z) (ifs : list Iface.t),
    exists bc' ip',
      fold_left (resolve_step to) INTERFACES (bc, ip, ifs)
      = (bc', ip', ifs ++ reaching INTERFACES to) /\
      (reaching INTERFACES to = [] -> bc' = bc /\ ip' = ip) /\
      (reaching INTERFACES to <> [] ->
       ip' = Some to \/
       (bc' = true /\
        exists i, In i (reaching INTERFACES to) /\
                  Netmask.broadcast (Iface.netmask i) = ip')).
Proof.
  unfold reaching.
  induction INTERFACES as [| x l IH]; intros bc ip ifs; cbn [fold_left List.filter].
  - exists bc, ip. rewrite app_nil_r. split; [reflexivity|]. split; [auto | congruence].
  - unfold resolve_step at 2.
    destruct (Netmask.contains (Iface.netmask x) to) eqn:Hc.
    + cbv zeta.
      set (bc1 := match Netmask.broadcast (Iface.netmask x) with
                  | Some b => if to =? b then true else bc
                  | None => bc
                  end).
      set (ip1 := match Netmask.broadcast (Iface.netmask x) with
                  | Some b => if bc1 then Some b else Some to
                  | None => Some to
                  end).
      assert (H1 : ip1 = Some to \/
                   (bc1 = true /\ Netmask.broadcast (Iface.netmask x) = ip1)).
      { subst ip1. destruct (Netmask.broadcast (Iface.netmask x)) as [b |]; [|left; reflexivity].
        destruct bc1; [right; split; reflexivity | left; reflexivity]. }
      destruct (IH bc1 ip1 (ifs ++ [x])) as (bc' & ip' & Hf & Hnone & Hsome).
      exists bc', ip'. rewrite Hf, <- app_assoc. split; [reflexivity|].
      split; [discriminate|]. intros _.
      destruct (List.filter _ l) as [| y rest] eqn:Hfl.
      * destruct (Hnone eq_refl) as [-> ->].
        destruct H1 as [H1 | [H1 H2]]; [left; exact H1|].
        right. split; [exact H1|]. exists x. split; [left; reflexivity | exact H2].
      * destruct (Hsome ltac:(discriminate)) as [H | (Hb & i & Hi & Hbi)];
          [left; exact H|].
        right. split; [exact Hb|]. exists i. split; [right; exact Hi | exact Hbi].
    + apply IH.
Qed.

(** X21. A constructed Sender starts unbound, with sequence number 1 and
    512 channels at 0. Addressed to 255.255.255.255 it uses every local
    interface and broadcasts to that address. Otherwise its interfaces are
    exactly the local interfaces whose subnet holds the destination, in
    their order; when there is none, the Sender has no destination at all
    and a warning is logged; when there is one, the destination is the
    address given or, in broadcast mode, the broadcast address of such an
    interface. *)
Theorem sender_destination_and_interfaces
  (INTERFACES : list Iface.t) (opt : Sender.Options) (s : Sender.t) :
  snd (Sender.new INTERFACES opt) = Normal s ->
  Sender.socket_ready s = false /\ Sender.ArtDmxSeq s = 1 /\
  Sender.values s = repeat 0 512 /\
  (Sender.to opt = Netmask.ipv4 255 255 255 255 ->
   Sender.interfaces s = INTERFACES /\ Sender.ip4 s = Some (Sender.to opt) /\
   Sender.broadcast (Sender.options s) = true) /\
  (Sender.to opt <> Netmask.ipv4 255 255 255 255 ->
   Sender.interfaces s = reaching INTERFACES (Sender.to opt) /\
   (Sender.interfaces s = [] ->
    Sender.ip4 s = None /\
    Sender.broadcast (Sender.options s) = Sender.broadcast opt /\
    fst (Sender.new INTERFACES opt) = [Log NoMatchingInterface]) /\
   (Sender.interfaces s <> [] ->
    fst (Sender.new INTERFACES opt) = [] /\
    (Sender.ip4 s = Some (Sender.to opt) \/
     (Sender.broadcast (Sender.options s) = true /\
      exists i, In i (Sender.interfaces s) /\
                Netmask.broadcast (Iface.netmask i) = Sender.ip4 s)))).
Proof.
  unfold Sender.new. rewrite resolve_as_fold.
  generalize (PortAddress.calculate (Sender.net opt) (Sender.subnet opt)
                                    (Sender.universe opt)) as pa.
  intros pa.
  destruct (PortAddress.port_address pa >? 32767); cbn [snd fst]; [discriminate|].
  remember (repeat 0 512) as zeros.
  destruct (Z.eqb_spec (Sender.to opt) (Netmask.ipv4 255 255 255 255)) as [Eto | Nto].
  - cbn [snd fst]. intros H. apply Normal_inj in H. subst s.
    cbn [Sender.socket_ready Sender.ArtDmxSeq Sender.values Sender.interfaces
         Sender.ip4 Sender.options Sender.broadcast].
    split; [reflexivity|]. split; [reflexivity|]. split; [reflexivity|].
    split; [intros _; repeat split | intros N; contradiction].
  - destruct (resolve_fold (Sender.to opt) INTERFACES (Sender.broadcast opt) None [])
      as (bc' & ip' & -> & Hnone & Hsome).
    cbn [app snd fst]. intros H. apply Normal_inj in H. subst s.
    cbn [Sender.socket_ready Sender.ArtDmxSeq Sender.values Sender.interfaces
         Sender.ip4 Sender.options Sender.broadcast].
    split; [reflexivity|]. split; [reflexivity|]. split; [reflexivity|].
    split; [congruence|]. intros _. split; [reflexivity|].
    destruct (reaching INTERFACES (Sender.to opt)) as [| y rest] eqn:Er.
    + destruct (Hnone eq_refl) as [-> ->].
      split; [intros _; repeat split | congruence].
    + split; [discriminate|]. intros _. split; [reflexivity|].
      apply Hsome. discriminate.
Qed.

Lemma default_sender_constructed :
  snd (Sender.new [Example.eth0] Sender.default_options)
  = Normal (Example.sender_of Sender.default_options).
Proof. vm_compute. reflexivity. Qed.

Lemma sender_destination_and_interfaces_witness :
  Sender.socket_ready (Example.sender_of Sender.default_options) = false.
Proof.
  exact (proj1 (sender_destination_and_interfaces [Example.eth0]
                  Sender.default_options (Example.sender_of Sender.default_options)
                  default_sender_constructed)).
Defined.

(** ** Registering devices *)








